(** * aiobastion: the AIM (Central Credential Provider) client

    A shallow embedding of [src/aiobastion/aim.py] (class [EPV_AIM]) and the
    properties of its request execution subsystem: construction and
    configuration validation, TLS setup, session life cycle, parameter
    validation and the classification of HTTP responses.

    Python objects are modelled by the value universe [pyval]; exceptions by
    the type [exn]; a call either returns, raises or never resumes
    ([outcome]).  Methods that mutate [self] are state transformers over the
    object record [EPV_AIM] and a [World] that counts the sessions and
    semaphores created. *)

From Stdlib Require Import String Ascii List ZArith Bool Lia Permutation.
From Stdlib Require Import DecimalString.
Import ListNotations.

Local Open Scope string_scope.
Local Open Scope Z_scope.

(* ================================================================== *)
(** ** Strings *)

(** [str.lower()], restricted to ASCII letters (all the names the code
    compares against are ASCII). *)
Definition lower_ascii (c : ascii) : ascii :=
  let n := nat_of_ascii c in
  if ((65 <=? n) && (n <=? 90))%nat then ascii_of_nat (n + 32) else c.

Fixpoint lower (s : string) : string :=
  match s with
  | EmptyString => EmptyString
  | String c s' => String (lower_ascii c) (lower s')
  end.

(** [a in b] for two strings: [a] occurs in [b] as a substring. *)
Fixpoint substringb (a b : string) : bool :=
  if prefix a b then true
  else match b with
       | EmptyString => false
       | String _ b' => substringb a b'
       end.

(** [x in l] for a list of strings. *)
Definition mem_str (x : string) (l : list string) : bool :=
  existsb (String.eqb x) l.

Definition Z_to_string (z : Z) : string := NilZero.string_of_int (Z.to_int z).

(* ================================================================== *)
(** ** Python values *)

(** The Python values the code inspects: [None], booleans, integers,
    strings, lists and dictionaries with string keys (keyword arguments and
    JSON objects).  A dictionary is an association list in insertion order,
    as Python dictionaries are.  Floats are left out: no test of the code
    tells a float from an integer. *)
#[warnings="-register-all"]
Inductive pyval : Type :=
| PNone
| PBool (b : bool)
| PInt (n : Z)
| PStr (s : string)
| PList (l : list pyval)
| PDict (d : list (string * pyval)).

Definition dict : Type := list (string * pyval).

Definition keys (d : dict) : list string := map fst d.

Fixpoint dict_get (k : string) (d : dict) : option pyval :=
  match d with
  | [] => None
  | (k', v) :: d' => if String.eqb k k' then Some v else dict_get k d'
  end.

Definition dict_contains (k : string) (d : dict) : bool :=
  match dict_get k d with Some _ => true | None => false end.

(** [del d[k]]: the entry disappears, the others keep their order. *)
Fixpoint dict_remove (k : string) (d : dict) : dict :=
  match d with
  | [] => []
  | (k', v) :: d' =>
      if String.eqb k k' then dict_remove k d' else (k', v) :: dict_remove k d'
  end.

(** [d[k] = v]: an existing key keeps its position, a new key goes last. *)
Fixpoint dict_setitem (k : string) (v : pyval) (d : dict) : dict :=
  match d with
  | [] => [(k, v)]
  | (k', v') :: d' =>
      if String.eqb k k' then (k, v) :: d' else (k', v') :: dict_setitem k v d'
  end.

(** [d.setdefault(k, v)]: inserts only when [k] is absent. *)
Definition dict_setdefault (k : string) (v : pyval) (d : dict) : dict :=
  if dict_contains k d then d else dict_setitem k v d.

Definition is_str (v : pyval) : bool :=
  match v with PStr _ => true | _ => false end.

Definition is_bool (v : pyval) : bool :=
  match v with PBool _ => true | _ => false end.

Definition is_None (v : pyval) : bool :=
  match v with PNone => true | _ => false end.

(** [v is False] *)
Definition is_False (v : pyval) : bool :=
  match v with PBool false => true | _ => false end.

(** [v == s] for a string literal [s]. *)
Definition eq_str (v : pyval) (s : string) : bool :=
  match v with PStr s' => String.eqb s' s | _ => false end.

(** Truth value of an object ([if v:]). *)
Definition truthy (v : pyval) : bool :=
  match v with
  | PNone => false
  | PBool b => b
  | PInt n => negb (n =? 0)
  | PStr s => negb (String.eqb s EmptyString)
  | PList l => match l with [] => false | _ => true end
  | PDict d => match d with [] => false | _ => true end
  end.

Definition type_name (v : pyval) : string :=
  match v with
  | PNone => "NoneType"
  | PBool _ => "bool"
  | PInt _ => "int"
  | PStr _ => "str"
  | PList _ => "list"
  | PDict _ => "dict"
  end.

(** [str(type(v))] *)
Definition py_type (v : pyval) : string := "<class '" ++ type_name v ++ "'>".

(* ================================================================== *)
(** ** Exceptions and outcomes *)

(** Modelled from the spec: the exception classes of [aiobastion.exceptions]
    (imported by [aim.py], declared outside the source tree).  Each class is
    a constructor carrying the arguments given at the raise sites.  Following
    the error taxonomy of the specification they are unrelated to the
    built-in [KeyError], [ValueError] and to aiohttp's [ClientError].  In
    this file configuration errors are raised as [AiobastionException] by
    the instance methods and as [AiobastionConfigurationException] by the
    class methods; API errors are [CyberarkAPIException], the not-found
    error is [CyberarkAIMnotFound] and runtime errors are
    [CyberarkException].  The remaining constructors are the Python and
    aiohttp exceptions the code meets. *)
Inductive exn : Type :=
| AiobastionException (msg : string)
| AiobastionConfigurationException (msg : string)
| CyberarkException (msg : string)
| CyberarkAPIException (http_status : Z) (err_code err_message details : pyval)
| CyberarkAIMnotFound (http_status : Z) (err_code err_message details : pyval)
| AssertionError
| AttributeError (msg : string)
| TypeError (msg : string)
| ValueError (msg : string)
| KeyError (key : string)
| JSONDecodeError (msg : string)
| ContentTypeError (msg : string)
| ClientError (msg : string)
| OtherError (cls msg : string).

(** [str(err)] *)
Definition exn_str (e : exn) : string :=
  match e with
  | AiobastionException m | AiobastionConfigurationException m
  | CyberarkException m | AttributeError m | TypeError m | ValueError m
  | JSONDecodeError m | ContentTypeError m | ClientError m
  | OtherError _ m => m
  | KeyError k => "'" ++ k ++ "'"
  | AssertionError => EmptyString
  | CyberarkAPIException _ _ _ _ | CyberarkAIMnotFound _ _ _ _ => EmptyString
  end.

(** [except json.decoder.JSONDecodeError] *)
Definition is_JSONDecodeError (e : exn) : bool :=
  match e with JSONDecodeError _ => true | _ => false end.

(** [except (KeyError, ValueError, ContentTypeError)]; [JSONDecodeError] is
    a subclass of [ValueError]. *)
Definition is_Key_Value_ContentType_Error (e : exn) : bool :=
  match e with
  | KeyError _ | ValueError _ | JSONDecodeError _ | ContentTypeError _ => true
  | _ => false
  end.

(** [except aiohttp.ClientError]; [ContentTypeError] is a subclass. *)
Definition is_ClientError (e : exn) : bool :=
  match e with
  | ClientError _ | ContentTypeError _ => true
  | _ => false
  end.

(** What a call does: it returns a value, raises, or is suspended on the
    semaphore with nobody to wake it up. *)
Inductive outcome (A : Type) : Type :=
| Return (a : A)
| Raise (e : exn)
| Blocked.
Arguments Return {A} a.
Arguments Raise {A} e.
Arguments Blocked {A}.

(** [x in container] *)
Definition py_in (x : string) (container : pyval) : outcome bool :=
  match container with
  | PDict d => Return (dict_contains x d)
  | PList l => Return (existsb (fun v => eq_str v x) l)
  | PStr s => Return (substringb x s)
  | _ => Raise (TypeError ("argument of type '" ++ type_name container
                            ++ "' is not iterable"))
  end.

(** [container[key]] for a string key. *)
Definition py_getitem (container : pyval) (key : string) : outcome pyval :=
  match container with
  | PDict d => match dict_get key d with
               | Some v => Return v
               | None => Raise (KeyError key)
               end
  | PList _ => Raise (TypeError "list indices must be integers or slices, not str")
  | PStr _ => Raise (TypeError "string indices must be integers, not 'str'")
  | _ => Raise (TypeError ("'" ++ type_name container
                            ++ "' object is not subscriptable"))
  end.

(* ================================================================== *)
(** ** The environment of the client *)

(** The TLS context built by [ssl.create_default_context] and the fields of
    it the code sets. *)
Inductive trust_store : Type :=
| DefaultTrustStore
| CAfile (path : string)
| CApath (path : string).

Record ssl_context : Type := mk_ssl_context {
  trust : trust_store;
  check_hostname : bool;
  cert_chain : option (pyval * pyval * pyval)
}.

(** [self.request_params]: the keyword arguments added to every request. *)
Record request_params_t : Type := mk_request_params {
  rp_timeout : pyval;
  rp_ssl : ssl_context
}.

(** The response object [req]: its status, what [await req.json()] does and
    the text of the body. *)
Record response : Type := mk_response {
  status : Z;
  json : outcome pyval;
  text : string
}.

(** What [session.request(...)] does: it raises (connection, TLS, timeout)
    or yields a response. *)
Inductive net_outcome : Type :=
| NetRaise (e : exn)
| NetResponse (r : response).

(** Modelled from the spec: the constants of class [EPV]
    ([aiobastion.cyberark], outside the source tree) that supply the default
    timeout, concurrency, cookie and verify settings, together with the
    Python built-ins, the file system, the [ssl] module and the network that
    the methods call. *)
Record Env : Type := mk_Env {
  CYBERARK_DEFAULT_TIMEOUT : pyval;
  CYBERARK_DEFAULT_MAX_CONCURRENT_TASKS : pyval;
  CYBERARK_DEFAULT_KEEP_COOKIES : pyval;
  CYBERARK_DEFAULT_VERIFY : pyval;
  (** [repr(v)] *)
  py_repr : pyval -> string;
  (** [int(v)]: a number, [ValueError] or [TypeError] *)
  py_int : pyval -> outcome Z;
  (** [HTTPStatus(n).phrase], [None] when [n] is not a member *)
  HTTPStatus_phrase : Z -> option string;
  os_path_exists : pyval -> outcome bool;
  os_path_isdir : pyval -> bool;
  (** [ssl.create_default_context(cafile, capath)] may fail *)
  ssl_create_default_context : trust_store -> option exn;
  (** [ssl_context.load_cert_chain(cert, keyfile, password)] may fail *)
  ssl_load_cert_chain : pyval -> pyval -> pyval -> option exn;
  (** [session.request(method, url, headers, params, timeout, ssl)] *)
  session_request :
    string -> string -> list (string * string) -> pyval ->
    request_params_t -> net_outcome
}.

(** [str(v)], also what an f-string field prints. *)
Definition py_str (E : Env) (v : pyval) : string :=
  match v with
  | PStr s => s
  | _ => py_repr E v
  end.

(* ================================================================== *)
(** ** The object and the world *)

Record ClientSession : Type := mk_ClientSession { session_id : nat }.

Record Semaphore : Type := mk_Semaphore { sem_id : nat; sem_value : Z }.

(** An instance of [EPV_AIM]. *)
Record EPV_AIM : Type := mk_EPV_AIM {
  host : pyval;
  appid : pyval;
  cert : pyval;
  key : pyval;
  passphrase : pyval;
  verify : pyval;
  timeout : pyval;
  max_concurrent_tasks : pyval;
  keep_cookies : pyval;
  sema : option Semaphore;
  session : option ClientSession;
  request_params : option request_params_t
}.

(** What exists outside the object: how many sessions and semaphores were
    created, which sessions were closed and what was printed. *)
Record World : Type := mk_World {
  sessions_created : nat;
  semaphores_created : nat;
  sessions_closed : list nat;
  stdout : list string
}.

Definition set_host v (o : EPV_AIM) :=
  mk_EPV_AIM v (appid o) (cert o) (key o) (passphrase o) (verify o) (timeout o)
    (max_concurrent_tasks o) (keep_cookies o) (sema o) (session o) (request_params o).
Definition set_appid v (o : EPV_AIM) :=
  mk_EPV_AIM (host o) v (cert o) (key o) (passphrase o) (verify o) (timeout o)
    (max_concurrent_tasks o) (keep_cookies o) (sema o) (session o) (request_params o).
Definition set_cert v (o : EPV_AIM) :=
  mk_EPV_AIM (host o) (appid o) v (key o) (passphrase o) (verify o) (timeout o)
    (max_concurrent_tasks o) (keep_cookies o) (sema o) (session o) (request_params o).
Definition set_key v (o : EPV_AIM) :=
  mk_EPV_AIM (host o) (appid o) (cert o) v (passphrase o) (verify o) (timeout o)
    (max_concurrent_tasks o) (keep_cookies o) (sema o) (session o) (request_params o).
Definition set_passphrase v (o : EPV_AIM) :=
  mk_EPV_AIM (host o) (appid o) (cert o) (key o) v (verify o) (timeout o)
    (max_concurrent_tasks o) (keep_cookies o) (sema o) (session o) (request_params o).
Definition set_verify v (o : EPV_AIM) :=
  mk_EPV_AIM (host o) (appid o) (cert o) (key o) (passphrase o) v (timeout o)
    (max_concurrent_tasks o) (keep_cookies o) (sema o) (session o) (request_params o).
Definition set_timeout v (o : EPV_AIM) :=
  mk_EPV_AIM (host o) (appid o) (cert o) (key o) (passphrase o) (verify o) v
    (max_concurrent_tasks o) (keep_cookies o) (sema o) (session o) (request_params o).
Definition set_max_concurrent_tasks v (o : EPV_AIM) :=
  mk_EPV_AIM (host o) (appid o) (cert o) (key o) (passphrase o) (verify o) (timeout o)
    v (keep_cookies o) (sema o) (session o) (request_params o).
Definition set_keep_cookies v (o : EPV_AIM) :=
  mk_EPV_AIM (host o) (appid o) (cert o) (key o) (passphrase o) (verify o) (timeout o)
    (max_concurrent_tasks o) v (sema o) (session o) (request_params o).
Definition set_sema v (o : EPV_AIM) :=
  mk_EPV_AIM (host o) (appid o) (cert o) (key o) (passphrase o) (verify o) (timeout o)
    (max_concurrent_tasks o) (keep_cookies o) v (session o) (request_params o).
Definition set_session v (o : EPV_AIM) :=
  mk_EPV_AIM (host o) (appid o) (cert o) (key o) (passphrase o) (verify o) (timeout o)
    (max_concurrent_tasks o) (keep_cookies o) (sema o) v (request_params o).
Definition set_request_params v (o : EPV_AIM) :=
  mk_EPV_AIM (host o) (appid o) (cert o) (key o) (passphrase o) (verify o) (timeout o)
    (max_concurrent_tasks o) (keep_cookies o) (sema o) (session o) v.

(** [getattr(self, name, None)] for the configuration attributes. *)
Definition getattr (o : EPV_AIM) (name : string) : pyval :=
  if String.eqb name "host" then host o
  else if String.eqb name "appid" then appid o
  else if String.eqb name "cert" then cert o
  else if String.eqb name "key" then key o
  else if String.eqb name "passphrase" then passphrase o
  else if String.eqb name "verify" then verify o
  else if String.eqb name "timeout" then timeout o
  else if String.eqb name "max_concurrent_tasks" then max_concurrent_tasks o
  else if String.eqb name "keep_cookies" then keep_cookies o
  else PNone.

(** [setattr(self, name, v)] for the configuration attributes. *)
Definition setattr (o : EPV_AIM) (name : string) (v : pyval) : EPV_AIM :=
  if String.eqb name "host" then set_host v o
  else if String.eqb name "appid" then set_appid v o
  else if String.eqb name "cert" then set_cert v o
  else if String.eqb name "key" then set_key v o
  else if String.eqb name "passphrase" then set_passphrase v o
  else if String.eqb name "verify" then set_verify v o
  else if String.eqb name "timeout" then set_timeout v o
  else if String.eqb name "max_concurrent_tasks" then set_max_concurrent_tasks v o
  else if String.eqb name "keep_cookies" then set_keep_cookies v o
  else o.

(** A method: it runs on the object and the world and leaves both behind,
    also when it raises. *)
Definition M (A : Type) : Type := EPV_AIM -> World -> outcome A * EPV_AIM * World.

Definition ret {A} (a : A) : M A := fun o w => (Return a, o, w).
Definition raise {A} (e : exn) : M A := fun o w => (Raise e, o, w).
Definition bind {A B} (m : M A) (k : A -> M B) : M B :=
  fun o w =>
    match m o w with
    | (Return a, o', w') => k a o' w'
    | (Raise e, o', w') => (Raise e, o', w')
    | (Blocked, o', w') => (Blocked, o', w')
    end.
Definition get_self : M EPV_AIM := fun o w => (Return o, o, w).
Definition modify_self (f : EPV_AIM -> EPV_AIM) : M unit :=
  fun o w => (Return tt, f o, w).
Definition lift {A} (r : outcome A) : M A := fun o w => (r, o, w).

Declare Scope py_scope.
Delimit Scope py_scope with py.
Notation "x <- m ;; k" := (bind m (fun x => k))
  (at level 100, m at next level, right associativity) : py_scope.
Notation "m ;;; k" := (bind m (fun _ => k))
  (at level 100, right associativity) : py_scope.
Local Open Scope py_scope.

(** The same sequencing for code that touches neither object nor world. *)
Definition obind {A B} (r : outcome A) (k : A -> outcome B) : outcome B :=
  match r with
  | Return a => k a
  | Raise e => Raise e
  | Blocked => Blocked
  end.
Notation "x <~ r ;; k" := (obind r (fun x => k))
  (at level 100, r at next level, right associativity) : py_scope.

(* ================================================================== *)
(** ** Class [EPV_AIM]: construction and configuration *)

Section WithEnv.

Variable E : Env.

Definition _SERIALIZED_FIELDS_IN : list string :=
  ["host"; "appid"; "cert"; "key"; "verify"; "timeout"; "max_concurrent_tasks";
   "keep_cookies"; "passphrase"].

Definition _GETPASSWORD_REQUEST_PARM : list string :=
  ["safe"; "folder"; "object"; "username"; "address"; "database";
   "policyid"; "reason"; "connectiontimeout"; "query"; "queryformat";
   "failrequestonpasswordchange"].

(** The loop over [serialized.items()] of [__init__]. *)
Fixpoint init_serialized (items : dict) (self : EPV_AIM) : outcome EPV_AIM :=
  match items with
  | [] => Return self
  | (k, v) :: rest =>
      let keyname := lower k in
      if mem_str keyname _SERIALIZED_FIELDS_IN
      then init_serialized rest (setattr self keyname v)
      else Raise (AiobastionException
                    ("Unknown serialized AIM field: " ++ k ++ " = " ++ py_repr E v))
  end.

(** [EPV_AIM.__init__]; every argument is passed, a caller that omits one
    passes its default ([None], or the constant of [EPV]). *)
Definition __init__
    (a_host a_appid a_cert a_key a_passphrase a_verify a_timeout
     a_max_concurrent_tasks a_keep_cookies serialized : pyval)
  : outcome EPV_AIM :=
  let self0 :=
    mk_EPV_AIM a_host a_appid a_cert a_key a_passphrase a_verify a_timeout
      a_max_concurrent_tasks a_keep_cookies None None None in
  self1 <~ (if truthy serialized
            then match serialized with
                 | PDict d => init_serialized d self0
                 | _ => Raise (AttributeError
                                 ("'" ++ type_name serialized
                                  ++ "' object has no attribute 'items'"))
                 end
            else Return self0) ;;
  let self2 :=
    if is_None (timeout self1)
    then set_timeout (CYBERARK_DEFAULT_TIMEOUT E) self1 else self1 in
  let self3 :=
    if is_None (max_concurrent_tasks self2)
    then set_max_concurrent_tasks (CYBERARK_DEFAULT_MAX_CONCURRENT_TASKS E) self2
    else self2 in
  if negb (is_False (verify self3))
     && negb (is_str (verify self3) && negb (is_bool (verify self3)))
  then Raise (AiobastionException
                ("Invalid type for parameter 'verify' in AIM: "
                 ++ py_type (verify self3) ++ " value: "
                 ++ py_repr E (verify self3)))
  else Return self3.

(** [except ValueError] *)
Definition is_ValueError (e : exn) : bool :=
  match e with ValueError _ | JSONDecodeError _ => true | _ => false end.

(** [EPV_AIM._to_integer]: the handler builds a message and executes
    [raise s] with the string [s], which Python answers with a
    [TypeError]. *)
Definition _to_integer (val : pyval) (keyname section : string) (configfile : pyval)
  : outcome Z :=
  match py_int E val with
  | Return v => Return v
  | Raise e =>
      if is_ValueError e
      then Raise (TypeError "exceptions must derive from BaseException")
      else Raise e
  | Blocked => Blocked
  end.

(** The loop over [serialized.keys()] of [_init_validate_class_attributes];
    it carries [serialized_aim] and the two synonym counters. *)
Fixpoint validate_class_attributes_loop
    (items : dict) (section : string) (configfile : pyval)
    (serialized_aim : dict) (synonym_verify synonym_max_concurrent_tasks : nat)
  : outcome (dict * nat * nat) :=
  match items with
  | [] => Return (serialized_aim, synonym_verify, synonym_max_concurrent_tasks)
  | (k, v) :: rest =>
      let keyname := lower k in
      if mem_str keyname ["appid"; "cert"; "host"; "key"; "passphrase"] then
        validate_class_attributes_loop rest section configfile
          (dict_setitem keyname v serialized_aim)
          synonym_verify synonym_max_concurrent_tasks
      else if substringb keyname "timeout" then
        n <~ _to_integer v keyname section configfile ;;
        validate_class_attributes_loop rest section configfile
          (dict_setitem keyname (PInt n) serialized_aim)
          synonym_verify synonym_max_concurrent_tasks
      else if String.eqb keyname "keep_cookies" then
        if is_bool v then
          validate_class_attributes_loop rest section configfile
            (dict_setitem keyname v serialized_aim)
            synonym_verify synonym_max_concurrent_tasks
        else
          Raise (AiobastionConfigurationException
                   (if truthy configfile
                    then "Invalid boolean defintion '" ++ keyname
                         ++ "'  within section '" ++ section ++ "' in "
                         ++ py_str E configfile ++ ": " ++ py_repr E v
                    else "Invalid boolean defintion '" ++ keyname
                         ++ "'  within section '" ++ section ++ "': "
                         ++ py_repr E v))
      else if mem_str keyname ["maxtasks"; "max_concurrent_tasks"] then
        n <~ _to_integer v keyname section configfile ;;
        validate_class_attributes_loop rest section configfile
          (dict_setitem "max_concurrent_tasks" (PInt n) serialized_aim)
          synonym_verify (S synonym_max_concurrent_tasks)
      else if mem_str keyname ["ca"; "verify"] then
        validate_class_attributes_loop rest section configfile
          (dict_setitem "verify" v serialized_aim)
          (S synonym_verify) synonym_max_concurrent_tasks
      else
        Raise (AiobastionConfigurationException
                 ("Unknown attribute '" ++ k ++ "' within section 'AIM' in "
                  ++ py_str E configfile))
  end.

(** [EPV_AIM._init_validate_class_attributes] *)
Definition _init_validate_class_attributes
    (serialized : dict) (section : string) (configfile : pyval) : outcome dict :=
  let serialized_aim : dict :=
    [("appid", PNone); ("cert", PNone); ("host", PNone);
     ("keep_cookies", CYBERARK_DEFAULT_KEEP_COOKIES E); ("key", PNone);
     ("max_concurrent_tasks", PNone); ("passphrase", PNone);
     ("timeout", PNone); ("verify", PNone)] in
  r <~ validate_class_attributes_loop serialized section configfile
         serialized_aim 0%nat 0%nat ;;
  let '(serialized_aim', synonym_verify, synonym_max_concurrent_tasks) := r in
  if (1 <? synonym_verify)%nat then
    Raise (AiobastionConfigurationException
             ("Duplicate synonym parameter: 'ca', 'verify' within section 'AIM'."
              ++ "Specify only one of them."))
  else if (1 <? synonym_max_concurrent_tasks)%nat then
    Raise (AiobastionConfigurationException
             ("Duplicate synonym parameter: 'maxtasks', 'max_concurrent_tasks' "
              ++ "within section 'AIM' in " ++ py_str E configfile ++ "."
              ++ "Specify only one of them."))
  else Return serialized_aim'.

(* ================================================================== *)
(** ** TLS setup *)

(** The loop over the mandatory attributes: the first one that is [None]. *)
Fixpoint first_missing (names : list string) (self : EPV_AIM) : option string :=
  match names with
  | [] => None
  | attr_name :: rest =>
      if is_None (getattr self attr_name) then Some attr_name
      else first_missing rest self
  end.

(** [ssl.create_default_context(...)]: hostname checking is on. *)
Definition create_default_context (store : trust_store) : M ssl_context :=
  match ssl_create_default_context E store with
  | Some e => raise e
  | None => ret (mk_ssl_context store true None)
  end.

Definition path_of (v : pyval) : string :=
  match v with PStr s => s | _ => EmptyString end.

(** [EPV_AIM.validate_and_setup_aim_ssl] *)
Definition validate_and_setup_aim_ssl : M unit :=
  self <- get_self ;;
  match session self with
  | Some _ => ret tt
  | None =>
  match first_missing ["host"; "appid"; "cert"] self with
  | Some attr_name =>
      raise (AiobastionException
               ("Missing AIM mandatory parameter '" ++ attr_name ++ "'."
                ++ " Required parameters are: host, appid, key."))
  | None =>
  cert_exists <- lift (os_path_exists E (cert self)) ;;
  if negb cert_exists then
    raise (AiobastionException
             ("Parameter 'cert' in AIM: Public certificate file not found: "
              ++ py_repr E (cert self)))
  else
  key_missing <- (if truthy (key self)
                  then key_exists <- lift (os_path_exists E (key self)) ;;
                       ret (negb key_exists)
                  else ret false) ;;
  if (key_missing : bool) then
    raise (AiobastionException
             ("Parameter 'key' in AIM: Private key certificat file not found: "
              ++ py_repr E (key self)))
  else
  (if is_False (verify self)
   then modify_self (set_verify (CYBERARK_DEFAULT_VERIFY E))
   else ret tt) ;;;
  self <- get_self ;;
  if negb (is_str (verify self) || is_bool (verify self)) then
    raise (AiobastionException
             ("Invalid type for parameter 'verify' (or 'CA') in AIM: "
              ++ py_type (verify self) ++ " value: " ++ py_repr E (verify self)))
  else
  verify_missing <- (if is_str (verify self)
                     then verify_exists <- lift (os_path_exists E (verify self)) ;;
                          ret (negb verify_exists)
                     else ret false) ;;
  if (verify_missing : bool) then
    raise (AiobastionException
             ("Parameter 'verify' in AIM: file not found " ++ py_repr E (verify self)))
  else
  ssl_context0 <-
    (if is_str (verify self) then
       verify_exists <- lift (os_path_exists E (verify self)) ;;
       if negb verify_exists then
         raise (AiobastionException
                  ("Parameter 'verify' in AIM: file not found "
                   ++ py_repr E (verify self)))
       else if os_path_isdir E (verify self)
       then create_default_context (CApath (path_of (verify self)))
       else create_default_context (CAfile (path_of (verify self)))
     else
       ctx <- create_default_context DefaultTrustStore ;;
       if negb (truthy (verify self))
       then ret (mk_ssl_context (trust ctx) false (cert_chain ctx))
       else ret ctx) ;;
  match ssl_load_cert_chain E (cert self) (key self) (passphrase self) with
  | Some e => raise e
  | None =>
      let ssl_context1 :=
        mk_ssl_context (trust ssl_context0) (check_hostname ssl_context0)
          (Some (cert self, key self, passphrase self)) in
      modify_self (set_request_params
                     (Some (mk_request_params (timeout self) ssl_context1)))
  end
  end
  end.

(* ================================================================== *)
(** ** Parameter validation *)

(** The loop of [valid_secret_params] over the snapshot [list(params.keys())];
    [params] is the dictionary being mutated. *)
Fixpoint valid_secret_params_loop (ks : list string) (params : dict)
  : outcome string * dict :=
  match ks with
  | [] => (Return EmptyString, params)
  | k :: rest =>
      let key_lower := lower k in
      if negb (mem_str key_lower _GETPASSWORD_REQUEST_PARM) then
        match dict_get k params with
        | Some v =>
            (Return ("unknown parameter: " ++ k ++ "=" ++ py_str E v), params)
        | None => (Raise (KeyError k), params)
        end
      else if negb (String.eqb k key_lower) then
        match dict_get k params with
        | Some v =>
            valid_secret_params_loop rest
              (dict_setitem key_lower v (dict_remove k params))
        | None => (Raise (KeyError k), params)
        end
      else valid_secret_params_loop rest params
  end.

(** [EPV_AIM.valid_secret_params]: the error string and the argument as the
    call leaves it. *)
Definition valid_secret_params (params : pyval) : outcome string * pyval :=
  match params with
  | PDict d =>
      let (r, d') := valid_secret_params_loop (keys d) d in (r, PDict d')
  | _ => (Return "parameter is not a dictionary", params)
  end.

(* ================================================================== *)
(** ** Session life cycle *)

(** [aiohttp.ClientSession()] *)
Definition new_ClientSession : M ClientSession :=
  fun o w =>
    (Return (mk_ClientSession (sessions_created w)), o,
     mk_World (S (sessions_created w)) (semaphores_created w)
       (sessions_closed w) (stdout w)).

Definition alloc_Semaphore (value : Z) : M Semaphore :=
  fun o w =>
    (Return (mk_Semaphore (semaphores_created w) value), o,
     mk_World (sessions_created w) (S (semaphores_created w))
       (sessions_closed w) (stdout w)).

(** [asyncio.Semaphore(value)] *)
Definition new_Semaphore (value : pyval) : M Semaphore :=
  match value with
  | PInt n =>
      if n <? 0 then raise (ValueError "Semaphore initial value must be >= 0")
      else alloc_Semaphore n
  | PBool b => alloc_Semaphore (Z.b2z b)
  | _ => raise (TypeError ("'<' not supported between instances of '"
                           ++ type_name value ++ "' and 'int'"))
  end.

(** [EPV_AIM.set_semaphore] *)
Definition set_semaphore (a_sema : option Semaphore) (a_session : option ClientSession)
  : M unit :=
  self <- get_self ;;
  (match sema self with
   | None => modify_self (set_sema a_sema)
   | Some _ => ret tt
   end) ;;;
  match session self with
  | None =>
      (match request_params self with
       | None => validate_and_setup_aim_ssl
       | Some _ => ret tt
       end) ;;;
      modify_self (set_session a_session)
  | Some _ => ret tt
  end.

(** [EPV_AIM.get_url] *)
Definition get_url (self : EPV_AIM) (url : string)
  : string * list (string * string) :=
  let addr := "https://" ++ py_str E (host self) ++ "/AIMWebService/api/" ++ url in
  let head := [("Content-type", "application/json")] in
  (addr, head).

(** [EPV_AIM.get_aim_session] *)
Definition get_aim_session : M (option ClientSession) :=
  self <- get_self ;;
  (match session self with
   | None =>
       (match request_params self with
        | None => validate_and_setup_aim_ssl
        | Some _ => ret tt
        end) ;;;
       s <- new_ClientSession ;;
       modify_self (set_session (Some s))
   | Some _ => ret tt
   end) ;;;
  self <- get_self ;;
  (match sema self with
   | None =>
       g <- new_Semaphore (max_concurrent_tasks self) ;;
       modify_self (set_sema (Some g))
   | Some _ => ret tt
   end) ;;;
  self <- get_self ;;
  ret (session self).

(** [await self.session.close()] *)
Definition close_session (s : ClientSession) : M unit :=
  fun o w =>
    (Return tt, o,
     mk_World (sessions_created w) (semaphores_created w)
       (session_id s :: sessions_closed w) (stdout w)).

(** [EPV_AIM.close_aim_session] *)
Definition close_aim_session : M unit :=
  self <- get_self ;;
  (match session self with
   | Some s => close_session s
   | None => ret tt
   end) ;;;
  modify_self (set_session None) ;;;
  modify_self (set_sema None).

(** [async with self.__sema:] takes one permit, waits when there is none,
    and gives the permit back however the body ends. *)
Definition with_sema {A} (body : M A) : M A :=
  fun o w =>
    match sema o with
    | None => (Raise (AttributeError "__aenter__"), o, w)
    | Some g =>
        if sem_value g <=? 0 then (Blocked, o, w)
        else
          let '(r, o1, w1) :=
            body (set_sema (Some (mk_Semaphore (sem_id g) (sem_value g - 1))) o) w in
          (r, set_sema (Some (mk_Semaphore (sem_id g) (sem_value g))) o1, w1)
    end.

(* ================================================================== *)
(** ** Request execution *)

(** [EPV_AIM.handle_error_detail_info] *)
Definition handle_error_detail_info (url : string) (params : pyval) : outcome string :=
  has_appid <~ py_in "appid" params ;;
  params_new <~ (if (has_appid : bool) then
                   match params with
                   | PDict d => Return (PDict (dict_setitem "appid" (PStr "<hidden>") d))
                   | PList _ =>
                       Raise (TypeError "list indices must be integers or slices, not str")
                   | _ =>
                       Raise (TypeError ("'" ++ type_name params
                                         ++ "' object does not support item assignment"))
                   end
                 else Return params) ;;
  Return ("url: " ++ url ++ ", params: " ++ py_str E params_new).

(** The default application id goes into a copy of the parameters
    (lines 414-418 of [handle_aim_request]). *)
Definition inject_appid (self : EPV_AIM) (params : pyval) : outcome pyval :=
  has_applid <~ py_in "applid" params ;;
  if negb has_applid then
    match params with
    | PDict d => Return (PDict (dict_setdefault "appid" (appid self) d))
    | _ => Raise (AttributeError ("'" ++ type_name params
                                  ++ "' object has no attribute 'setdefault'"))
    end
  else Return params.

(** [HTTPStatus(req.status).phrase] *)
Definition http_phrase (st : Z) : outcome string :=
  match HTTPStatus_phrase E st with
  | Some phrase => Return phrase
  | None => Raise (ValueError (Z_to_string st ++ " is not a valid HTTPStatus"))
  end.

(** The body of the inner [try] (lines 427-452): decode the response and
    classify it. *)
Definition classify_response
    (url : string) (params_new : pyval) (filter_func : pyval -> outcome pyval)
    (req : response) : outcome pyval :=
  resp_json <~ json req ;;
  if status req =? 200 then
    has_content <~ py_in "Content" resp_json ;;
    if negb has_content then
      details <~ handle_error_detail_info url params_new ;;
      Raise (CyberarkAPIException (status req) (PStr "INVALID_JSON")
               (PStr "Could not find the password ('Content')") (PStr details))
    else filter_func resp_json
  else
    has_details <~ py_in "Details" resp_json ;;
    details <~ (if (has_details : bool) then py_getitem resp_json "Details"
                else d <~ handle_error_detail_info url params_new ;; Return (PStr d)) ;;
    has_code <~ py_in "ErrorCode" resp_json ;;
    has_pair <~ (if (has_code : bool) then py_in "ErrorMsg" resp_json
                 else Return false) ;;
    if (has_pair : bool) then
      code <~ py_getitem resp_json "ErrorCode" ;;
      if eq_str code "APPAP004E" then
        code' <~ py_getitem resp_json "ErrorCode" ;;
        msg <~ py_getitem resp_json "ErrorMsg" ;;
        Raise (CyberarkAIMnotFound (status req) code' msg details)
      else
        code' <~ py_getitem resp_json "ErrorCode" ;;
        msg <~ py_getitem resp_json "ErrorMsg" ;;
        Raise (CyberarkAPIException (status req) code' msg details)
    else
      phrase <~ http_phrase (status req) ;;
      Raise (CyberarkAPIException (status req) (PStr "HTTP_ERR_CODE")
               (PStr phrase) details).

(** [print(...)] *)
Definition print (s : string) : M unit :=
  fun o w =>
    (Return tt, o,
     mk_World (sessions_created w) (semaphores_created w) (sessions_closed w)
       (stdout w ++ [s])).

(** The inner [try] with its two handlers (lines 426-464). *)
Definition handle_response
    (url : string) (params_new : pyval) (filter_func : pyval -> outcome pyval)
    (req : response) : M pyval :=
  match classify_response url params_new filter_func req with
  | Return v => ret v
  | Blocked => lift Blocked
  | Raise err =>
      if is_JSONDecodeError err then
        phrase <- lift (http_phrase (status req)) ;;
        details <- lift (handle_error_detail_info url params_new) ;;
        raise (CyberarkAPIException (status req) (PStr "HTTP_ERR_CODE")
                 (PStr phrase) (PStr details))
      else if is_Key_Value_ContentType_Error err then
        print (text req) ;;;
        details <- lift (handle_error_detail_info url params_new) ;;
        raise (CyberarkException
                 ("HTTP error " ++ Z_to_string (status req) ++ ": " ++ exn_str err
                  ++ " || Additional Details : " ++ details))
      else raise err
  end.

(** The outer [try] (lines 421-468): send the request, handle the response,
    wrap what aiohttp raises. *)
Definition send_request
    (method url : string) (head : list (string * string)) (params_new : pyval)
    (filter_func : pyval -> outcome pyval) : M pyval :=
  fun o w =>
    let attempt : outcome pyval * EPV_AIM * World :=
      match request_params o with
      | None => (Raise (TypeError "argument after ** must be a mapping, not NoneType"),
                 o, w)
      | Some rp =>
          match session_request E method url head params_new rp with
          | NetRaise e => (Raise e, o, w)
          | NetResponse req => handle_response url params_new filter_func req o w
          end
      end in
    match attempt with
    | (Raise err, o1, w1) =>
        if is_ClientError err then
          (details <- lift (handle_error_detail_info url params_new) ;;
           raise (CyberarkException
                    ("HTTP error: " ++ exn_str err ++ " || Additional Details : "
                     ++ details))) o1 w1
        else (Raise err, o1, w1)
    | other => other
    end.

(** [EPV_AIM.handle_aim_request] *)
Definition handle_aim_request
    (method short_url : string) (params : pyval)
    (filter_func : pyval -> outcome pyval) : M pyval :=
  if negb (String.eqb (lower method) "get") then raise AssertionError
  else
  self <- get_self ;;
  let '(url, head) := get_url self short_url in
  session <- get_aim_session ;;
  self <- get_self ;;
  params_new <- lift (inject_appid self params) ;;
  with_sema (send_request method url head params_new filter_func).

(** The default [filter_func], [lambda x: x]. *)
Definition identity_filter (x : pyval) : outcome pyval := Return x.

Record AIM_secret_resp : Type := mk_AIM_secret_resp {
  secret : pyval;
  detail : pyval
}.

(** [EPV_AIM.get_secret_detail]; [kwargs] are the keyword arguments. *)
Definition get_secret_detail (kwargs : dict) : M AIM_secret_resp :=
  detail_info <- handle_aim_request "get" "Accounts" (PDict kwargs) identity_filter ;;
  content <- lift (py_getitem detail_info "Content") ;;
  ret (mk_AIM_secret_resp content detail_info).

(** [EPV_AIM.get_secret] *)
Definition get_secret (kwargs : dict) : M pyval :=
  secret_detail <- get_secret_detail kwargs ;;
  ret (secret secret_detail).

End WithEnv.

(* ================================================================== *)
(** ** Vocabulary of the statements *)

(** A key passes the allow-list test of [valid_secret_params]. *)
Definition allowed (k : string) : bool :=
  mem_str (lower k) _GETPASSWORD_REQUEST_PARM.

(** An entry whose key is already in lowercase: the loop leaves it alone. *)
Definition is_lowercase (kv : string * pyval) : bool :=
  String.eqb (fst kv) (lower (fst kv)).

(** The entry after its key was renamed. *)
Definition renamed (kv : string * pyval) : string * pyval :=
  (lower (fst kv), snd kv).

(** The dictionary [valid_secret_params] leaves behind when it accepts:
    the lowercase entries where they were, then the renamed ones. *)
Definition normalized (d : dict) : dict :=
  (filter is_lowercase d
   ++ map renamed (filter (fun kv => negb (is_lowercase kv)) d))%list.

(** What a method call did, without the state it left. *)
Definition outcome_of {A} (x : outcome A * EPV_AIM * World) : outcome A :=
  fst (fst x).

(** A JSON object has both [ErrorCode] and [ErrorMsg]. *)
Definition has_error_pair (body : dict) : bool :=
  dict_contains "ErrorCode" body && dict_contains "ErrorMsg" body.

(** The call up to the moment the response is in hand: the method is GET,
    the session opens, the parameters with the application id are a
    dictionary, a permit is free and the server answers with [req]. *)
Definition received
    (E : Env) (method short_url : string) (params : pyval)
    (self : EPV_AIM) (w : World) (req : response) : Prop :=
  lower method = "get" /\
  exists s self1 w1 g rp p,
    get_aim_session E self w = (Return s, self1, w1)
    /\ inject_appid self1 params = Return (PDict p)
    /\ sema self1 = Some g /\ 0 < sem_value g
    /\ request_params self1 = Some rp
    /\ session_request E method (fst (get_url E self short_url))
         (snd (get_url E self short_url)) (PDict p) rp
       = NetResponse req.

(** What the TLS setup leaves alone in the object. *)
Definition frame (o o1 : EPV_AIM) : Prop :=
  session o1 = session o /\ sema o1 = sema o
  /\ max_concurrent_tasks o1 = max_concurrent_tasks o.

(** A method that leaves these attributes and the world alone. *)
Definition preserves {A} (m : M A) : Prop :=
  forall o w r o1 w1, m o w = (r, o1, w1) -> frame o o1 /\ w1 = w.

(* ================================================================== *)
(** ** A reference environment

    Concrete built-ins, files and network on which the functions above can
    be run: Python's table of HTTP status phrases, [int] on integers,
    booleans and decimal strings, a file system given by the lists of its
    files and directories, an [ssl] module that accepts every file it is
    given, and a network that answers a request carrying the query
    parameters [params] with [net params]. *)

Definition HTTPStatus_table : list (Z * string) :=
  [(100, "Continue"); (101, "Switching Protocols"); (102, "Processing");
   (103, "Early Hints");
   (200, "OK"); (201, "Created"); (202, "Accepted");
   (203, "Non-Authoritative Information"); (204, "No Content");
   (205, "Reset Content"); (206, "Partial Content"); (207, "Multi-Status");
   (208, "Already Reported"); (226, "IM Used");
   (300, "Multiple Choices"); (301, "Moved Permanently"); (302, "Found");
   (303, "See Other"); (304, "Not Modified"); (305, "Use Proxy");
   (307, "Temporary Redirect"); (308, "Permanent Redirect");
   (400, "Bad Request"); (401, "Unauthorized"); (402, "Payment Required");
   (403, "Forbidden"); (404, "Not Found"); (405, "Method Not Allowed");
   (406, "Not Acceptable"); (407, "Proxy Authentication Required");
   (408, "Request Timeout"); (409, "Conflict"); (410, "Gone");
   (411, "Length Required"); (412, "Precondition Failed");
   (413, "Request Entity Too Large"); (414, "Request-URI Too Long");
   (415, "Unsupported Media Type"); (416, "Requested Range Not Satisfiable");
   (417, "Expectation Failed"); (418, "I'm a Teapot");
   (421, "Misdirected Request"); (422, "Unprocessable Entity");
   (423, "Locked"); (424, "Failed Dependency"); (425, "Too Early");
   (426, "Upgrade Required"); (428, "Precondition Required");
   (429, "Too Many Requests"); (431, "Request Header Fields Too Large");
   (451, "Unavailable For Legal Reasons");
   (500, "Internal Server Error"); (501, "Not Implemented");
   (502, "Bad Gateway"); (503, "Service Unavailable");
   (504, "Gateway Timeout"); (505, "HTTP Version Not Supported");
   (506, "Variant Also Negotiates"); (507, "Insufficient Storage");
   (508, "Loop Detected"); (510, "Not Extended");
   (511, "Network Authentication Required")].

Fixpoint assoc_Z (n : Z) (l : list (Z * string)) : option string :=
  match l with
  | [] => None
  | (m, s) :: l' => if n =? m then Some s else assoc_Z n l'
  end.

Fixpoint ref_repr (v : pyval) : string :=
  match v with
  | PNone => "None"
  | PBool true => "True"
  | PBool false => "False"
  | PInt n => Z_to_string n
  | PStr s => "'" ++ s ++ "'"
  | PList l =>
      "[" ++ (fix items (l : list pyval) : string :=
                match l with
                | [] => EmptyString
                | [x] => ref_repr x
                | x :: rest => ref_repr x ++ ", " ++ items rest
                end) l ++ "]"
  | PDict d =>
      "{" ++ (fix items (d : list (string * pyval)) : string :=
                match d with
                | [] => EmptyString
                | [(k, x)] => "'" ++ k ++ "': " ++ ref_repr x
                | (k, x) :: rest => "'" ++ k ++ "': " ++ ref_repr x ++ ", " ++ items rest
                end) d ++ "}"
  end.

Definition ref_int (v : pyval) : outcome Z :=
  match v with
  | PInt n => Return n
  | PBool b => Return (Z.b2z b)
  | PStr s =>
      match NilZero.int_of_string s with
      | Some i => Return (Z.of_int i)
      | None => Raise (ValueError ("invalid literal for int() with base 10: '"
                                   ++ s ++ "'"))
      end
  | _ => Raise (TypeError ("int() argument must be a string, a bytes-like object "
                           ++ "or a real number, not '" ++ type_name v ++ "'"))
  end.

Definition ref_exists (files dirs : list string) (v : pyval) : outcome bool :=
  match v with
  | PStr s => Return (mem_str s files || mem_str s dirs)
  | PInt _ | PBool _ => Return false
  | _ => Raise (TypeError ("stat: path should be string, bytes, os.PathLike or "
                           ++ "integer, not " ++ type_name v))
  end.

Definition ref_isdir (dirs : list string) (v : pyval) : bool :=
  match v with
  | PStr s => mem_str s dirs
  | _ => false
  end.

Definition ref_env (files dirs : list string) (net : pyval -> net_outcome) : Env :=
  mk_Env (PInt 30) (PInt 10) (PBool false) (PBool false)
    ref_repr ref_int (fun n => assoc_Z n HTTPStatus_table)
    (ref_exists files dirs) (ref_isdir dirs)
    (fun _ => None) (fun _ _ _ => None)
    (fun _ _ _ params _ => net params).

Definition empty_world : World := mk_World 0 0 [] [].

(** An environment whose network is unreachable, with one certificate file
    on disk. *)
Definition offline_env : Env :=
  ref_env ["client.pem"] [] (fun _ => NetRaise (ClientError "Cannot connect to host")).

(** An environment whose server answers every request with [r]. *)
Definition answering_env (r : response) : Env :=
  ref_env ["client.pem"] [] (fun _ => NetResponse r).

(** A client as [__init__] leaves it, before any session is opened. *)
Definition sample_client : EPV_AIM :=
  mk_EPV_AIM (PStr "vault.example.com") (PStr "MyApp") (PStr "client.pem")
    PNone PNone (PBool false) (PInt 30) (PInt 10) (PBool false) None None None.

(** An environment whose server sends back, as [Content], the query
    parameters it was given. *)
Definition echo_env : Env :=
  ref_env ["client.pem"] []
    (fun params => NetResponse (mk_response 200 (Return (PDict [("Content", params)]))
                                  EmptyString)).

(** The message of the mandatory-attribute check. *)
Definition missing_parameter (attr_name : string) : exn :=
  AiobastionException
    ("Missing AIM mandatory parameter '" ++ attr_name ++ "'."
     ++ " Required parameters are: host, appid, key.").

(* ================================================================== *)
(** ** The rest of class [EPV_AIM] *)

Definition _SERIALIZED_FIELDS_OUT : list string :=
  ["host"; "appid"; "cert"; "key"; "verify"; "timeout"; "max_concurrent_tasks";
   "keep_cookies"].

(** [EPV_AIM.to_json] *)
Definition to_json (self : EPV_AIM) : dict :=
  fold_left
    (fun serialized attr_name =>
       dict_setitem attr_name (getattr self attr_name) serialized)
    _SERIALIZED_FIELDS_OUT [].

(** One [if] statement of [_init_complete_with_pvwa]: it raises before it
    assigns, so a failing statement leaves the dictionary as it found it. *)
Definition statement (f : dict -> outcome dict)
    (rest : dict -> outcome dict * dict) (d : dict) : outcome dict * dict :=
  match f d with
  | Return d' => rest d'
  | Raise e => (Raise e, d)
  | Blocked => (Blocked, d)
  end.

(** [if serialized_aim[k] is None: serialized_aim[k] = pvwa[k]] *)
Definition complete_from (pvwa : dict) (k : string) (serialized_aim : dict)
  : outcome dict :=
  a <~ py_getitem (PDict serialized_aim) k ;;
  if is_None a then
    v <~ py_getitem (PDict pvwa) k ;;
    Return (dict_setitem k v serialized_aim)
  else Return serialized_aim.

(** [EPV_AIM._init_complete_with_pvwa]: what it returns and the dictionary
    [serialized_aim] as the call leaves it. *)
Definition _init_complete_with_pvwa
    (E : Env) (serialized_aim pvwa : dict) (section : string) (configfile : pyval)
  : outcome dict * dict :=
  statement
    (fun d =>
       a <~ py_getitem (PDict d) "appid" ;;
       if is_None a then
         v <~ py_getitem (PDict pvwa) "appid" ;;
         if truthy v then
           v' <~ py_getitem (PDict pvwa) "appid" ;;
           Return (dict_setitem "appid" v' d)
         else Return d
       else Return d)
    (statement (complete_from pvwa "host")
    (statement (complete_from pvwa "timeout")
    (statement (complete_from pvwa "max_concurrent_tasks")
    (statement
       (fun d =>
          a <~ py_getitem (PDict d) "verify" ;;
          if is_None a then
            pv <~ py_getitem (PDict pvwa) "verify" ;;
            if is_None pv
            then Return (dict_setitem "verify" (CYBERARK_DEFAULT_VERIFY E) d)
            else
              pv' <~ py_getitem (PDict pvwa) "verify" ;;
              Return (dict_setitem "verify" pv' d)
          else Return d)
       (fun d => (Return d, d))))))
    serialized_aim.




(** The call up to the moment the network has answered or failed: as
    [received], with any [net_outcome]. *)
Definition sent
    (E : Env) (method short_url : string) (params : pyval)
    (self : EPV_AIM) (w : World) (net : net_outcome) : Prop :=
  lower method = "get" /\
  exists s self1 w1 g rp p,
    get_aim_session E self w = (Return s, self1, w1)
    /\ inject_appid self1 params = Return (PDict p)
    /\ sema self1 = Some g /\ 0 < sem_value g
    /\ request_params self1 = Some rp
    /\ session_request E method (fst (get_url E self short_url))
         (snd (get_url E self short_url)) (PDict p) rp
       = net.

(** The TLS context the setup builds for a verify policy: a path selects
    the CA directory or file, a boolean the default trust store with host
    name checking as the boolean says. *)
Definition context_for (E : Env) (v : pyval) (chain : pyval * pyval * pyval)
  : ssl_context :=
  if is_str v then
    mk_ssl_context
      (if os_path_isdir E v then CApath (path_of v) else CAfile (path_of v))
      true (Some chain)
  else mk_ssl_context DefaultTrustStore (truthy v) (Some chain).

(** The verify policy after the fallback of line 214. *)
Definition effective_verify (E : Env) (self : EPV_AIM) : pyval :=
  if is_False (verify self) then CYBERARK_DEFAULT_VERIFY E else verify self.

(** The number of permits [asyncio.Semaphore(value)] starts with, when it
    accepts [value]. *)
Definition semaphore_value (value : pyval) : option Z :=
  match value with
  | PInt n => if n <? 0 then None else Some n
  | PBool b => Some (Z.b2z b)
  | _ => None
  end.

(** The keys [_init_validate_class_attributes] starts from, in order. *)
Definition AIM_attributes : list string :=
  ["appid"; "cert"; "host"; "keep_cookies"; "key"; "max_concurrent_tasks";
   "passphrase"; "timeout"; "verify"].

(** The keys [_init_complete_with_pvwa] may fill. *)
Definition PVWA_defaults : list string :=
  ["appid"; "host"; "timeout"; "max_concurrent_tasks"; "verify"].

(** How many keys of a mapping are spelled, up to case, as one of [names]. *)
Definition count_keys (names : list string) (d : dict) : nat :=
  length (filter (fun kv => mem_str (lower (fst kv)) names) d).


(** The names [_init_validate_class_attributes] accepts, up to case: the
    nine attributes, the two synonyms, and what the test of line 112 lets
    through. *)
Definition accepted_attribute (k : string) : bool :=
  mem_str (lower k) (AIM_attributes ++ ["maxtasks"; "ca"])
  || substringb (lower k) "timeout".
(* ================================================================== *)
(** * [src/aiobastion/config.py]: the configuration loader

    Class [Config], the permission tables and the four functions of the
    module.  The YAML document and its sections are values of [pyval], so
    the keys of a mapping are strings; methods of [Config] are state
    transformers over the record of its attributes. *)

Module Config.

(** Modelled from the spec: what [config.py] takes from outside the source
    tree.  The list [EPV.CYBERARK_OPTIONS_MODULES_LIST] of
    [aiobastion.cyberark], the validation of the account and safe sections
    in [aiobastion.accounts] and [aiobastion.safe], and the two library
    calls of the constructor: reading the YAML file and issuing a
    warning. *)
Record Deps : Type := mk_Deps {
  CYBERARK_OPTIONS_MODULES_LIST : list string;
  (** [open(configfile, 'r')] followed by [yaml.safe_load(config)] *)
  yaml_safe_load : pyval -> outcome pyval;
  (** [warnings.warn(message)]: an exception where a filter asks for one *)
  warnings_warn : string -> option exn;
  (** [Account._init_validate_class_attributes(serialized, section, configfile)] *)
  Account_init_validate_class_attributes : pyval -> string -> pyval -> outcome pyval;
  (** [Safe._init_validate_class_attributes(serialized, section, configfile)] *)
  Safe_init_validate_class_attributes : pyval -> string -> pyval -> outcome pyval
}.

(** An instance of [Config]: the attributes [__init__] assigns, and two that
    are only there once something has assigned them: [label], the attribute
    of line 78 (it is not [Label]), and [options_modules], which no
    statement of the class assigns ([options_modules = {}] at line 43 binds
    a local name). *)
Record t : Type := mk {
  configfile : pyval;
  AIM : pyval;
  Connection : pyval;
  CPM : pyval;
  custom : pyval;
  customIPField : pyval;
  Label : pyval;
  retention : pyval;
  appid : pyval;
  authtype : pyval;
  password : pyval;
  user_search : pyval;
  username : pyval;
  PVWA : pyval;
  max_concurrent_tasks : pyval;
  timeout : pyval;
  PVWA_CA : pyval;
  keep_cookies : pyval;
  label : option pyval;
  options_modules : option pyval
}.

Definition set_AIM v (o : t) :=
  mk (configfile o) v (Connection o) (CPM o) (custom o) (customIPField o)
    (Label o) (retention o) (appid o) (authtype o) (password o)
    (user_search o) (username o) (PVWA o) (max_concurrent_tasks o) (timeout o)
    (PVWA_CA o) (keep_cookies o) (label o) (options_modules o).
Definition set_custom v (o : t) :=
  mk (configfile o) (AIM o) (Connection o) (CPM o) v (customIPField o)
    (Label o) (retention o) (appid o) (authtype o) (password o)
    (user_search o) (username o) (PVWA o) (max_concurrent_tasks o) (timeout o)
    (PVWA_CA o) (keep_cookies o) (label o) (options_modules o).
Definition set_customIPField v (o : t) :=
  mk (configfile o) (AIM o) (Connection o) (CPM o) (custom o) v (Label o)
    (retention o) (appid o) (authtype o) (password o) (user_search o)
    (username o) (PVWA o) (max_concurrent_tasks o) (timeout o) (PVWA_CA o)
    (keep_cookies o) (label o) (options_modules o).
Definition set_appid v (o : t) :=
  mk (configfile o) (AIM o) (Connection o) (CPM o) (custom o)
    (customIPField o) (Label o) (retention o) v (authtype o) (password o)
    (user_search o) (username o) (PVWA o) (max_concurrent_tasks o) (timeout o)
    (PVWA_CA o) (keep_cookies o) (label o) (options_modules o).
Definition set_authtype v (o : t) :=
  mk (configfile o) (AIM o) (Connection o) (CPM o) (custom o)
    (customIPField o) (Label o) (retention o) (appid o) v (password o)
    (user_search o) (username o) (PVWA o) (max_concurrent_tasks o) (timeout o)
    (PVWA_CA o) (keep_cookies o) (label o) (options_modules o).
Definition set_password v (o : t) :=
  mk (configfile o) (AIM o) (Connection o) (CPM o) (custom o)
    (customIPField o) (Label o) (retention o) (appid o) (authtype o) v
    (user_search o) (username o) (PVWA o) (max_concurrent_tasks o) (timeout o)
    (PVWA_CA o) (keep_cookies o) (label o) (options_modules o).
Definition set_user_search v (o : t) :=
  mk (configfile o) (AIM o) (Connection o) (CPM o) (custom o)
    (customIPField o) (Label o) (retention o) (appid o) (authtype o)
    (password o) v (username o) (PVWA o) (max_concurrent_tasks o) (timeout o)
    (PVWA_CA o) (keep_cookies o) (label o) (options_modules o).
Definition set_username v (o : t) :=
  mk (configfile o) (AIM o) (Connection o) (CPM o) (custom o)
    (customIPField o) (Label o) (retention o) (appid o) (authtype o)
    (password o) (user_search o) v (PVWA o) (max_concurrent_tasks o)
    (timeout o) (PVWA_CA o) (keep_cookies o) (label o) (options_modules o).
Definition set_PVWA v (o : t) :=
  mk (configfile o) (AIM o) (Connection o) (CPM o) (custom o)
    (customIPField o) (Label o) (retention o) (appid o) (authtype o)
    (password o) (user_search o) (username o) v (max_concurrent_tasks o)
    (timeout o) (PVWA_CA o) (keep_cookies o) (label o) (options_modules o).
Definition set_max_concurrent_tasks v (o : t) :=
  mk (configfile o) (AIM o) (Connection o) (CPM o) (custom o)
    (customIPField o) (Label o) (retention o) (appid o) (authtype o)
    (password o) (user_search o) (username o) (PVWA o) v (timeout o)
    (PVWA_CA o) (keep_cookies o) (label o) (options_modules o).
Definition set_timeout v (o : t) :=
  mk (configfile o) (AIM o) (Connection o) (CPM o) (custom o)
    (customIPField o) (Label o) (retention o) (appid o) (authtype o)
    (password o) (user_search o) (username o) (PVWA o)
    (max_concurrent_tasks o) v (PVWA_CA o) (keep_cookies o) (label o)
    (options_modules o).
Definition set_PVWA_CA v (o : t) :=
  mk (configfile o) (AIM o) (Connection o) (CPM o) (custom o)
    (customIPField o) (Label o) (retention o) (appid o) (authtype o)
    (password o) (user_search o) (username o) (PVWA o)
    (max_concurrent_tasks o) (timeout o) v (keep_cookies o) (label o)
    (options_modules o).
Definition set_keep_cookies v (o : t) :=
  mk (configfile o) (AIM o) (Connection o) (CPM o) (custom o)
    (customIPField o) (Label o) (retention o) (appid o) (authtype o)
    (password o) (user_search o) (username o) (PVWA o)
    (max_concurrent_tasks o) (timeout o) (PVWA_CA o) v (label o)
    (options_modules o).
Definition set_label v (o : t) :=
  mk (configfile o) (AIM o) (Connection o) (CPM o) (custom o)
    (customIPField o) (Label o) (retention o) (appid o) (authtype o)
    (password o) (user_search o) (username o) (PVWA o)
    (max_concurrent_tasks o) (timeout o) (PVWA_CA o) (keep_cookies o) v
    (options_modules o).
Definition set_options_modules v (o : t) :=
  mk (configfile o) (AIM o) (Connection o) (CPM o) (custom o)
    (customIPField o) (Label o) (retention o) (appid o) (authtype o)
    (password o) (user_search o) (username o) (PVWA o)
    (max_concurrent_tasks o) (timeout o) (PVWA_CA o) (keep_cookies o)
    (label o) v.

(** A method of [Config]: it runs on the object and leaves it behind, also
    when it raises. *)
Definition M (A : Type) : Type := t -> outcome A * t.

Definition ret {A} (a : A) : M A := fun o => (Return a, o).
Definition raise {A} (e : exn) : M A := fun o => (Raise e, o).
Definition bind {A B} (m : M A) (k : A -> M B) : M B :=
  fun o =>
    match m o with
    | (Return a, o') => k a o'
    | (Raise e, o') => (Raise e, o')
    | (Blocked, o') => (Blocked, o')
    end.
Definition get_self : M t := fun o => (Return o, o).
Definition modify_self (f : t -> t) : M unit := fun o => (Return tt, f o).
Definition lift {A} (r : outcome A) : M A := fun o => (r, o).

Declare Scope cfg_scope.
Notation "x <- m ;; k" := (bind m (fun x => k))
  (at level 100, m at next level, right associativity) : cfg_scope.
Notation "m ;;; k" := (bind m (fun _ => k))
  (at level 100, right associativity) : cfg_scope.
Local Open Scope cfg_scope.

(** [container[key] = v] for a string key. *)
Definition py_setitem (container : pyval) (key : string) (v : pyval)
  : outcome pyval :=
  match container with
  | PDict d => Return (PDict (dict_setitem key v d))
  | PList _ => Raise (TypeError "list indices must be integers or slices, not str")
  | _ => Raise (TypeError ("'" ++ type_name container
                            ++ "' object does not support item assignment"))
  end.

(** Evaluating [self.options_modules]: [AttributeError] while the attribute
    is not there. *)
Definition get_options_modules : M pyval :=
  fun self =>
    match options_modules self with
    | Some v => (Return v, self)
    | None =>
        (Raise (AttributeError
                  "'Config' object has no attribute 'options_modules'"), self)
    end.

(** [self.options_modules[module] = v], the value [v] already evaluated. *)
Definition store_module (module : string) (v : pyval) : M unit :=
  om <- get_options_modules ;;
  om' <- lift (py_setitem om module v) ;;
  modify_self (set_options_modules (Some om')).

(** [self.options_modules[module][k] = v], the value [v] already
    evaluated. *)
Definition store_option (module k : string) (v : pyval) : M unit :=
  om <- get_options_modules ;;
  inner <- lift (py_getitem om module) ;;
  inner' <- lift (py_setitem inner k v) ;;
  om' <- lift (py_setitem om module inner') ;;
  modify_self (set_options_modules (Some om')).

(** [list(configuration.keys())] *)
Definition keys_of (configuration : pyval) : outcome (list string) :=
  match configuration with
  | PDict d => Return (keys d)
  | _ => Raise (AttributeError ("'" ++ type_name configuration
                                 ++ "' object has no attribute 'keys'"))
  end.

Section WithEnv.

Variable E : Env.
Variable D : Deps.

(** [Config._to_integer] *)
Definition _to_integer (section_key : string) (val : pyval) : M Z :=
  fun self =>
    match py_int E val with
    | Return v => (Return v, self)
    | Raise e =>
        if is_ValueError e
        then (Raise (AiobastionConfigurationException
                       ("Invalid integer within '" ++ section_key ++ "'"
                        ++ " in " ++ py_str E (configfile self) ++ ": "
                        ++ py_repr E val)), self)
        else (Raise e, self)
    | Blocked => (Blocked, self)
    end.

(** [Config._to_bool]; in the message for a string the value printed is the
    lowercase one, [val] having been rebound. *)
Definition _to_bool (section_key : string) (val : pyval) : M bool :=
  fun self =>
    match val with
    | PBool b => (Return b, self)
    | PStr s =>
        let val := lower s in
        if mem_str val ["y"; "yes"; "true"; "on"] then (Return true, self)
        else if mem_str val ["n"; "no"; "false"; "off"] then (Return false, self)
        else (Raise (AiobastionConfigurationException
                       ("Invalid boolean within '" ++ section_key ++ "'"
                        ++ " in " ++ py_str E (configfile self) ++ ": "
                        ++ py_repr E (PStr val))), self)
    | _ =>
        (Raise (AiobastionConfigurationException
                  ("Invalid boolean within '" ++ section_key ++ "'"
                   ++ " in " ++ py_str E (configfile self) ++ ": "
                   ++ py_repr E val)), self)
    end.

(** The first loop of [_read_section_connection]. *)
Fixpoint read_section_connection_loop (ks : list string) (configuration : pyval)
  : M unit :=
  match ks with
  | [] => ret tt
  | k :: rest =>
      let keyname := lower k in
      if String.eqb keyname "appid" then
        v <- lift (py_getitem configuration k) ;;
        modify_self (set_appid v) ;;;
        read_section_connection_loop rest configuration
      else if String.eqb keyname "authtype" then
        v <- lift (py_getitem configuration k) ;;
        modify_self (set_authtype v) ;;;
        read_section_connection_loop rest configuration
      else if String.eqb keyname "password" then
        v <- lift (py_getitem configuration k) ;;
        modify_self (set_password v) ;;;
        read_section_connection_loop rest configuration
      else if String.eqb keyname "user_search" then
        v <- lift (py_getitem configuration k) ;;
        modify_self (set_user_search v) ;;;
        read_section_connection_loop rest configuration
      else if String.eqb keyname "username" then
        v <- lift (py_getitem configuration k) ;;
        modify_self (set_username v) ;;;
        read_section_connection_loop rest configuration
      else
        self <- get_self ;;
        raise (AiobastionConfigurationException
                 ("Unknown attribute '" ++ k ++ "' within section 'connection' "
                  ++ "in " ++ py_str E (configfile self)))
  end.

(** The loop over the snapshot [list(self.user_search.keys())];
    [user_search] is the dictionary being mutated. *)
Fixpoint user_search_loop (ks : list string) (user_search : dict) (configfile : pyval)
  : outcome unit * dict :=
  match ks with
  | [] => (Return tt, user_search)
  | k :: rest =>
      let keyname := lower k in
      if negb (mem_str keyname _GETPASSWORD_REQUEST_PARM) then
        (Raise (AiobastionConfigurationException
                  ("Unknown attribute '" ++ k ++ "' within section "
                   ++ "'connection/user_search' in " ++ py_str E configfile)),
         user_search)
      else if negb (String.eqb k keyname) then
        match dict_get k user_search with
        | Some v =>
            user_search_loop rest
              (dict_setitem keyname v (dict_remove k user_search)) configfile
        | None => (Raise (KeyError k), user_search)
        end
      else user_search_loop rest user_search configfile
  end.

(** [Config._read_section_connection] *)
Definition _read_section_connection (configuration : pyval) : M unit :=
  ks <- lift (keys_of configuration) ;;
  read_section_connection_loop ks configuration ;;;
  self <- get_self ;;
  if truthy (user_search self) then
    match user_search self with
    | PDict d =>
        fun self =>
          let (r, d') := user_search_loop (keys d) d (configfile self) in
          (r, set_user_search (PDict d') self)
    | v =>
        raise (AiobastionConfigurationException
                 ("Malformed attribute 'user_search' within section "
                  ++ "'connection' in " ++ py_str E (configfile self) ++ ": "
                  ++ py_repr E v))
    end
  else ret tt.

(** The loop of [_read_section_pvwa]; it carries the two synonym
    counters. *)
Fixpoint read_section_pvwa_loop (ks : list string) (configuration : pyval)
    (synonym_PVWA_CA synonym_max_concurrent_tasks : nat) : M (nat * nat) :=
  match ks with
  | [] => ret (synonym_PVWA_CA, synonym_max_concurrent_tasks)
  | k :: rest =>
      let keyname := lower k in
      if String.eqb keyname "host" then
        v <- lift (py_getitem configuration k) ;;
        modify_self (set_PVWA v) ;;;
        read_section_pvwa_loop rest configuration
          synonym_PVWA_CA synonym_max_concurrent_tasks
      else if String.eqb keyname "timeout" then
        v <- lift (py_getitem configuration k) ;;
        n <- _to_integer ("PVWA/" ++ k) v ;;
        modify_self (set_timeout (PInt n)) ;;;
        read_section_pvwa_loop rest configuration
          synonym_PVWA_CA synonym_max_concurrent_tasks
      else if String.eqb keyname "maxtasks"
              || String.eqb keyname "max_concurrent_tasks" then
        v <- lift (py_getitem configuration k) ;;
        n <- _to_integer ("PVWA/" ++ k) v ;;
        modify_self (set_max_concurrent_tasks (PInt n)) ;;;
        read_section_pvwa_loop rest configuration
          synonym_PVWA_CA (S synonym_max_concurrent_tasks)
      else if String.eqb keyname "keep_cookies" then
        v <- lift (py_getitem configuration k) ;;
        b <- _to_bool ("PVWA/" ++ k) v ;;
        modify_self (set_keep_cookies (PBool b)) ;;;
        read_section_pvwa_loop rest configuration
          synonym_PVWA_CA synonym_max_concurrent_tasks
      else if String.eqb keyname "verify" || String.eqb keyname "ca" then
        v <- lift (py_getitem configuration k) ;;
        modify_self (set_PVWA_CA v) ;;;
        read_section_pvwa_loop rest configuration
          (S synonym_PVWA_CA) synonym_max_concurrent_tasks
      else
        self <- get_self ;;
        raise (AiobastionConfigurationException
                 ("Unknown attribute '" ++ k ++ "' within section 'PVWA' in "
                  ++ py_str E (configfile self)))
  end.

(** [Config._read_section_pvwa] *)
Definition _read_section_pvwa (configuration : pyval) : M unit :=
  ks <- lift (keys_of configuration) ;;
  r <- read_section_pvwa_loop ks configuration 0%nat 0%nat ;;
  let '(synonym_PVWA_CA, synonym_max_concurrent_tasks) := r in
  self <- get_self ;;
  if (1 <? synonym_PVWA_CA)%nat then
    raise (AiobastionConfigurationException
             ("Duplicate synonym parameter: 'ca', 'verify' within section 'PVWA' "
              ++ "in " ++ py_str E (configfile self)
              ++ ". Specify only one of them."))
  else if (1 <? synonym_max_concurrent_tasks)%nat then
    raise (AiobastionConfigurationException
             ("Duplicate synonym parameter: 'maxtasks', 'max_concurrent_tasks' "
              ++ "within section 'PVWA' in " ++ py_str E (configfile self) ++ ". "
              ++ "Specify only one of them."))
  else ret tt.

(** [Config._read_section_aim]: the validated section is stored in
    [self.AIM], the dictionary [pvwa] is built, and the arguments of the
    last call are evaluated, [self.options_modules["aim"]] first; the
    completion updates that dictionary in place and returns it. *)
Definition _read_section_aim (configuration : pyval) : M pyval :=
  self <- get_self ;;
  aim <- lift (match configuration with
               | PDict d =>
                   _init_validate_class_attributes E d "AIM" (configfile self)
               | _ => Raise (AttributeError ("'" ++ type_name configuration
                                              ++ "' object has no attribute 'keys'"))
               end) ;;
  modify_self (set_AIM (PDict aim)) ;;;
  self <- get_self ;;
  a <- lift (py_getitem (AIM self) "appid") ;;
  let pvwa : dict :=
    [("appid", a); ("host", PVWA self); ("timeout", timeout self);
     ("max_concurrent_tasks", max_concurrent_tasks self);
     ("verify", PVWA_CA self)] in
  om <- get_options_modules ;;
  serialized_aim <- lift (py_getitem om "aim") ;;
  match serialized_aim with
  | PDict d =>
      let (r, d') := _init_complete_with_pvwa E d pvwa "AIM" (configfile self) in
      om' <- lift (py_setitem om "aim" (PDict d')) ;;
      modify_self (set_options_modules (Some om')) ;;;
      d'' <- lift r ;;
      ret (PDict d'')
  | _ => lift (py_getitem serialized_aim "appid")
  end.

(** The loop of [_read_section_account]: in an assignment the right-hand
    side is evaluated before the target. *)
Fixpoint read_section_account_loop (ks : list string) (module : string)
    (configuration : pyval) : M unit :=
  match ks with
  | [] => ret tt
  | k :: rest =>
      let keyname := lower k in
      if String.eqb keyname "logon_account_index" then
        v <- lift (py_getitem configuration k) ;;
        n <- _to_integer (module ++ "/" ++ k) v ;;
        store_option module k (PInt n) ;;;
        read_section_account_loop rest module configuration
      else if String.eqb keyname "reconcile_account_index" then
        v <- lift (py_getitem configuration k) ;;
        n <- _to_integer (module ++ "/" ++ k) v ;;
        store_option module k (PInt n) ;;;
        read_section_account_loop rest module configuration
      else
        self <- get_self ;;
        raise (AiobastionConfigurationException
                 ("Unknown attribute '" ++ k ++ "' within section '" ++ module
                  ++ "' " ++ "in " ++ py_str E (configfile self)))
  end.

(** [Config._read_section_account] *)
Definition _read_section_account (module : string) (configuration : pyval) : M unit :=
  ks <- lift (keys_of configuration) ;;
  read_section_account_loop ks module configuration.

(** The loop of [_read_section_safe]. *)
Fixpoint read_section_safe_loop (ks : list string) (module : string)
    (configuration : pyval) : M unit :=
  match ks with
  | [] => ret tt
  | k :: rest =>
      let keyname := lower k in
      if String.eqb keyname "cpm" then
        v <- lift (py_getitem configuration k) ;;
        store_option module k v ;;;
        read_section_safe_loop rest module configuration
      else if String.eqb keyname "retention" then
        v <- lift (py_getitem configuration k) ;;
        n <- _to_integer (module ++ "/" ++ k) v ;;
        store_option module k (PInt n) ;;;
        read_section_safe_loop rest module configuration
      else
        self <- get_self ;;
        raise (AiobastionConfigurationException
                 ("Unknown attribute '" ++ k ++ "' within section '" ++ module
                  ++ "' " ++ "in " ++ py_str E (configfile self)))
  end.

(** [Config._read_section_safe] *)
Definition _read_section_safe (module : string) (configuration : pyval) : M unit :=
  ks <- lift (keys_of configuration) ;;
  read_section_safe_loop ks module configuration.

(** The loop of [__init__] over the snapshot [list(configuration.keys())]:
    the known section names are rewritten in lowercase, a name that is no
    section and no option module is reported by a warning. *)
Fixpoint init_sections_loop (ks : list string) (configuration : dict)
    (configfile : pyval) : outcome dict :=
  match ks with
  | [] => Return configuration
  | k :: rest =>
      let keyname := lower k in
      if negb (mem_str keyname
                 ["aim"; "connection"; "cpm"; "label"; "pvwa"; "retention";
                  "custom"; "customipfield"]) then
        if negb (mem_str keyname (CYBERARK_OPTIONS_MODULES_LIST D)) then
          match warnings_warn D
                  ("aiobastion - Unknown section '" ++ k ++ "' in "
                   ++ py_str E configfile) with
          | Some e => Raise e
          | None => init_sections_loop rest configuration configfile
          end
        else init_sections_loop rest configuration configfile
      else if negb (String.eqb k keyname) then
        match dict_get k configuration with
        | Some v =>
            init_sections_loop rest
              (dict_setitem keyname v (dict_remove k configuration)) configfile
        | None => Raise (KeyError k)
        end
      else init_sections_loop rest configuration configfile
  end.

(** [if name in configuration and configuration[name]:] *)
Definition section_given (name : string) (configuration : dict) : bool :=
  match dict_get name configuration with
  | Some v => truthy v
  | None => false
  end.

(** The loop of lines 45-46. *)
Fixpoint init_options_modules (modules : list string) : M unit :=
  match modules with
  | [] => ret tt
  | module :: rest =>
      store_module module (PDict []) ;;;
      init_options_modules rest
  end.

(** [Config.__init__]; the object it works on is the new instance, with no
    attribute yet. *)
Definition __init__ (a_configfile : pyval) : outcome unit * t :=
  let self0 :=
    mk a_configfile PNone PNone (PStr EmptyString) PNone PNone PNone PNone
      PNone (PStr "Cyberark") PNone PNone PNone
      PNone (CYBERARK_DEFAULT_MAX_CONCURRENT_TASKS E) (CYBERARK_DEFAULT_TIMEOUT E)
      (CYBERARK_DEFAULT_VERIFY E) (CYBERARK_DEFAULT_KEEP_COOKIES E) None None in
  (init_options_modules (CYBERARK_OPTIONS_MODULES_LIST D) ;;;
   loaded <- lift (yaml_safe_load D a_configfile) ;;
   ks <- lift (keys_of loaded) ;;
   configuration <- lift (match loaded with
                          | PDict d => init_sections_loop ks d a_configfile
                          | _ => Return []
                          end) ;;
   (if section_given "connection" configuration then
      v <- lift (py_getitem (PDict configuration) "connection") ;;
      _read_section_connection v
    else ret tt) ;;;
   (if section_given "pvwa" configuration then
      v <- lift (py_getitem (PDict configuration) "pvwa") ;;
      _read_section_pvwa v
    else ret tt) ;;;
   (if dict_contains "label" configuration then
      v <- lift (py_getitem (PDict configuration) "label") ;;
      modify_self (set_label (Some v))
    else ret tt) ;;;
   (if dict_contains "custom" configuration then
      v <- lift (py_getitem (PDict configuration) "custom") ;;
      modify_self (set_custom v)
    else ret tt) ;;;
   (if dict_contains "customipfield" configuration then
      v <- lift (py_getitem (PDict configuration) "customipfield") ;;
      modify_self (set_customIPField v)
    else ret tt) ;;;
   (if section_given "aim" configuration then
      v <- lift (py_getitem (PDict configuration) "aim") ;;
      r <- _read_section_aim v ;;
      store_module "AIM" r
    else ret tt) ;;;
   self <- get_self ;;
   moved <- lift (if truthy (custom self) then
                    a <~ py_in "LOGON_ACCOUNT_INDEX" (custom self) ;;
                    if a then Return true
                    else py_in "RECONCILE_ACCOUNT_INDEX" (custom self)
                  else Return false) ;;
   (if (moved : bool) then
      raise (AiobastionConfigurationException
               ("Please move from the custom to account section the "
                ++ "'logon_account_index' and 'reconcile_account_index' "
                ++ "definition in {self.configfile}."))
    else ret tt) ;;;
   (if section_given "account" configuration then
      v <- lift (py_getitem (PDict configuration) "account") ;;
      r <- lift (Account_init_validate_class_attributes D v "account"
                   a_configfile) ;;
      store_module "account" r
    else
      r <- lift (Account_init_validate_class_attributes D (PDict []) "account"
                   a_configfile) ;;
      store_module "account" r) ;;;
   (if dict_contains "safe" configuration
       && (dict_contains "cmp" configuration
           || dict_contains "retention" configuration) then
      raise (AiobastionConfigurationException
               ("Please move from the global to account section the "
                ++ "'cmp' and 'retention' definition in {self.configfile}."))
    else ret tt) ;;;
   (if section_given "safe" configuration then
      v <- lift (py_getitem (PDict configuration) "safe") ;;
      r <- lift (Safe_init_validate_class_attributes D v "safe" a_configfile) ;;
      store_module "safe" r
    else
      r <- lift (Safe_init_validate_class_attributes D (PDict []) "safe"
                   a_configfile) ;;
      store_module "safe" r) ;;;
   (if dict_contains "cpm" configuration then
      v <- lift (py_getitem (PDict configuration) "cpm") ;;
      store_option "safe" "cpm" v
    else ret tt) ;;;
   (if dict_contains "retention" configuration then
      v <- lift (py_getitem (PDict configuration) "retention") ;;
      n <- _to_integer "retention" v ;;
      store_option "safe" "retention" (PInt n)
    else ret tt)) self0.

End WithEnv.

(* ------------------------------------------------------------------ *)
(** ** The permission tables *)

(** [d.update(other)] *)
Definition dict_update (d other : dict) : dict :=
  fold_left (fun acc kv => dict_setitem (fst kv) (snd kv) acc) other d.

(** [{k: v for k, v in d.items() if v}] *)
Definition truthy_items (d : dict) : dict :=
  filter (fun kv => truthy (snd kv)) d.

Definition DEFAULT_PERMISSIONS : dict :=
  [("UseAccounts", PBool false);
   ("RetrieveAccounts", PBool false);
   ("ListAccounts", PBool false);
   ("AddAccounts", PBool false);
   ("UpdateAccountContent", PBool false);
   ("UpdateAccountProperties", PBool false);
   ("InitiateCPMAccountManagementOperations", PBool false);
   ("SpecifyNextAccountContent", PBool false);
   ("RenameAccounts", PBool false);
   ("DeleteAccounts", PBool false);
   ("UnlockAccounts", PBool false);
   ("ManageSafe", PBool false);
   ("ManageSafeMembers", PBool false);
   ("BackupSafe", PBool false);
   ("ViewAuditLog", PBool false);
   ("ViewSafeMembers", PBool false);
   ("AccessWithoutConfirmation", PBool false);
   ("CreateFolders", PBool false);
   ("DeleteFolders", PBool false);
   ("MoveAccountsAndFolders", PBool false)].

Definition PROV_PERMISSIONS : dict :=
  dict_update DEFAULT_PERMISSIONS
    [("ListAccounts", PBool true);
     ("AddAccounts", PBool true);
     ("UpdateAccountContent", PBool true);
     ("UpdateAccountProperties", PBool true);
     ("InitiateCPMAccountManagementOperations", PBool true);
     ("RenameAccounts", PBool true);
     ("DeleteAccounts", PBool true);
     ("ManageSafe", PBool false);
     ("ManageSafeMembers", PBool false);
     ("ViewSafeMembers", PBool false);
     ("AccessWithoutConfirmation", PBool true);
     ("CreateFolders", PBool true);
     ("DeleteFolders", PBool true);
     ("MoveAccountsAndFolders", PBool true)].

Definition MANAGER_PERMISSIONS : dict :=
  dict_update PROV_PERMISSIONS
    [("ManageSafe", PBool true);
     ("ManageSafeMembers", PBool true);
     ("ViewSafeMembers", PBool true)].

Definition ADMIN_PERMISSIONS : dict :=
  map (fun perm => (perm, PBool true)) (keys DEFAULT_PERMISSIONS).

Definition USE_PERMISSIONS : dict :=
  dict_setitem "ListAccounts" (PBool true)
    (dict_setitem "UseAccounts" (PBool true) DEFAULT_PERMISSIONS).

Definition SHOW_PERMISSIONS : dict :=
  dict_setitem "RetrieveAccounts" (PBool true) USE_PERMISSIONS.

Definition AUDIT_PERMISSIONS : dict :=
  dict_setitem "ViewSafeMembers" (PBool true)
    (dict_setitem "ViewAuditLog" (PBool true)
       (dict_setitem "ListAccounts" (PBool true) DEFAULT_PERMISSIONS)).

Definition POWER_PERMISSIONS : dict :=
  dict_update
    (dict_update DEFAULT_PERMISSIONS (truthy_items SHOW_PERMISSIONS))
    (truthy_items AUDIT_PERMISSIONS).

Definition CPM_PERMISSIONS : dict :=
  [("UseAccounts", PBool true);
   ("RetrieveAccounts", PBool true);
   ("ListAccounts", PBool true);
   ("AddAccounts", PBool true);
   ("UpdateAccountContent", PBool true);
   ("UpdateAccountProperties", PBool true);
   ("InitiateCPMAccountManagementOperations", PBool true);
   ("SpecifyNextAccountContent", PBool true);
   ("RenameAccounts", PBool true);
   ("DeleteAccounts", PBool true);
   ("UnlockAccounts", PBool true);
   ("ManageSafe", PBool false);
   ("ManageSafeMembers", PBool false);
   ("BackupSafe", PBool false);
   ("ViewAuditLog", PBool true);
   ("ViewSafeMembers", PBool false);
   ("RequestsAuthorizationLevel1", PBool false);
   ("RequestsAuthorizationLevel2", PBool false);
   ("AccessWithoutConfirmation", PBool false);
   ("CreateFolders", PBool true);
   ("DeleteFolders", PBool true);
   ("MoveAccountsAndFolders", PBool true)].

Definition V2_BASE : dict :=
  [("useAccounts", PBool true);
   ("retrieveAccounts", PBool false);
   ("listAccounts", PBool true);
   ("addAccounts", PBool false);
   ("updateAccountContent", PBool false);
   ("updateAccountProperties", PBool false);
   ("initiateCPMAccountManagementOperations", PBool false);
   ("specifyNextAccountContent", PBool false);
   ("renameAccounts", PBool false);
   ("deleteAccounts", PBool false);
   ("unlockAccounts", PBool false);
   ("manageSafe", PBool false);
   ("manageSafeMembers", PBool false);
   ("backupSafe", PBool false);
   ("viewAuditLog", PBool false);
   ("viewSafeMembers", PBool false);
   ("accessWithoutConfirmation", PBool false);
   ("createFolders", PBool false);
   ("deleteFolders", PBool false);
   ("moveAccountsAndFolders", PBool false);
   ("requestsAuthorizationLevel1", PBool false);
   ("requestsAuthorizationLevel2", PBool false)].

Definition V2_USE : dict := [("useAccounts", PBool true); ("listAccounts", PBool true)].
Definition V2_ADMIN : dict := [("manageSafeMembers", PBool true)].
Definition V2_CHANGE : dict := [("updateAccountContent", PBool true)].
Definition V2_SHOW : dict := [("retrieveAccounts", PBool true)].
Definition V2_AUDIT : dict := [("viewAuditLog", PBool true)].

(* ------------------------------------------------------------------ *)
(** ** The functions of the module *)

(** [s.split('.')]: the pieces between the dots, empty ones included. *)
Fixpoint split_dot (s : string) : list string :=
  match s with
  | EmptyString => [EmptyString]
  | String c s' =>
      if Ascii.eqb c "."%char then EmptyString :: split_dot s'
      else match split_dot s' with
           | x :: r => String c x :: r
           | [] => [String c EmptyString]
           end
  end.

Definition is_digit (c : ascii) : bool :=
  ((48 <=? nat_of_ascii c) && (nat_of_ascii c <=? 57))%nat.

(** [x.isdigit()] on an ASCII string: not empty, and decimal digits only. *)
Definition isdigit (x : string) : bool :=
  negb (String.eqb x EmptyString) && forallb is_digit (list_ascii_of_string x).

(** The loop of [validate_ip]. *)
Fixpoint validate_ip_loop (E : Env) (a : list string) : outcome bool :=
  match a with
  | [] => Return true
  | x :: rest =>
      if negb (isdigit x) then Return false
      else
        i <~ py_int E (PStr x) ;;
        if (i <? 0) || (255 <? i) then Return false
        else validate_ip_loop E rest
  end.

(** [validate_ip] *)
Definition validate_ip (E : Env) (s : string) : outcome bool :=
  let a := split_dot s in
  if negb (Nat.eqb (length a) 4) then Return false
  else validate_ip_loop E a.

(** The loop of [flatten]; [rec] is the recursive call and [rt] the list
    built so far. *)
Fixpoint flatten_loop (rec : list pyval -> outcome (list pyval))
    (A rt : list pyval) : outcome (list pyval) :=
  match A with
  | [] => Return rt
  | i :: rest =>
      match i with
      | PList l =>
          r <~ rec l ;;
          flatten_loop rec rest (rt ++ r)
      | _ => flatten_loop rec rest (rt ++ [i])
      end
  end.

(** [flatten] on a list; [depth] is the number of nested calls the
    interpreter still allows, one more raises [RecursionError]. *)
Fixpoint flatten (depth : nat) (A : list pyval) : outcome (list pyval) :=
  match depth with
  | O => Raise (OtherError "RecursionError" "maximum recursion depth exceeded")
  | S depth' => flatten_loop (flatten depth') A []
  end.

(** [permissions] *)
Definition permissions (profile : string) : dict :=
  if substringb "admin" (lower profile) then ADMIN_PERMISSIONS
  else if substringb "use" (lower profile) then USE_PERMISSIONS
  else if substringb "show" (lower profile) then SHOW_PERMISSIONS
  else if substringb "audit" (lower profile) then SHOW_PERMISSIONS
  else if substringb "prov" (lower profile) then PROV_PERMISSIONS
  else if substringb "power" (lower profile) then POWER_PERMISSIONS
  else if substringb "cpm" (lower profile) then CPM_PERMISSIONS
  else if substringb "manager" (lower profile) then MANAGER_PERMISSIONS
  else DEFAULT_PERMISSIONS.

(** [a == b] where [b] is a boolean of a table: a boolean equals itself and
    the integer it counts as, and nothing else in this universe. *)
Definition eq_table_value (a b : pyval) : bool :=
  match b with
  | PBool b' =>
      match a with
      | PBool a' => Bool.eqb a' b'
      | PInt n => n =? Z.b2z b'
      | _ => false
      end
  | _ => false
  end.

(** [[permission[k] == v for k, v in table.items()]]: the whole list is
    built before [all] looks at it. *)
Fixpoint table_tests (permission : pyval) (table : dict) : outcome (list bool) :=
  match table with
  | [] => Return []
  | (k, v) :: rest =>
      a <~ py_getitem permission k ;;
      ts <~ table_tests permission rest ;;
      Return (eq_table_value a v :: ts)
  end.

(** One [if all(...): perms.append(name)] statement. *)
Definition append_if_all (permission : pyval) (table : dict) (name : string)
    (perms : list string) : outcome (list string) :=
  ts <~ table_tests permission table ;;
  Return (if forallb (fun t => t) ts then (perms ++ [name])%list else perms).

(** [get_v2_profile] *)
Definition get_v2_profile (permission : pyval) : outcome string :=
  perms <~ append_if_all permission V2_ADMIN "Admin" [] ;;
  perms <~ append_if_all permission V2_AUDIT "Audit" perms ;;
  perms <~ append_if_all permission V2_SHOW "Show" perms ;;
  perms <~ append_if_all permission V2_CHANGE "Change" perms ;;
  perms <~ append_if_all permission V2_USE "Use" perms ;;
  let perms := if Nat.eqb (length perms) 0
               then (perms ++ ["Profil Inconnu"])%list else perms in
  Return (String.concat " + " perms).

End Config.

(* ------------------------------------------------------------------ *)
(** ** Vocabulary for the functions of [config.py] *)

(** [isinstance(i, list)] *)
Definition is_list (v : pyval) : bool :=
  match v with PList _ => true | _ => false end.

(** The number of constructors of a value, nested lists included. *)
Fixpoint size (v : pyval) : nat :=
  match v with
  | PList l => S (list_sum (map size l))
  | _ => 1%nat
  end.

(** A string without a dot. *)
Definition no_dot (s : string) : bool :=
  forallb (fun c => negb (Ascii.eqb c "."%char)) (list_ascii_of_string s).

(** A field of a dotted quad as [validate_ip] wants it: decimal digits that
    [int] reads as a number from 0 to 255. *)
Definition octet (E : Env) (x : string) : Prop :=
  Config.isdigit x = true
  /\ exists n, py_int E (PStr x) = Return n /\ 0 <= n <= 255.

(** The names [_read_section_pvwa] accepts, up to case. *)
Definition pvwa_attribute (k : string) : bool :=
  mem_str (lower k)
    ["host"; "timeout"; "maxtasks"; "max_concurrent_tasks"; "keep_cookies";
     "verify"; "ca"].

(** The names [_read_section_connection] accepts, up to case. *)
Definition connection_attribute (k : string) : bool :=
  mem_str (lower k) ["appid"; "authtype"; "password"; "user_search"; "username"].

(** What [_read_section_pvwa] may change between [o] and [o']: the five
    PVWA attributes, and among them the timeout and the concurrency only to
    an integer, the cookie flag only to a boolean. *)
Definition pvwa_update (o o' : Config.t) : Prop :=
  Config.configfile o' = Config.configfile o
  /\ Config.AIM o' = Config.AIM o
  /\ Config.Connection o' = Config.Connection o
  /\ Config.CPM o' = Config.CPM o
  /\ Config.custom o' = Config.custom o
  /\ Config.customIPField o' = Config.customIPField o
  /\ Config.Label o' = Config.Label o
  /\ Config.retention o' = Config.retention o
  /\ Config.appid o' = Config.appid o
  /\ Config.authtype o' = Config.authtype o
  /\ Config.password o' = Config.password o
  /\ Config.user_search o' = Config.user_search o
  /\ Config.username o' = Config.username o
  /\ Config.label o' = Config.label o
  /\ Config.options_modules o' = Config.options_modules o
  /\ (Config.timeout o' = Config.timeout o
      \/ exists n, Config.timeout o' = PInt n)
  /\ (Config.max_concurrent_tasks o' = Config.max_concurrent_tasks o
      \/ exists n, Config.max_concurrent_tasks o' = PInt n)
  /\ (Config.keep_cookies o' = Config.keep_cookies o
      \/ exists b, Config.keep_cookies o' = PBool b).

(** What [_read_section_connection] may change: the five connection
    attributes. *)
Definition connection_update (o o' : Config.t) : Prop :=
  Config.configfile o' = Config.configfile o
  /\ Config.AIM o' = Config.AIM o
  /\ Config.Connection o' = Config.Connection o
  /\ Config.CPM o' = Config.CPM o
  /\ Config.custom o' = Config.custom o
  /\ Config.customIPField o' = Config.customIPField o
  /\ Config.Label o' = Config.Label o
  /\ Config.retention o' = Config.retention o
  /\ Config.PVWA o' = Config.PVWA o
  /\ Config.max_concurrent_tasks o' = Config.max_concurrent_tasks o
  /\ Config.timeout o' = Config.timeout o
  /\ Config.PVWA_CA o' = Config.PVWA_CA o
  /\ Config.keep_cookies o' = Config.keep_cookies o
  /\ Config.label o' = Config.label o
  /\ Config.options_modules o' = Config.options_modules o.

(** A step that, when it returns, has not created the attribute
    [options_modules]. *)
Definition keeps_none {A} (m : Config.M A) : Prop :=
  forall self a self',
    m self = (Return a, self') ->
    Config.options_modules self = None -> Config.options_modules self' = None.

(** A step that does not return on an object without [options_modules]. *)
Definition needs_options_modules {A} (m : Config.M A) : Prop :=
  forall self a self',
    Config.options_modules self = None -> m self <> (Return a, self').

(** An object as [Config.__init__] builds it first, and what the
    constructor is given from outside the source tree. *)
Definition sample_config : Config.t :=
  Config.mk (PStr "config.yml") PNone PNone (PStr EmptyString) PNone PNone PNone
    PNone PNone (PStr "Cyberark") PNone PNone PNone PNone (PInt 10) (PInt 30)
    (PBool false) (PBool false) None None.

Definition sample_deps : Config.Deps :=
  Config.mk_Deps ["account"; "aim"; "safe"]
    (fun _ => Return (PDict [("PVWA", PDict [("host", PStr "pvwa.example.com")])]))
    (fun _ => None)
    (fun _ _ _ => Return (PDict []))
    (fun _ _ _ => Return (PDict [])).

(* ================================================================== *)
(** * Properties *)

(** ** Strings and dictionaries *)

Lemma lower_ascii_idempotent (c : ascii) : lower_ascii (lower_ascii c) = lower_ascii c.
Proof. destruct c as [[] [] [] [] [] [] [] []]; reflexivity. Qed.

Lemma lower_idempotent (s : string) : lower (lower s) = lower s.
Proof.
  induction s as [|c s IH]; simpl; [reflexivity|].
  now rewrite lower_ascii_idempotent, IH.
Qed.

Lemma dict_get_app (k : string) (d1 d2 : dict) :
  dict_get k (d1 ++ d2)%list =
  match dict_get k d1 with Some v => Some v | None => dict_get k d2 end.
Proof.
  induction d1 as [|[k' v'] d1 IH]; simpl; [reflexivity|].
  destruct (String.eqb k k'); [reflexivity|exact IH].
Qed.

Lemma dict_get_notin (k : string) (d : dict) :
  ~ In k (keys d) -> dict_get k d = None.
Proof.
  induction d as [|[k' v'] d IH]; simpl; intros H; [reflexivity|].
  destruct (String.eqb_spec k k') as [->|Hne].
  - exfalso; apply H; now left.
  - apply IH; intros Hin; apply H; now right.
Qed.

Lemma dict_get_in (k : string) (d : dict) :
  In k (keys d) -> exists v, dict_get k d = Some v.
Proof.
  induction d as [|[k' v'] d IH]; simpl; intros H; [contradiction|].
  destruct (String.eqb_spec k k') as [->|Hne]; [eauto|].
  destruct H as [H|H]; [congruence|auto].
Qed.

Lemma dict_get_some_in (k : string) (v : pyval) (d : dict) :
  dict_get k d = Some v -> In k (keys d).
Proof.
  induction d as [|[k' v'] d IH]; simpl; [discriminate|].
  destruct (String.eqb_spec k k') as [->|Hne]; [now left|].
  intros H; right; auto.
Qed.

Lemma dict_remove_notin (k : string) (d : dict) :
  ~ In k (keys d) -> dict_remove k d = d.
Proof.
  induction d as [|[k' v'] d IH]; simpl; intros H; [reflexivity|].
  destruct (String.eqb_spec k k') as [->|Hne].
  - exfalso; apply H; now left.
  - f_equal; apply IH; intros Hin; apply H; now right.
Qed.

Lemma dict_remove_app (k : string) (d1 d2 : dict) :
  dict_remove k (d1 ++ d2)%list = (dict_remove k d1 ++ dict_remove k d2)%list.
Proof.
  induction d1 as [|[k' v'] d1 IH]; simpl; [reflexivity|].
  destruct (String.eqb k k'); simpl; now rewrite IH.
Qed.

Lemma dict_get_remove_ne (k k' : string) (d : dict) :
  k <> k' -> dict_get k (dict_remove k' d) = dict_get k d.
Proof.
  intros Hne; induction d as [|[k2 v2] d IH]; simpl; [reflexivity|].
  destruct (String.eqb_spec k' k2) as [->|H2].
  - rewrite IH. destruct (String.eqb_spec k k2); [congruence|reflexivity].
  - simpl. now rewrite IH.
Qed.

Lemma dict_setitem_notin (k : string) (v : pyval) (d : dict) :
  ~ In k (keys d) -> dict_setitem k v d = (d ++ [(k, v)])%list.
Proof.
  induction d as [|[k' v'] d IH]; simpl; intros H; [reflexivity|].
  destruct (String.eqb_spec k k') as [->|Hne].
  - exfalso; apply H; now left.
  - f_equal; apply IH; intros Hin; apply H; now right.
Qed.

Lemma dict_get_setitem_eq (k : string) (v : pyval) (d : dict) :
  dict_get k (dict_setitem k v d) = Some v.
Proof.
  induction d as [|[k' v'] d IH]; simpl.
  - now rewrite String.eqb_refl.
  - destruct (String.eqb_spec k k') as [->|Hne]; simpl.
    + now rewrite String.eqb_refl.
    + destruct (String.eqb_spec k k'); [congruence|exact IH].
Qed.

Lemma dict_get_setitem_ne (k k' : string) (v : pyval) (d : dict) :
  k <> k' -> dict_get k (dict_setitem k' v d) = dict_get k d.
Proof.
  intros Hne; induction d as [|[k2 v2] d IH]; simpl.
  - destruct (String.eqb_spec k k'); [congruence|reflexivity].
  - destruct (String.eqb_spec k' k2) as [->|H2]; simpl.
    + destruct (String.eqb_spec k k2); [congruence|reflexivity].
    + now rewrite IH.
Qed.

Lemma keys_app (d1 d2 : dict) : keys (d1 ++ d2)%list = (keys d1 ++ keys d2)%list.
Proof. apply map_app. Qed.

(* ================================================================== *)
(** ** The parameter validator *)

Section Validator.

Variable E : Env.

Lemma is_lowercase_true (kv : string * pyval) :
  is_lowercase kv = true -> lower (fst kv) = fst kv.
Proof.
  unfold is_lowercase; intros H; apply String.eqb_eq in H; congruence.
Qed.

Lemma normalized_snoc_lower (d : dict) (kv : string * pyval) :
  is_lowercase kv = true ->
  (filter is_lowercase (d ++ [kv]) = filter is_lowercase d ++ [kv])%list /\
  filter (fun e => negb (is_lowercase e)) (d ++ [kv])%list
  = filter (fun e => negb (is_lowercase e)) d.
Proof.
  intros H; rewrite !filter_app; simpl; rewrite H; simpl.
  now rewrite app_nil_r.
Qed.

Lemma normalized_snoc_upper (d : dict) (kv : string * pyval) :
  is_lowercase kv = false ->
  filter is_lowercase (d ++ [kv])%list = filter is_lowercase d /\
  (map renamed (filter (fun e => negb (is_lowercase e)) (d ++ [kv]))
   = map renamed (filter (fun e => negb (is_lowercase e)) d) ++ [renamed kv])%list.
Proof.
  intros H; rewrite !filter_app; simpl; rewrite H; simpl.
  now rewrite app_nil_r, map_app.
Qed.

(** The keys of the dictionary under construction are lowercase forms of
    keys of the original one. *)
Lemma keys_normalized_lower (d : dict) (k : string) :
  In k (keys (filter is_lowercase d))
  \/ In k (keys (map renamed (filter (fun e => negb (is_lowercase e)) d))) ->
  exists k0, In k0 (keys d) /\ k = lower k0.
Proof.
  unfold keys; intros [H|H].
  - apply in_map_iff in H as [[k0 v0] [Hk Hin]]; simpl in Hk; subst.
    apply filter_In in Hin as [Hin Hl].
    exists k; split; [apply in_map_iff; now exists (k, v0)|].
    symmetry; exact (is_lowercase_true (k, v0) Hl).
  - apply in_map_iff in H as [[k1 v1] [Hk Hin]]; simpl in Hk.
    apply in_map_iff in Hin as [[k0 v0] [Hr Hin]].
    apply filter_In in Hin as [Hin _].
    unfold renamed in Hr; simpl in Hr; injection Hr as Hk1 _.
    exists k0; split; [apply in_map_iff; now exists (k0, v0)|congruence].
Qed.

Lemma NoDup_map_lower_inj (l : list string) (a b : string) :
  NoDup (map lower l) -> In a l -> In b l -> lower a = lower b -> a = b.
Proof.
  induction l as [|x l IH]; simpl; [contradiction|].
  intros Hnd Ha Hb Hab; inversion Hnd as [|? ? Hx Hl]; subst.
  destruct Ha as [->|Ha], Hb as [->|Hb]; auto.
  - exfalso; apply Hx; rewrite Hab; now apply in_map.
  - exfalso; apply Hx; rewrite <- Hab; now apply in_map.
Qed.

Lemma NoDup_map_lower (l : list string) : NoDup (map lower l) -> NoDup l.
Proof.
  induction l as [|x l IH]; simpl; intros H; [constructor|].
  inversion H as [|? ? Hx Hl]; subst; constructor; auto.
  intros Hin; apply Hx; now apply in_map.
Qed.

Lemma valid_secret_params_loop_cons (k : string) (rest : list string) (params : dict) :
  valid_secret_params_loop E (k :: rest) params =
  if negb (allowed k) then
    match dict_get k params with
    | Some v => (Return ("unknown parameter: " ++ k ++ "=" ++ py_str E v), params)
    | None => (Raise (KeyError k), params)
    end
  else if negb (String.eqb k (lower k)) then
    match dict_get k params with
    | Some v =>
        valid_secret_params_loop E rest
          (dict_setitem (lower k) v (dict_remove k params))
    | None => (Raise (KeyError k), params)
    end
  else valid_secret_params_loop E rest params.
Proof. reflexivity. Qed.

(** The loop when every key passes: with [done] already handled and [todo]
    ahead, the dictionary holds the lowercase entries of [done], then
    [todo], then the renamed entries of [done]. *)
Lemma valid_secret_params_loop_accepts (todo done : dict) :
  NoDup (map lower (keys (done ++ todo)%list)) ->
  forallb allowed (keys todo) = true ->
  valid_secret_params_loop E (keys todo)
    (filter is_lowercase done ++ todo
     ++ map renamed (filter (fun e => negb (is_lowercase e)) done))%list
  = (Return EmptyString, normalized (done ++ todo)%list).
Proof.
  revert done; induction todo as [|[k v] todo IH]; intros done Hnd Hall.
  - simpl; now rewrite app_nil_r.
  - simpl in Hall; apply andb_true_iff in Hall as [Hk Hall].
    assert (Hnd' : NoDup (map lower (keys ((done ++ [(k, v)]) ++ todo)%list)))
      by now rewrite <- app_assoc.
    specialize (IH (done ++ [(k, v)])%list Hnd' Hall).
    rewrite <- app_assoc in IH; simpl in IH.
    change (keys ((k, v) :: todo)) with (k :: keys todo).
    rewrite valid_secret_params_loop_cons, Hk; simpl negb; cbv iota.
    destruct (String.eqb k (lower k)) eqn:Hlow; simpl negb; cbv iota.
    + destruct (normalized_snoc_lower done (k, v) Hlow) as [H1 H2].
      rewrite H1, H2, <- app_assoc in IH; exact IH.
    + destruct (normalized_snoc_upper done (k, v) Hlow) as [H1 H2].
      rewrite H1, H2 in IH.
      assert (Hkeys : NoDup (keys (done ++ (k, v) :: todo)%list))
        by now apply NoDup_map_lower.
      rewrite keys_app in Hkeys; simpl in Hkeys.
      pose proof (NoDup_remove_2 _ _ _ Hkeys) as Hfresh.
      assert (HkL : ~ In k (keys (filter is_lowercase done))).
      { intros Hin; apply Hfresh, in_or_app; left.
        unfold keys in *; apply in_map_iff in Hin as [kv [Hf Hin]].
        apply filter_In in Hin as [Hin _]; apply in_map_iff; eauto. }
      assert (HkT : ~ In k (keys todo))
        by (intros Hin; apply Hfresh, in_or_app; now right).
      assert (HkR : ~ In k (keys (map renamed
                      (filter (fun e => negb (is_lowercase e)) done)))).
      { intros Hin.
        destruct (keys_normalized_lower done k (or_intror Hin)) as [k0 [_ Hk0]].
        apply String.eqb_neq in Hlow; apply Hlow.
        now rewrite Hk0, lower_idempotent. }
      rewrite dict_get_app, (dict_get_notin k _ HkL); simpl.
      rewrite String.eqb_refl.
      rewrite dict_remove_app; simpl; rewrite String.eqb_refl, dict_remove_app.
      rewrite (dict_remove_notin k _ HkL), (dict_remove_notin k _ HkT),
        (dict_remove_notin k _ HkR).
      rewrite dict_setitem_notin.
      * rewrite <- !app_assoc; exact IH.
      * rewrite !keys_app; intros Hin.
        assert (Hin0 : In k (keys (done ++ (k, v) :: todo)%list))
          by (rewrite keys_app; apply in_or_app; right; now left).
        assert (Hne : forall k0, In k0 (keys (done ++ (k, v) :: todo)%list) ->
                                 lower k = lower k0 -> k = k0).
        { intros k0 Hk0 Heq. exact (NoDup_map_lower_inj _ _ _ Hnd Hin0 Hk0 Heq). }
        apply in_app_or in Hin as [Hin|Hin]; [|apply in_app_or in Hin as [Hin|Hin]].
        -- destruct (keys_normalized_lower done _ (or_introl Hin)) as [k0 [Hk0 Heq]].
           assert (k = k0).
           { apply Hne; [rewrite keys_app; apply in_or_app; now left|].
             now rewrite Heq at 1. }
           subst k0. apply Hfresh, in_or_app; now left.
        -- assert (k = lower k).
           { apply Hne; [rewrite keys_app; apply in_or_app; right; now right|].
             now rewrite lower_idempotent. }
           apply String.eqb_neq in Hlow; contradiction.
        -- destruct (keys_normalized_lower done _ (or_intror Hin)) as [k0 [Hk0 Heq]].
           assert (k = k0).
           { apply Hne; [rewrite keys_app; apply in_or_app; now left|].
             now rewrite Heq at 1. }
           subst k0. apply Hfresh, in_or_app; now left.
Qed.

(** The loop when a key fails: [pre] passes, [k] does not.  Keys still to
    be visited stay in the dictionary, and the value of [k] is untouched. *)
Lemma valid_secret_params_loop_rejects
    (pre : dict) (k : string) (v : pyval) (post : list string) :
  forall params : dict,
  NoDup (keys pre ++ [k]) ->
  forallb allowed (keys pre) = true ->
  allowed k = false ->
  (forall k', In k' (keys pre) -> exists v', dict_get k' params = Some v') ->
  dict_get k params = Some v ->
  fst (valid_secret_params_loop E (keys pre ++ k :: post) params)
  = Return ("unknown parameter: " ++ k ++ "=" ++ py_str E v).
Proof.
  induction pre as [|[k1 v1] pre IH]; intros params Hnd Hall Hk Hpre Hget.
  - simpl app. rewrite valid_secret_params_loop_cons, Hk; simpl negb; cbv iota.
    now rewrite Hget.
  - change (keys ((k1, v1) :: pre) ++ k :: post)%list
      with (k1 :: (keys pre ++ k :: post))%list.
    simpl in Hall; apply andb_true_iff in Hall as [Hk1 Hall].
    simpl in Hnd; inversion Hnd as [|? ? Hk1fresh Hnd']; subst.
    assert (Hne : k <> k1).
    { intros ->; apply Hk1fresh, in_or_app; right; now left. }
    rewrite valid_secret_params_loop_cons, Hk1; simpl negb; cbv iota.
    destruct (String.eqb k1 (lower k1)) eqn:Hlow; simpl negb; cbv iota.
    + apply IH; auto.
      intros k' Hin; apply Hpre; now right.
    + destruct (Hpre k1 (or_introl eq_refl)) as [v1' Hv1]; rewrite Hv1.
      assert (Hnl : k <> lower k1).
      { intros ->; unfold allowed in Hk, Hk1.
        rewrite lower_idempotent in Hk; congruence. }
      apply IH; auto.
      * intros k' Hin.
        destruct (String.eqb_spec k' (lower k1)) as [->|Hd].
        -- eexists; apply dict_get_setitem_eq.
        -- rewrite dict_get_setitem_ne by exact Hd.
           rewrite dict_get_remove_ne; [apply Hpre; now right|].
           intros ->; apply Hk1fresh, in_or_app; now left.
      * rewrite dict_get_setitem_ne by exact Hnl.
        now rewrite dict_get_remove_ne.
Qed.

Lemma first_rejected (d : dict) :
  (exists k, In k (keys d) /\ allowed k = false) ->
  exists pre k v post,
    d = (pre ++ (k, v) :: post)%list
    /\ forallb allowed (keys pre) = true /\ allowed k = false.
Proof.
  induction d as [|[k0 v0] d IH]; intros [k [Hin Hk]]; [contradiction|].
  destruct (allowed k0) eqn:Hk0.
  - destruct IH as (pre & k' & v' & post & -> & Hpre & Hk').
    { exists k; split; [|exact Hk].
      destruct Hin as [Hin|Hin]; [simpl in Hin; congruence|exact Hin]. }
    exists ((k0, v0) :: pre), k', v', post; repeat split; auto.
    simpl; now rewrite Hk0.
  - exists [], k0, v0, d; repeat split; auto.
Qed.

Lemma dict_get_NoDup_In (d : dict) (k : string) (v : pyval) :
  NoDup (keys d) -> In (k, v) d -> dict_get k d = Some v.
Proof.
  induction d as [|[k0 v0] d IH]; simpl; intros Hnd Hin; [contradiction|].
  inversion Hnd as [|? ? Hfresh Hnd']; subst.
  destruct Hin as [Heq|Hin].
  - injection Heq as -> ->; now rewrite String.eqb_refl.
  - destruct (String.eqb_spec k k0) as [->|Hne]; [|auto].
    exfalso; apply Hfresh; unfold keys; apply in_map_iff; now exists (k0, v).
Qed.

Lemma filter_split_Permutation {A} (f : A -> bool) (l : list A) :
  Permutation (filter f l ++ filter (fun x => negb (f x)) l)%list l.
Proof.
  induction l as [|a l IH]; simpl; [constructor|].
  destruct (f a); simpl.
  - now constructor.
  - apply Permutation_sym, Permutation_cons_app.
    now apply Permutation_sym.
Qed.

Lemma keys_normalized (d : dict) :
  keys (normalized d)
  = map (fun kv => lower (fst kv))
      (filter is_lowercase d ++ filter (fun kv => negb (is_lowercase kv)) d)%list.
Proof.
  unfold normalized, keys; rewrite !map_app, map_map; f_equal.
  apply map_ext_in; intros kv Hin; apply filter_In in Hin as [_ Hl].
  symmetry; now apply is_lowercase_true.
Qed.

Lemma NoDup_keys_normalized (d : dict) :
  NoDup (map lower (keys d)) -> NoDup (keys (normalized d)).
Proof.
  intros Hnd; rewrite keys_normalized.
  eapply Permutation_NoDup.
  - apply Permutation_sym, Permutation_map,
      (filter_split_Permutation is_lowercase d).
  - unfold keys in Hnd; now rewrite map_map in Hnd.
Qed.

Lemma In_normalized (d : dict) (k : string) (v : pyval) :
  In (k, v) d -> In (lower k, v) (normalized d).
Proof.
  intros Hin; unfold normalized; apply in_or_app.
  destruct (is_lowercase (k, v)) eqn:Hl.
  - left; pose proof (is_lowercase_true (k, v) Hl) as H; simpl in H.
    rewrite H; apply filter_In; auto.
  - right; apply in_map_iff; exists (k, v); split; [reflexivity|].
    apply filter_In; split; [exact Hin|now rewrite Hl].
Qed.

(** C7 (amended).  [valid_secret_params] on a dictionary: when some key's
    lowercase form is outside the allow-list, the result is the message
    naming the first such key and its value; when every key passes and no
    two keys share a lowercase form, the result is the empty string and the
    dictionary becomes [normalized d]: entries already in lowercase keep
    their place and order, renamed entries follow in their original order,
    and every entry keeps its value under the lowercase key. *)
Theorem valid_secret_params_correct (d : dict) :
  NoDup (keys d) ->
  ((exists k, In k (keys d) /\ allowed k = false) ->
   exists pre k v post,
     d = (pre ++ (k, v) :: post)%list
     /\ forallb allowed (keys pre) = true /\ allowed k = false
     /\ fst (valid_secret_params E (PDict d))
        = Return ("unknown parameter: " ++ k ++ "=" ++ py_str E v))
  /\
  (forallb allowed (keys d) = true ->
   NoDup (map lower (keys d)) ->
   valid_secret_params E (PDict d) = (Return EmptyString, PDict (normalized d))
   /\ forall k v, In (k, v) d -> dict_get (lower k) (normalized d) = Some v).
Proof.
  intros Hnd; split.
  - intros Hex.
    destruct (first_rejected d Hex) as (pre & k & v & post & Hd & Hpre & Hk).
    exists pre, k, v, post; repeat split; auto.
    unfold valid_secret_params.
    destruct (valid_secret_params_loop E (keys d) d) as [r d'] eqn:Hloop.
    change r with (fst (r, d')); rewrite <- Hloop.
    subst d; rewrite keys_app in *; simpl in *.
    apply valid_secret_params_loop_rejects with (pre := pre); auto.
    + rewrite <- (app_nil_r (keys pre ++ [k])), <- app_assoc.
      apply (NoDup_app_remove_r _ (keys post)).
      now rewrite <- app_assoc.
    + intros k' Hin; apply dict_get_in; rewrite keys_app.
      apply in_or_app; now left.
    + apply dict_get_NoDup_In; [now rewrite keys_app|].
      apply in_or_app; right; now left.
  - intros Hall Hlow; split.
    + unfold valid_secret_params.
      pose proof (valid_secret_params_loop_accepts d [] Hlow Hall) as H.
      simpl in H; rewrite app_nil_r in H; now rewrite H.
    + intros k v Hin; apply dict_get_NoDup_In.
      * now apply NoDup_keys_normalized.
      * now apply In_normalized.
Qed.

End Validator.

Ltac nodup_strings :=
  repeat (constructor; [simpl; intuition discriminate|]); constructor.

Lemma valid_secret_params_correct_witness :
  (let d := [("Safe", PStr "Prod"); ("object", PStr "root"); ("UserName", PStr "svc")] in
   NoDup (keys d) /\ forallb allowed (keys d) = true /\ NoDup (map lower (keys d))
   /\ valid_secret_params offline_env (PDict d)
      = (Return EmptyString,
         PDict [("object", PStr "root"); ("safe", PStr "Prod"); ("username", PStr "svc")]))
  /\
  (let d := [("Safe", PStr "Prod"); ("Objet", PStr "root")] in
   NoDup (keys d) /\ (exists k, In k (keys d) /\ allowed k = false)
   /\ exists pre k v post,
        d = (pre ++ (k, v) :: post)%list
        /\ forallb allowed (keys pre) = true /\ allowed k = false
        /\ fst (valid_secret_params offline_env (PDict d))
           = Return ("unknown parameter: " ++ k ++ "=" ++ py_str offline_env v)).
Proof.
  split; cbv zeta.
  - assert (Hnd : NoDup (keys [("Safe", PStr "Prod"); ("object", PStr "root");
                               ("UserName", PStr "svc")])) by nodup_strings.
    assert (Hlow : NoDup (map lower (keys [("Safe", PStr "Prod"); ("object", PStr "root");
                                           ("UserName", PStr "svc")]))) by nodup_strings.
    split; [exact Hnd|]. split; [reflexivity|]. split; [exact Hlow|].
    exact (proj1 (proj2 (valid_secret_params_correct offline_env _ Hnd) eq_refl Hlow)).
  - assert (Hnd : NoDup (keys [("Safe", PStr "Prod"); ("Objet", PStr "root")]))
      by nodup_strings.
    assert (Hex : exists k, In k (keys [("Safe", PStr "Prod"); ("Objet", PStr "root")])
                            /\ allowed k = false)
      by (exists "Objet"; split; [right; now left|reflexivity]).
    split; [exact Hnd|]. split; [exact Hex|].
    exact (proj1 (valid_secret_params_correct offline_env _ Hnd) Hex).
Defined.

(** C7 as stated fails when two keys differ only by case: both pass the
    allow-list, the call reports no error, and the value stored under
    ["safe"] is replaced by the value of ["Safe"]. *)
Lemma valid_secret_params_case_collision :
  let d := [("Safe", PInt 1); ("safe", PInt 2)] in
  NoDup (keys d) /\ forallb allowed (keys d) = true
  /\ valid_secret_params offline_env (PDict d)
     = (Return EmptyString, PDict [("safe", PInt 1)])
  /\ In ("safe", PInt 2) d
  /\ dict_get (lower "safe") [("safe", PInt 1)] <> Some (PInt 2).
Proof.
  cbv zeta.
  split; [nodup_strings|]. split; [reflexivity|]. split; [reflexivity|].
  split; [right; now left|simpl; discriminate].
Qed.

(* ================================================================== *)
(** ** The request executor: from the call to the classification *)


Lemma bind_outcome_return {A B} (m : M A) (k : A -> M B) o w a o1 w1 :
  m o w = (Return a, o1, w1) -> bind m k o w = k a o1 w1.
Proof. unfold bind; now intros ->. Qed.

Section Executor.

Variable E : Env.

Lemma handle_error_detail_info_dict (url : string) (d : dict) :
  exists details, handle_error_detail_info E url (PDict d) = Return details.
Proof.
  unfold handle_error_detail_info; simpl.
  destruct (dict_contains "appid" d); simpl; eauto.
Qed.

(** An exception that no handler of the inner [try] names passes through. *)
Lemma handle_response_passes url p ff req o w err :
  classify_response E url p ff req = Raise err ->
  is_JSONDecodeError err = false ->
  is_Key_Value_ContentType_Error err = false ->
  handle_response E url p ff req o w = (Raise err, o, w).
Proof.
  intros Hc Hj Hk; unfold handle_response; now rewrite Hc, Hj, Hk.
Qed.

(** A [ValueError] of the inner [try] is turned into a [CyberarkException]. *)
Lemma handle_response_wraps_ValueError url p ff req o w m details :
  classify_response E url p ff req = Raise (ValueError m) ->
  handle_error_detail_info E url p = Return details ->
  outcome_of (handle_response E url p ff req o w)
  = Raise (CyberarkException
             ("HTTP error " ++ Z_to_string (status req) ++ ": " ++ m
              ++ " || Additional Details : " ++ details)).
Proof.
  intros Hc Hd; unfold handle_response; rewrite Hc; simpl.
  unfold bind, print, lift, raise; now rewrite Hd.
Qed.

Lemma send_request_outcome method url head p ff o w rp req err :
  request_params o = Some rp ->
  session_request E method url head p rp = NetResponse req ->
  outcome_of (handle_response E url p ff req o w) = Raise err ->
  is_ClientError err = false ->
  outcome_of (send_request E method url head p ff o w) = Raise err.
Proof.
  intros Hrp Hnet Hr Hc; unfold send_request; rewrite Hrp, Hnet.
  unfold outcome_of in *.
  destruct (handle_response E url p ff req o w) as [[r o1] w1]; simpl in *.
  subst r; now rewrite Hc.
Qed.

Lemma with_sema_outcome {A} (body : M A) o w g :
  sema o = Some g -> 0 < sem_value g ->
  outcome_of (with_sema body o w)
  = outcome_of (body (set_sema (Some (mk_Semaphore (sem_id g) (sem_value g - 1))) o) w).
Proof.
  intros Hs Hv; unfold with_sema; rewrite Hs.
  destruct (sem_value g <=? 0) eqn:Hle; [apply Z.leb_le in Hle; lia|].
  unfold outcome_of.
  now destruct (body _ w) as [[r o1] w1].
Qed.



(** [handle_aim_request], step by step. *)
Lemma handle_aim_request_steps method short_url params ff self w :
  handle_aim_request E method short_url params ff self w =
  if negb (String.eqb (lower method) "get") then (Raise AssertionError, self, w)
  else
    match get_aim_session E self w with
    | (Return _, self1, w1) =>
        match inject_appid self1 params with
        | Return params_new =>
            with_sema
              (send_request E method (fst (get_url E self short_url))
                 (snd (get_url E self short_url)) params_new ff) self1 w1
        | Raise e => (Raise e, self1, w1)
        | Blocked => (Blocked, self1, w1)
        end
    | (Raise e, self1, w1) => (Raise e, self1, w1)
    | (Blocked, self1, w1) => (Blocked, self1, w1)
    end.
Proof.
  unfold handle_aim_request.
  destruct (negb (String.eqb (lower method) "get")); [reflexivity|].
  unfold bind, get_self, lift.
  destruct (get_url E self short_url) as [url head]; simpl.
  destruct (get_aim_session E self w) as [[[s|e|] self1] w1]; reflexivity.
Qed.

(** With no permit left the call waits at [async with self.__sema]. *)
Lemma handle_aim_request_waits method short_url params ff self w s self1 w1 g p :
  lower method = "get" ->
  get_aim_session E self w = (Return s, self1, w1) ->
  inject_appid self1 params = Return p ->
  sema self1 = Some g -> sem_value g <= 0 ->
  handle_aim_request E method short_url params ff self w = (Blocked, self1, w1).
Proof.
  intros Hm Hopen Hinj Hs Hv.
  rewrite handle_aim_request_steps, Hm, Hopen, Hinj.
  change (negb ("get" =? "get")%string) with false; cbv iota.
  unfold with_sema; rewrite Hs.
  apply Z.leb_le in Hv; now rewrite Hv.
Qed.

(** Once the response is in hand, what the call raises is what the inner
    [try] raises for it, unless that is an aiohttp error. *)
Lemma handle_aim_request_received
    (P : exn -> Prop) method short_url params ff self w req :
  received E method short_url params self w req ->
  (forall url p o w',
      exists err,
        outcome_of (handle_response E url (PDict p) ff req o w') = Raise err
        /\ is_ClientError err = false /\ P err) ->
  exists err,
    outcome_of (handle_aim_request E method short_url params ff self w) = Raise err
    /\ P err.
Proof.
  intros (Hm & s & self1 & w1 & g & rp & p & Hopen & Hinj & Hs & Hv & Hrp & Hnet)
    Hresp.
  rewrite handle_aim_request_steps, Hm, Hopen, Hinj.
  change (negb ("get" =? "get")%string) with false; cbv iota.
  rewrite (with_sema_outcome _ _ _ g Hs Hv).
  destruct (Hresp (fst (get_url E self short_url)) p
              (set_sema (Some (mk_Semaphore (sem_id g) (sem_value g - 1))) self1) w1)
    as (err & Hr & Hc & HP).
  exists err; split; [|exact HP].
  eapply send_request_outcome; eauto.
Qed.


(** *** Classification of a decoded response *)


(** The [details] argument the error branch computes. *)
Lemma error_details_dict url p body :
  exists details,
    (if dict_contains "Details" body
     then py_getitem (PDict body) "Details"
     else d <~ handle_error_detail_info E url (PDict p) ;; Return (PStr d))
    = Return details.
Proof.
  unfold dict_contains; simpl.
  destruct (dict_get "Details" body) as [v|] eqn:Hd; [now exists v|].
  destruct (handle_error_detail_info_dict url p) as [details Hi].
  rewrite Hi; simpl; eauto.
Qed.

Lemma classify_error_pair url p ff req body code msg :
  status req <> 200 ->
  json req = Return (PDict body) ->
  dict_get "ErrorCode" body = Some code ->
  dict_get "ErrorMsg" body = Some msg ->
  exists details,
    classify_response E url (PDict p) ff req
    = Raise (if eq_str code "APPAP004E"
             then CyberarkAIMnotFound (status req) code msg details
             else CyberarkAPIException (status req) code msg details).
Proof.
  intros Hs Hj Hcode Hmsg.
  destruct (error_details_dict url p body) as [details Hd].
  exists details; unfold classify_response.
  apply Z.eqb_neq in Hs; rewrite Hj, Hs; cbn [obind py_in].
  rewrite Hd; cbn [obind py_in py_getitem].
  unfold dict_contains; rewrite Hcode, Hmsg; cbn [obind].
  destruct (eq_str code "APPAP004E"); reflexivity.
Qed.

Lemma classify_no_error_pair url p ff req body :
  status req <> 200 ->
  json req = Return (PDict body) ->
  has_error_pair body = false ->
  exists details,
    classify_response E url (PDict p) ff req
    = match HTTPStatus_phrase E (status req) with
      | Some phrase =>
          Raise (CyberarkAPIException (status req) (PStr "HTTP_ERR_CODE")
                   (PStr phrase) details)
      | None =>
          Raise (ValueError (Z_to_string (status req) ++ " is not a valid HTTPStatus"))
      end.
Proof.
  intros Hs Hj Hpair.
  destruct (error_details_dict url p body) as [details Hd].
  exists details; unfold classify_response.
  apply Z.eqb_neq in Hs; rewrite Hj, Hs; cbn [obind py_in].
  rewrite Hd; cbn [obind py_in].
  unfold has_error_pair in Hpair.
  assert (Hp : (if dict_contains "ErrorCode" body
                then Return (dict_contains "ErrorMsg" body)
                else Return false) = Return false).
  { destruct (dict_contains "ErrorCode" body); simpl in Hpair;
      [now rewrite Hpair|reflexivity]. }
  rewrite Hp; cbn [obind]; unfold http_phrase.
  destruct (HTTPStatus_phrase E (status req)); reflexivity.
Qed.

(** *** The classified failures *)


(** C2.  A response with another status than 200 whose JSON object has both
    [ErrorCode] and [ErrorMsg] makes [handle_aim_request] raise
    [CyberarkAIMnotFound] when the code is [APPAP004E] and
    [CyberarkAPIException] otherwise; either carries the status and the two
    values of the body as they are. *)
Theorem handle_aim_request_error_pair
    method short_url params ff self w req body code msg :
  received E method short_url params self w req ->
  status req <> 200 ->
  json req = Return (PDict body) ->
  dict_get "ErrorCode" body = Some code ->
  dict_get "ErrorMsg" body = Some msg ->
  exists details,
    outcome_of (handle_aim_request E method short_url params ff self w)
    = Raise (if eq_str code "APPAP004E"
             then CyberarkAIMnotFound (status req) code msg details
             else CyberarkAPIException (status req) code msg details).
Proof.
  intros Hrcv Hs Hj Hcode Hmsg.
  destruct (handle_aim_request_received
              (fun err => exists details,
                   err = if eq_str code "APPAP004E"
                         then CyberarkAIMnotFound (status req) code msg details
                         else CyberarkAPIException (status req) code msg details)
              method short_url params ff self w req Hrcv)
    as (err & Hr & details & ->).
  - intros url p o w'.
    destruct (classify_error_pair url p ff req body code msg Hs Hj Hcode Hmsg)
      as [details Hd].
    eexists; split; [|split; [|now exists details]].
    + rewrite (handle_response_passes _ _ _ _ _ _ _ Hd); [reflexivity| |];
        destruct (eq_str code "APPAP004E"); reflexivity.
    + destruct (eq_str code "APPAP004E"); reflexivity.
  - now exists details.
Qed.

(** C5 (amended).  A response with another status than 200 whose JSON object
    lacks [ErrorCode] or [ErrorMsg]: when the status is a member of
    [HTTPStatus], [handle_aim_request] raises [CyberarkAPIException] with
    code [HTTP_ERR_CODE] and the reason phrase of the status; when it is
    not, the [ValueError] of the lookup is caught and the call raises
    [CyberarkException]. *)
Theorem handle_aim_request_no_error_pair
    method short_url params ff self w req body :
  received E method short_url params self w req ->
  status req <> 200 ->
  json req = Return (PDict body) ->
  has_error_pair body = false ->
  (forall phrase,
      HTTPStatus_phrase E (status req) = Some phrase ->
      exists details,
        outcome_of (handle_aim_request E method short_url params ff self w)
        = Raise (CyberarkAPIException (status req) (PStr "HTTP_ERR_CODE")
                   (PStr phrase) details))
  /\
  (HTTPStatus_phrase E (status req) = None ->
   exists details,
     outcome_of (handle_aim_request E method short_url params ff self w)
     = Raise (CyberarkException
                ("HTTP error " ++ Z_to_string (status req) ++ ": "
                 ++ (Z_to_string (status req) ++ " is not a valid HTTPStatus")
                 ++ " || Additional Details : " ++ details))).
Proof.
  intros Hrcv Hs Hj Hpair; split.
  - intros phrase Hph.
    destruct (handle_aim_request_received
                (fun err => exists details,
                     err = CyberarkAPIException (status req) (PStr "HTTP_ERR_CODE")
                             (PStr phrase) details)
                method short_url params ff self w req Hrcv)
      as (err & Hr & details & ->); [|now exists details].
    intros url p o w'.
    destruct (classify_no_error_pair url p ff req body Hs Hj Hpair) as [details Hd].
    rewrite Hph in Hd.
    eexists; split; [|split; [|now exists details]].
    + now rewrite (handle_response_passes _ _ _ _ _ _ _ Hd).
    + reflexivity.
  - intros Hph.
    destruct (handle_aim_request_received
                (fun err => exists details,
                     err = CyberarkException
                             ("HTTP error " ++ Z_to_string (status req) ++ ": "
                              ++ (Z_to_string (status req)
                                  ++ " is not a valid HTTPStatus")
                              ++ " || Additional Details : " ++ details))
                method short_url params ff self w req Hrcv)
      as (err & Hr & details & ->); [|now exists details].
    intros url p o w'.
    destruct (classify_no_error_pair url p ff req body Hs Hj Hpair) as [details Hd].
    rewrite Hph in Hd.
    destruct (handle_error_detail_info_dict url p) as [info Hi].
    eexists; split; [|split; [|now exists info]].
    + now rewrite (handle_response_wraps_ValueError _ _ _ _ _ _ _ _ Hd Hi).
    + reflexivity.
Qed.

End Executor.

Ltac solve_received :=
  split; [reflexivity|];
  do 6 eexists;
  split; [reflexivity|]; split; [reflexivity|]; split; [reflexivity|];
  split; [reflexivity|]; split; reflexivity.


Lemma handle_aim_request_error_pair_witness :
  let body := [("ErrorCode", PStr "APPAP004E"); ("ErrorMsg", PStr "Password object not found")] in
  let req := mk_response 404 (Return (PDict body)) "{}" in
  let E := answering_env req in
  received E "get" "Accounts" (PDict [("safe", PStr "Prod")]) sample_client empty_world req
  /\ exists details,
       outcome_of (handle_aim_request E "get" "Accounts" (PDict [("safe", PStr "Prod")])
                     identity_filter sample_client empty_world)
       = Raise (CyberarkAIMnotFound 404 (PStr "APPAP004E")
                  (PStr "Password object not found") details).
Proof.
  cbv zeta.
  match goal with |- ?R /\ _ => assert (Hrcv : R) by solve_received end.
  split; [exact Hrcv|].
  refine (handle_aim_request_error_pair _ _ _ _ identity_filter _ _ _ _
            (PStr "APPAP004E") (PStr "Password object not found")
            Hrcv _ eq_refl eq_refl eq_refl).
  simpl; discriminate.
Defined.

Lemma handle_aim_request_no_error_pair_witness :
  let req := mk_response 503 (Return (PDict [("ErrorCode", PStr "X")])) "{}" in
  let E := answering_env req in
  received E "get" "Accounts" (PDict [("safe", PStr "Prod")]) sample_client empty_world req
  /\ exists details,
       outcome_of (handle_aim_request E "get" "Accounts" (PDict [("safe", PStr "Prod")])
                     identity_filter sample_client empty_world)
       = Raise (CyberarkAPIException 503 (PStr "HTTP_ERR_CODE")
                  (PStr "Service Unavailable") details).
Proof.
  cbv zeta.
  match goal with |- ?R /\ _ => assert (Hrcv : R) by solve_received end.
  split; [exact Hrcv|].
  refine (proj1 (handle_aim_request_no_error_pair _ _ _ _ identity_filter _ _ _
                   [("ErrorCode", PStr "X")] Hrcv _ eq_refl eq_refl)
            "Service Unavailable" eq_refl).
  simpl; discriminate.
Defined.

(** A client created with [max_concurrent_tasks=0] gets a semaphore without
    permits: its first call waits for a release that nobody will make. *)
Lemma handle_aim_request_zero_permits :
  handle_aim_request offline_env "get" "Accounts" (PDict [("safe", PStr "Prod")])
    identity_filter (set_max_concurrent_tasks (PInt 0) sample_client) empty_world
  = (Blocked,
     set_request_params
       (Some (mk_request_params (PInt 30)
                (mk_ssl_context DefaultTrustStore false
                   (Some (PStr "client.pem", PNone, PNone)))))
       (set_session (Some (mk_ClientSession 0))
          (set_sema (Some (mk_Semaphore 0 0))
             (set_max_concurrent_tasks (PInt 0) sample_client))),
     mk_World 1 1 [] []).
Proof. reflexivity. Qed.


(** C5 as stated fails at a status outside [HTTPStatus]: for status 299 and
    the body [{}] the call raises [CyberarkException], not
    [CyberarkAPIException] with code [HTTP_ERR_CODE]. *)
Lemma handle_aim_request_status_299 :
  let req := mk_response 299 (Return (PDict [])) "{}" in
  let E := answering_env req in
  received E "get" "Accounts" (PDict [("safe", PStr "Prod")]) sample_client empty_world req
  /\ status req <> 200
  /\ has_error_pair [] = false
  /\ outcome_of (handle_aim_request E "get" "Accounts" (PDict [("safe", PStr "Prod")])
                   identity_filter sample_client empty_world)
     = Raise (CyberarkException
                ("HTTP error 299: 299 is not a valid HTTPStatus || Additional Details : "
                 ++ "url: https://vault.example.com/AIMWebService/api/Accounts, "
                 ++ "params: {'safe': 'Prod', 'appid': '<hidden>'}")).
Proof.
  cbv zeta.
  split; [solve_received|].
  split; [simpl; discriminate|].
  split; reflexivity.
Qed.

(* ================================================================== *)
(** ** Construction and TLS setup *)

Section Setup.

Variable E : Env.

(** C3 (the constructor at [verify=True]).  Whatever the other arguments,
    [__init__] with [verify=True] and no serialized dictionary raises
    [AiobastionException]: the test of line 70 lets only [False] and
    strings through. *)
Theorem init_verify_True_raises
    (a_host a_appid a_cert a_key a_passphrase a_timeout
     a_max_concurrent_tasks a_keep_cookies : pyval) :
  __init__ E a_host a_appid a_cert a_key a_passphrase (PBool true) a_timeout
    a_max_concurrent_tasks a_keep_cookies PNone
  = Raise (AiobastionException
             ("Invalid type for parameter 'verify' in AIM: <class 'bool'> value: "
              ++ py_repr E (PBool true))).
Proof.
  unfold __init__; simpl.
  destruct (is_None a_timeout); simpl;
    destruct (is_None a_max_concurrent_tasks); simpl; reflexivity.
Qed.

(** The same test rejects the default, [verify=None]. *)
Lemma init_verify_None_raises
    (a_host a_appid a_cert a_key a_passphrase a_timeout
     a_max_concurrent_tasks a_keep_cookies : pyval) :
  exists msg,
    __init__ E a_host a_appid a_cert a_key a_passphrase PNone a_timeout
      a_max_concurrent_tasks a_keep_cookies PNone
    = Raise (AiobastionException msg).
Proof.
  unfold __init__; simpl.
  destruct (is_None a_timeout); simpl;
    destruct (is_None a_max_concurrent_tasks); simpl; eauto.
Qed.

(** The TLS setup itself accepts [verify=True]: on an object that holds it,
    with the mandatory attributes and the certificate in place, the context
    uses the default trust store and checks host names. *)
Lemma validate_and_setup_aim_ssl_verify_True (self : EPV_AIM) (w : World) :
  session self = None ->
  first_missing ["host"; "appid"; "cert"] self = None ->
  os_path_exists E (cert self) = Return true ->
  truthy (key self) = false ->
  verify self = PBool true ->
  ssl_create_default_context E DefaultTrustStore = None ->
  ssl_load_cert_chain E (cert self) (key self) (passphrase self) = None ->
  validate_and_setup_aim_ssl E self w
  = (Return tt,
     set_request_params
       (Some (mk_request_params (timeout self)
                (mk_ssl_context DefaultTrustStore true
                   (Some (cert self, key self, passphrase self))))) self,
     w).
Proof.
  intros Hs Hm Hc Hk Hv Hctx Hload.
  unfold validate_and_setup_aim_ssl, bind, get_self, lift, ret, modify_self,
    create_default_context, raise.
  rewrite Hs, Hm, Hc, Hk, Hv; simpl.
  rewrite Hv; simpl.
  rewrite Hctx; simpl.
  now rewrite Hload.
Qed.

Lemma is_None_true (v : pyval) : is_None v = true <-> v = PNone.
Proof. destruct v; simpl; split; congruence. Qed.

(** C4 (amended).  With no session open, when [host], [appid] or [cert] is
    [None] the TLS setup raises [AiobastionException] with the message that
    names the first missing attribute in the order [host], [appid], [cert]:
    the attributes before it in that list are not [None].  It leaves the
    object, hence [request_params], as it was.  When a session is open the
    setup returns at once and checks nothing. *)
Theorem validate_and_setup_aim_ssl_missing (self : EPV_AIM) (w : World) :
  (session self = None ->
   host self = PNone \/ appid self = PNone \/ cert self = PNone ->
   exists pre attr_name post,
     ["host"; "appid"; "cert"] = (pre ++ attr_name :: post)%list
     /\ (forall a, In a pre -> getattr self a <> PNone)
     /\ getattr self attr_name = PNone
     /\ validate_and_setup_aim_ssl E self w
        = (Raise (missing_parameter attr_name), self, w))
  /\ (forall sess,
        session self = Some sess ->
        validate_and_setup_aim_ssl E self w = (Return tt, self, w)).
Proof.
  split.
  - intros Hs Hmiss.
    assert (Hnot : forall v, is_None v = false -> v <> PNone)
      by (intros v Hv ->; discriminate).
    assert (Hfirst : exists pre attr_name post,
               ["host"; "appid"; "cert"] = (pre ++ attr_name :: post)%list
               /\ (forall a, In a pre -> getattr self a <> PNone)
               /\ getattr self attr_name = PNone
               /\ first_missing ["host"; "appid"; "cert"] self = Some attr_name).
    { unfold first_missing.
      destruct (is_None (getattr self "host")) eqn:Hh.
      { exists [], "host", ["appid"; "cert"].
        split; [reflexivity|]. split; [intros a []|].
        split; [now apply is_None_true|reflexivity]. }
      destruct (is_None (getattr self "appid")) eqn:Ha.
      { exists ["host"], "appid", ["cert"].
        split; [reflexivity|].
        split; [intros a [<-|[]]; now apply Hnot|].
        split; [now apply is_None_true|reflexivity]. }
      destruct (is_None (getattr self "cert")) eqn:Hc.
      { exists ["host"; "appid"], "cert", [].
        split; [reflexivity|].
        split; [intros a [<-|[<-|[]]]; now apply Hnot|].
        split; [now apply is_None_true|reflexivity]. }
      exfalso; destruct Hmiss as [H|[H|H]].
      - change (getattr self "host") with (host self) in Hh; rewrite H in Hh; discriminate.
      - change (getattr self "appid") with (appid self) in Ha; rewrite H in Ha; discriminate.
      - change (getattr self "cert") with (cert self) in Hc; rewrite H in Hc; discriminate. }
    destruct Hfirst as (pre & attr_name & post & Hlist & Hpre & Hget & Hf).
    exists pre, attr_name, post.
    split; [exact Hlist|]. split; [exact Hpre|]. split; [exact Hget|].
    unfold validate_and_setup_aim_ssl, bind, get_self.
    now rewrite Hs, Hf.
  - intros sess Hs; unfold validate_and_setup_aim_ssl, bind, get_self.
    now rewrite Hs.
Qed.

(** *** Opening and closing the session *)

Lemma frame_refl (o : EPV_AIM) : frame o o.
Proof. repeat split. Qed.

Lemma frame_trans (o o1 o2 : EPV_AIM) : frame o o1 -> frame o1 o2 -> frame o o2.
Proof. unfold frame; intros (H1 & H2 & H3) (H4 & H5 & H6); repeat split; congruence. Qed.

Lemma preserves_ret {A} (a : A) : preserves (ret a).
Proof. intros o w r o1 w1 H; injection H as <- <- <-; split; [apply frame_refl|reflexivity]. Qed.

Lemma preserves_raise {A} (e : exn) : preserves (@raise A e).
Proof. intros o w r o1 w1 H; injection H as <- <- <-; split; [apply frame_refl|reflexivity]. Qed.

Lemma preserves_lift {A} (x : outcome A) : preserves (lift x).
Proof. intros o w r o1 w1 H; injection H as <- <- <-; split; [apply frame_refl|reflexivity]. Qed.

Lemma preserves_get_self : preserves get_self.
Proof. intros o w r o1 w1 H; injection H as <- <- <-; split; [apply frame_refl|reflexivity]. Qed.

Lemma preserves_modify_self (f : EPV_AIM -> EPV_AIM) :
  (forall o, frame o (f o)) -> preserves (modify_self f).
Proof. intros Hf o w r o1 w1 H; injection H as <- <- <-; split; [apply Hf|reflexivity]. Qed.

Lemma preserves_bind {A B} (m : M A) (k : A -> M B) :
  preserves m -> (forall a, preserves (k a)) -> preserves (bind m k).
Proof.
  intros Hm Hk o w r o2 w2; unfold bind.
  destruct (m o w) as [[ra o1] w1] eqn:Hmo.
  destruct (Hm _ _ _ _ _ Hmo) as [Hf ->].
  destruct ra as [a|e|].
  - intros H; destruct (Hk a _ _ _ _ _ H) as [Hf' ->].
    split; [eapply frame_trans; eauto|reflexivity].
  - intros H; injection H as <- <- <-; auto.
  - intros H; injection H as <- <- <-; auto.
Qed.

Ltac preserves_step :=
  first
    [ apply preserves_ret | apply preserves_raise | apply preserves_lift
    | apply preserves_get_self
    | apply preserves_modify_self; intros; repeat split
    | apply preserves_bind; [|intros]
    | match goal with
      | |- preserves (match ?x with _ => _ end) => destruct x
      | |- preserves (if ?b then _ else _) => destruct b
      end ].

(** The TLS setup touches [verify] and [request_params] only. *)
Lemma validate_and_setup_aim_ssl_preserves : preserves (validate_and_setup_aim_ssl E).
Proof.
  unfold validate_and_setup_aim_ssl, create_default_context.
  repeat preserves_step.
Qed.

Lemma bind_inv {A B} (m : M A) (k : A -> M B) o w r o2 w2 :
  bind m k o w = (r, o2, w2) ->
  (exists a o1 w1, m o w = (Return a, o1, w1) /\ k a o1 w1 = (r, o2, w2))
  \/ ((forall b, r <> Return b)
      /\ exists x, m o w = (x, o2, w2) /\ forall a, x <> Return a).
Proof.
  unfold bind; destruct (m o w) as [[[a|e|] o1] w1]; intros H.
  - left; eauto.
  - right; injection H as <- <- <-; split; [discriminate|].
    eexists; split; [reflexivity|discriminate].
  - right; injection H as <- <- <-; split; [discriminate|].
    eexists; split; [reflexivity|discriminate].
Qed.





(** An open client: the call changes nothing. *)
Lemma get_aim_session_open (self : EPV_AIM) (w : World) sess g :
  session self = Some sess -> sema self = Some g ->
  get_aim_session E self w = (Return (Some sess), self, w).
Proof.
  intros Hs Hg; unfold get_aim_session, bind, get_self, ret.
  cbv beta; rewrite Hs; cbv beta iota; rewrite Hg; cbv beta iota.
  now rewrite Hs.
Qed.


(** Once a session exists the TLS setup returns at its first test. *)
Lemma validate_and_setup_aim_ssl_noop (self : EPV_AIM) (w : World) sess :
  session self = Some sess ->
  validate_and_setup_aim_ssl E self w = (Return tt, self, w).
Proof.
  intros Hs; unfold validate_and_setup_aim_ssl, bind, get_self.
  now rewrite Hs.
Qed.


End Setup.

(** The explicit close forgets the session and the semaphore and keeps the
    TLS parameters, so that the next [get_aim_session] opens a new session. *)
Lemma close_aim_session_resets (self : EPV_AIM) (w : World) :
  exists w1,
    close_aim_session self w
    = (Return tt, set_sema None (set_session None self), w1)
    /\ sessions_created w1 = sessions_created w
    /\ semaphores_created w1 = semaphores_created w.
Proof.
  unfold close_aim_session, bind, get_self, modify_self, close_session, ret.
  destruct (session self); eexists; repeat split.
Qed.


Lemma validate_and_setup_aim_ssl_missing_witness :
  let self := set_cert PNone (set_appid PNone sample_client) in
  session self = None
  /\ (host self = PNone \/ appid self = PNone \/ cert self = PNone)
  /\ validate_and_setup_aim_ssl offline_env self empty_world
     = (Raise (missing_parameter "appid"), self, empty_world)
  /\ exists pre attr_name post,
       ["host"; "appid"; "cert"] = (pre ++ attr_name :: post)%list
       /\ (forall a, In a pre -> getattr self a <> PNone)
       /\ getattr self attr_name = PNone
       /\ validate_and_setup_aim_ssl offline_env self empty_world
          = (Raise (missing_parameter attr_name), self, empty_world).
Proof.
  cbv zeta; split; [reflexivity|]; split; [right; right; reflexivity|].
  split; [reflexivity|].
  apply (proj1 (validate_and_setup_aim_ssl_missing offline_env
                  (set_cert PNone (set_appid PNone sample_client)) empty_world));
    [reflexivity|right; right; reflexivity].
Defined.


(** C4 as stated fails once a session is open: the setup returns at its
    first test, although [host] is [None]. *)
Lemma validate_and_setup_aim_ssl_open_session :
  let self := set_host PNone (set_session (Some (mk_ClientSession 0)) sample_client) in
  host self = PNone
  /\ validate_and_setup_aim_ssl offline_env self empty_world
     = (Return tt, self, empty_world).
Proof. split; reflexivity. Qed.

(* ================================================================== *)
(** ** The default application id *)

(** A value the caller gave under [appid] is sent as it is. *)
Lemma inject_appid_keeps_caller_value (self : EPV_AIM) (d : dict) (v : pyval) :
  dict_get "appid" d = Some v ->
  inject_appid self (PDict d) = Return (PDict d).
Proof.
  intros H; unfold inject_appid, dict_setdefault; simpl.
  unfold dict_contains at 2; rewrite H.
  destruct (dict_contains "applid" d); reflexivity.
Qed.

(** Without [appid] and without [applid] the default goes last. *)
Lemma inject_appid_adds_default (self : EPV_AIM) (d : dict) :
  dict_contains "applid" d = false ->
  dict_get "appid" d = None ->
  inject_appid self (PDict d) = Return (PDict (d ++ [("appid", appid self)])).
Proof.
  intros Ha H; unfold inject_appid, dict_setdefault; simpl.
  rewrite Ha; simpl; unfold dict_contains; rewrite H.
  rewrite dict_setitem_notin; [reflexivity|].
  intros Hin; apply dict_get_in in Hin as [v Hv]; congruence.
Qed.

(** With a key [applid] nothing is added, whether [appid] is there or not. *)
Lemma inject_appid_applid (self : EPV_AIM) (d : dict) :
  dict_contains "applid" d = true ->
  inject_appid self (PDict d) = Return (PDict d).
Proof. intros Ha; unfold inject_appid; simpl; now rewrite Ha. Qed.

(** C6 (the code at [{"applid": "x"}]).  The caller gave no [appid], yet the
    parameters go out without one: the test of line 414 looks for the key
    [applid].  The server of [echo_env] sends back the parameters it got. *)
Theorem handle_aim_request_applid_not_injected :
  dict_get "appid" [("applid", PStr "x")] = None
  /\ inject_appid sample_client (PDict [("applid", PStr "x")])
     = Return (PDict [("applid", PStr "x")])
  /\ outcome_of (handle_aim_request echo_env "get" "Accounts"
                   (PDict [("applid", PStr "x")]) identity_filter
                   sample_client empty_world)
     = Return (PDict [("Content", PDict [("applid", PStr "x")])]).
Proof. repeat split. Qed.

(* ================================================================== *)
(** ** Validation of the serialized configuration *)

(** A first key that is none of the accepted names and no substring of
    [timeout] is reported as unknown, in its original spelling. *)
Lemma init_validate_class_attributes_unknown_first
    (E : Env) (k : string) (v : pyval) (rest : dict)
    (section : string) (configfile : pyval) :
  mem_str (lower k) ["appid"; "cert"; "host"; "key"; "passphrase";
                     "keep_cookies"; "maxtasks"; "max_concurrent_tasks";
                     "ca"; "verify"] = false ->
  substringb (lower k) "timeout" = false ->
  _init_validate_class_attributes E ((k, v) :: rest) section configfile
  = Raise (AiobastionConfigurationException
             ("Unknown attribute '" ++ k ++ "' within section 'AIM' in "
              ++ py_str E configfile)).
Proof.
  intros Hm Hs; unfold _init_validate_class_attributes; simpl.
  unfold mem_str in *; simpl in *.
  repeat match type of Hm with
         | (_ || _)%bool = false => apply orb_false_iff in Hm as [?H Hm]
         end.
  repeat match goal with
         | H : (_ =? _)%string = false |- _ => rewrite H; clear H
         end.
  simpl; rewrite Hs; reflexivity.
Qed.

(** C8 (the code at [{"time": 30}]).  [time] is none of the accepted
    names, yet no error is raised and the value is stored under [time]: the
    test of line 112 is [keyname in "timeout"], a substring test. *)
Theorem init_validate_class_attributes_time :
  mem_str (lower "time")
    ["appid"; "cert"; "host"; "key"; "passphrase"; "timeout"; "keep_cookies";
     "maxtasks"; "max_concurrent_tasks"; "ca"; "verify"] = false
  /\ _init_validate_class_attributes offline_env [("time", PInt 30)] "AIM"
       (PStr "aim.yml")
     = Return [("appid", PNone); ("cert", PNone); ("host", PNone);
               ("keep_cookies", PBool false); ("key", PNone);
               ("max_concurrent_tasks", PNone); ("passphrase", PNone);
               ("timeout", PNone); ("verify", PNone); ("time", PInt 30)].
Proof. split; reflexivity. Qed.

(* ================================================================== *)
(** * Further properties of the code *)

(** ** More on dictionaries *)

Lemma mem_str_In (x : string) (l : list string) : mem_str x l = true <-> In x l.
Proof.
  unfold mem_str; rewrite existsb_exists; split.
  - intros (y & Hin & Heq); apply String.eqb_eq in Heq; now subst.
  - intros Hin; exists x; split; [exact Hin|apply String.eqb_refl].
Qed.

Lemma keys_dict_remove (k k' : string) (d : dict) :
  In k' (keys (dict_remove k d)) <-> In k' (keys d) /\ k' <> k.
Proof.
  induction d as [|[k0 v0] d IH]; simpl; [tauto|].
  destruct (String.eqb_spec k k0) as [->|Hne]; simpl; rewrite IH.
  - split; [tauto|]. intros [[H|H] Hn]; [congruence|tauto].
  - split; [|tauto]. intros [H|[H Hn]]; [|tauto].
    split; [now left|congruence].
Qed.

Lemma keys_dict_setitem (k k' : string) (v : pyval) (d : dict) :
  In k' (keys (dict_setitem k v d)) <-> k' = k \/ In k' (keys d).
Proof.
  induction d as [|[k0 v0] d IH]; simpl; [intuition congruence|].
  destruct (String.eqb_spec k k0) as [->|Hne]; simpl; [intuition congruence|].
  rewrite IH; intuition congruence.
Qed.




Lemma dict_setitem_setitem (k : string) (a b : pyval) (d : dict) :
  dict_setitem k a (dict_setitem k b d) = dict_setitem k a d.
Proof.
  induction d as [|[k0 v0] d IH]; simpl.
  - now rewrite String.eqb_refl.
  - destruct (String.eqb_spec k k0) as [->|Hne]; simpl.
    + now rewrite String.eqb_refl.
    + destruct (String.eqb_spec k k0); [congruence|now rewrite IH].
Qed.

Lemma dict_contains_setitem (k : string) (v : pyval) (d : dict) :
  dict_contains k (dict_setitem k v d) = true.
Proof. unfold dict_contains; now rewrite dict_get_setitem_eq. Qed.

(** The key list after [d[k] = v]. *)
Lemma keys_dict_setitem_list (k : string) (v : pyval) (d : dict) :
  keys (dict_setitem k v d)
  = if dict_contains k d then keys d else (keys d ++ [k])%list.
Proof.
  unfold dict_contains.
  induction d as [|[k0 v0] d IH]; simpl; [reflexivity|].
  destruct (String.eqb_spec k k0) as [->|Hne]; simpl; [reflexivity|].
  rewrite IH; now destruct (dict_get k d).
Qed.

(* ================================================================== *)
(** ** The parameter validator on every dictionary *)

Section ValidatorTotal.

Variable E : Env.



End ValidatorTotal.


(* ================================================================== *)
(** ** The request executor: masking, success, transport and decoding *)

Section ExecutorMore.

Variable E : Env.

(** X2.  The description of a request that goes into error messages does
    not depend on the application id: two parameter dictionaries that differ
    only in the value under [appid] are described alike, and so are the
    parameters prepared for two clients with different default ids. *)
Theorem handle_error_detail_info_masks_appid (url : string) (d : dict) :
  (forall v v' : pyval,
      handle_error_detail_info E url (PDict (dict_setitem "appid" v d))
      = handle_error_detail_info E url (PDict (dict_setitem "appid" v' d)))
  /\
  (forall self self' : EPV_AIM,
      (p <~ inject_appid self (PDict d) ;; handle_error_detail_info E url p)
      = (p <~ inject_appid self' (PDict d) ;; handle_error_detail_info E url p)).
Proof.
  assert (Hmask : forall v v' : pyval,
             handle_error_detail_info E url (PDict (dict_setitem "appid" v d))
             = handle_error_detail_info E url (PDict (dict_setitem "appid" v' d))).
  { intros v v'; unfold handle_error_detail_info; simpl.
    now rewrite !dict_contains_setitem, !dict_setitem_setitem. }
  split; [exact Hmask|].
  intros self self'; unfold inject_appid, dict_setdefault; simpl.
  destruct (dict_contains "applid" d); simpl; [reflexivity|].
  destruct (dict_contains "appid" d); simpl; [reflexivity|apply Hmask].
Qed.

Lemma bind_outcome_value {A B} (m : M A) (k : A -> M B) o w a :
  outcome_of (m o w) = Return a ->
  exists o1 w1, m o w = (Return a, o1, w1) /\ bind m k o w = k a o1 w1.
Proof.
  unfold outcome_of, bind; destruct (m o w) as [[r o1] w1]; simpl.
  intros ->; eauto.
Qed.

(** What the call does once the network has answered or failed. *)
Lemma handle_aim_request_sent method short_url params ff self w net :
  sent E method short_url params self w net ->
  exists self1 w1 g rp p,
    request_params self1 = Some rp
    /\ session_request E method (fst (get_url E self short_url))
         (snd (get_url E self short_url)) (PDict p) rp = net
    /\ outcome_of (handle_aim_request E method short_url params ff self w)
       = outcome_of
           (send_request E method (fst (get_url E self short_url))
              (snd (get_url E self short_url)) (PDict p) ff
              (set_sema (Some (mk_Semaphore (sem_id g) (sem_value g - 1))) self1) w1).
Proof.
  intros (Hm & s & self1 & w1 & g & rp & p & Hopen & Hinj & Hs & Hv & Hrp & Hnet).
  exists self1, w1, g, rp, p; split; [exact Hrp|]; split; [exact Hnet|].
  rewrite handle_aim_request_steps, Hm, Hopen, Hinj.
  change (negb ("get" =? "get")%string) with false; cbv iota.
  apply (with_sema_outcome _ _ _ g Hs Hv).
Qed.

(** X3.  A response with status 200 whose JSON object has a [Content] entry
    is a success: [handle_aim_request] returns the object as it is,
    [get_secret_detail] returns the pair of the content and the whole
    object, and [get_secret] returns the content. *)
Theorem get_secret_returns_Content kwargs self w req body content :
  received E "get" "Accounts" (PDict kwargs) self w req ->
  status req = 200 ->
  json req = Return (PDict body) ->
  dict_get "Content" body = Some content ->
  outcome_of (handle_aim_request E "get" "Accounts" (PDict kwargs)
                identity_filter self w) = Return (PDict body)
  /\ outcome_of (get_secret_detail E kwargs self w)
     = Return (mk_AIM_secret_resp content (PDict body))
  /\ outcome_of (get_secret E kwargs self w) = Return content.
Proof.
  intros Hrcv Hs Hj Hc.
  assert (H1 : outcome_of (handle_aim_request E "get" "Accounts" (PDict kwargs)
                             identity_filter self w) = Return (PDict body)).
  { destruct (handle_aim_request_sent _ _ _ identity_filter _ _ _ Hrcv)
      as (self1 & w1 & g & rp & p & Hrp & Hnet & ->).
    unfold send_request; simpl request_params; rewrite Hrp, Hnet.
    unfold handle_response, classify_response.
    rewrite Hj, Hs; simpl.
    unfold dict_contains; now rewrite Hc. }
  assert (H2 : outcome_of (get_secret_detail E kwargs self w)
               = Return (mk_AIM_secret_resp content (PDict body))).
  { unfold get_secret_detail.
    destruct (bind_outcome_value _
                (fun detail_info =>
                   bind (lift (py_getitem detail_info "Content"))
                     (fun c => ret (mk_AIM_secret_resp c detail_info)))
                _ _ _ H1) as (o1 & w1 & _ & ->).
    unfold bind, lift, ret; simpl; now rewrite Hc. }
  split; [exact H1|]; split; [exact H2|].
  unfold get_secret.
  destruct (bind_outcome_value _ (fun sd => ret (secret sd)) _ _ _ H2)
    as (o1 & w1 & _ & ->).
  reflexivity.
Qed.

(** X4.  When the request itself fails, an aiohttp [ClientError] is wrapped
    in a [CyberarkException] that quotes its text and the request details,
    which are what [handle_error_detail_info] makes of the URL and of the
    parameters sent, the application id hidden; any other exception (a
    timeout, for one) leaves [handle_aim_request] as it is. *)
Theorem handle_aim_request_transport_failure
    method short_url params ff self w e :
  sent E method short_url params self w (NetRaise e) ->
  exists s self1 w1 p details,
    get_aim_session E self w = (Return s, self1, w1)
    /\ inject_appid self1 params = Return (PDict p)
    /\ handle_error_detail_info E (fst (get_url E self short_url)) (PDict p)
       = Return details
    /\ details
       = "url: " ++ fst (get_url E self short_url) ++ ", params: "
         ++ py_str E (PDict (if dict_contains "appid" p
                             then dict_setitem "appid" (PStr "<hidden>") p
                             else p))
    /\ (is_ClientError e = true ->
        outcome_of (handle_aim_request E method short_url params ff self w)
        = Raise (CyberarkException
                   ("HTTP error: " ++ exn_str e ++ " || Additional Details : "
                    ++ details)))
    /\ (is_ClientError e = false ->
        outcome_of (handle_aim_request E method short_url params ff self w)
        = Raise e).
Proof.
  intros (Hm & s & self1 & w1 & g & rp & p & Hopen & Hinj & Hs & Hv & Hrp & Hnet).
  assert (Hd : handle_error_detail_info E (fst (get_url E self short_url)) (PDict p)
               = Return ("url: " ++ fst (get_url E self short_url) ++ ", params: "
                         ++ py_str E (PDict (if dict_contains "appid" p
                                             then dict_setitem "appid"
                                                    (PStr "<hidden>") p
                                             else p)))).
  { unfold handle_error_detail_info; cbn [py_in obind].
    destruct (dict_contains "appid" p); reflexivity. }
  assert (Hrun : outcome_of (handle_aim_request E method short_url params ff self w)
                 = outcome_of
                     (send_request E method (fst (get_url E self short_url))
                        (snd (get_url E self short_url)) (PDict p) ff
                        (set_sema (Some (mk_Semaphore (sem_id g) (sem_value g - 1)))
                           self1) w1)).
  { rewrite handle_aim_request_steps, Hm, Hopen, Hinj.
    change (negb ("get" =? "get")%string) with false; cbv iota.
    apply (with_sema_outcome _ _ _ g Hs Hv). }
  exists s, self1, w1, p; eexists.
  split; [exact Hopen|]. split; [exact Hinj|]. split; [exact Hd|].
  split; [reflexivity|].
  rewrite Hrun; unfold send_request; simpl request_params; rewrite Hrp, Hnet.
  split; intros Hc; rewrite Hc.
  - unfold bind, lift, raise; now rewrite Hd.
  - reflexivity.
Qed.

(** X5.  A body that is not JSON: when [req.json()] raises
    [JSONDecodeError] and the status is a member of [HTTPStatus], the call
    raises [CyberarkAPIException] with code [HTTP_ERR_CODE] and the reason
    phrase, whatever the status, 200 included; when it raises
    [ContentTypeError] the call raises [CyberarkException] quoting the
    status and the error. *)
Theorem handle_aim_request_undecodable
    method short_url params ff self w req :
  received E method short_url params self w req ->
  (forall m phrase,
      json req = Raise (JSONDecodeError m) ->
      HTTPStatus_phrase E (status req) = Some phrase ->
      exists details,
        outcome_of (handle_aim_request E method short_url params ff self w)
        = Raise (CyberarkAPIException (status req) (PStr "HTTP_ERR_CODE")
                   (PStr phrase) (PStr details)))
  /\
  (forall m,
      json req = Raise (ContentTypeError m) ->
      exists details,
        outcome_of (handle_aim_request E method short_url params ff self w)
        = Raise (CyberarkException
                   ("HTTP error " ++ Z_to_string (status req) ++ ": " ++ m
                    ++ " || Additional Details : " ++ details))).
Proof.
  intros Hrcv.
  destruct (handle_aim_request_sent _ _ _ ff _ _ _ Hrcv)
    as (self1 & w1 & g & rp & p & Hrp & Hnet & ->).
  generalize dependent (snd (get_url E self short_url)); intros head Hnet.
  generalize dependent (fst (get_url E self short_url)); intros url Hnet.
  destruct (handle_error_detail_info_dict E url p) as [details Hd].
  unfold send_request; simpl request_params; rewrite Hrp, Hnet.
  unfold handle_response, classify_response.
  split.
  - intros m phrase Hj Hp; rewrite Hj; simpl.
    exists details; unfold bind, lift, raise, http_phrase; now rewrite Hp, Hd.
  - intros m Hj; rewrite Hj; simpl.
    exists details; unfold bind, lift, raise, print; now rewrite Hd.
Qed.

End ExecutorMore.

Lemma get_secret_returns_Content_witness :
  let body := [("Content", PStr "p@ss"); ("X", PInt 1)] in
  let req := mk_response 200 (Return (PDict body)) "{}" in
  let E := answering_env req in
  let kwargs := [("safe", PStr "Prod")] in
  received E "get" "Accounts" (PDict kwargs) sample_client empty_world req
  /\ outcome_of (get_secret_detail E kwargs sample_client empty_world)
     = Return (mk_AIM_secret_resp (PStr "p@ss") (PDict body))
  /\ outcome_of (get_secret E kwargs sample_client empty_world) = Return (PStr "p@ss").
Proof.
  cbv zeta.
  match goal with |- ?R /\ _ => assert (Hrcv : R) by solve_received end.
  split; [exact Hrcv|].
  exact (proj2 (get_secret_returns_Content _ _ _ _ _
                  [("Content", PStr "p@ss"); ("X", PInt 1)] (PStr "p@ss")
                  Hrcv eq_refl eq_refl eq_refl)).
Defined.

Lemma handle_aim_request_transport_failure_witness :
  sent offline_env "get" "Accounts" (PDict [("safe", PStr "Prod")])
    sample_client empty_world (NetRaise (ClientError "Cannot connect to host"))
  /\ outcome_of (handle_aim_request offline_env "get" "Accounts"
                   (PDict [("safe", PStr "Prod")]) identity_filter
                   sample_client empty_world)
     = Raise (CyberarkException
                ("HTTP error: Cannot connect to host || Additional Details : "
                 ++ "url: https://vault.example.com/AIMWebService/api/Accounts, "
                 ++ "params: {'safe': 'Prod', 'appid': '<hidden>'}"))
  /\ exists p details,
       handle_error_detail_info offline_env
         (fst (get_url offline_env sample_client "Accounts")) (PDict p)
       = Return details
       /\ outcome_of (handle_aim_request offline_env "get" "Accounts"
                        (PDict [("safe", PStr "Prod")]) identity_filter
                        sample_client empty_world)
          = Raise (CyberarkException
                     ("HTTP error: Cannot connect to host || Additional Details : "
                      ++ details)).
Proof.
  match goal with |- ?R /\ _ => assert (Hsent : R) by solve_received end.
  split; [exact Hsent|]. split; [reflexivity|].
  destruct (handle_aim_request_transport_failure _ _ _ _ identity_filter _ _ _
              Hsent) as (s & self1 & w1 & p & details & _ & _ & Hd & _ & Hc & _).
  exists p, details; split; [exact Hd|exact (Hc eq_refl)].
Defined.

Lemma handle_aim_request_undecodable_witness :
  let req := mk_response 200 (Raise (JSONDecodeError "Expecting value")) "<html>" in
  let E := answering_env req in
  received E "get" "Accounts" (PDict [("safe", PStr "Prod")]) sample_client empty_world req
  /\ exists details,
       outcome_of (handle_aim_request E "get" "Accounts" (PDict [("safe", PStr "Prod")])
                     identity_filter sample_client empty_world)
       = Raise (CyberarkAPIException 200 (PStr "HTTP_ERR_CODE") (PStr "OK")
                  (PStr details)).
Proof.
  cbv zeta.
  match goal with |- ?R /\ _ => assert (Hrcv : R) by solve_received end.
  split; [exact Hrcv|].
  exact (proj1 (handle_aim_request_undecodable _ _ _ _ identity_filter _ _ _ Hrcv)
           "Expecting value" "OK" eq_refl eq_refl).
Defined.

(* ================================================================== *)
(** ** What the TLS setup builds, and what it leaves when it fails *)

Section SetupMore.

Variable E : Env.

Ltac step_in H :=
  match type of H with
  | context [match ?x with _ => _ end] =>
      match x with
      | context [match _ with _ => _ end] => fail 1
      | _ => destruct x eqn:?
      end
  | context [if ?b then _ else _] =>
      match b with
      | context [if _ then _ else _] => fail 1
      | context [match _ with _ => _ end] => fail 1
      | _ => destruct b eqn:?
      end
  end; cbn [bind get_self lift ret raise modify_self negb] in H; try discriminate H.

Lemma validate_and_setup_aim_ssl_result (self : EPV_AIM) (w : World) r self1 w1 :
  session self = None ->
  validate_and_setup_aim_ssl E self w = (r, self1, w1) ->
  w1 = w
  /\ ((r = Return tt
       /\ self1 = set_request_params
                    (Some (mk_request_params (timeout self)
                             (context_for E (effective_verify E self)
                                (cert self, key self, passphrase self))))
                    (set_verify (effective_verify E self) self)
       /\ first_missing ["host"; "appid"; "cert"] self = None
       /\ os_path_exists E (cert self) = Return true
       /\ (is_str (effective_verify E self) || is_bool (effective_verify E self)) = true
       /\ (is_str (effective_verify E self) = true ->
           os_path_exists E (effective_verify E self) = Return true))
      \/ ((forall u, r <> Return u)
          /\ (self1 = self \/ self1 = set_verify (effective_verify E self) self))).
Proof.
  intros Hs H.
  unfold validate_and_setup_aim_ssl, create_default_context in H.
  unfold bind, get_self, lift, ret, raise, modify_self in H.
  rewrite Hs in H.
  unfold effective_verify, context_for.
  repeat (step_in H).
  all: cbn in H; repeat (step_in H).
  all: try (injection H as <- <- <-).
  all: split; [reflexivity|].
  all: try (right; split; [discriminate|]; first [left; reflexivity|right; reflexivity]).
  all: left; cbn in *.
  all: repeat match goal with
              | H : negb _ = false |- _ => apply negb_false_iff in H
              | H : negb _ = true |- _ => apply negb_true_iff in H
              end; subst.
  all: repeat match goal with
              | H : ?x = _ |- context [?x] => rewrite H
              end.
  all: repeat split; try reflexivity; try (intros; assumption); try discriminate.
  all: try (destruct self; cbn in *; congruence).
Qed.

(** X6.  When the TLS setup returns on a client without session, it has
    stored the request parameters: the client's timeout and a context that
    carries the client certificate, key and passphrase; the trust store is
    the CA directory or file when the verify policy is a path, the default
    store otherwise, with host name checking on unless the policy is false.
    The policy is [verify], or the default of [EPV] in place of [False].
    Nothing else changes, and [host], [appid], [cert] were given, the
    certificate and a CA path exist. *)
Theorem validate_and_setup_aim_ssl_builds (self : EPV_AIM) (w : World) self1 w1 :
  session self = None ->
  validate_and_setup_aim_ssl E self w = (Return tt, self1, w1) ->
  w1 = w
  /\ self1 = set_request_params
               (Some (mk_request_params (timeout self)
                        (context_for E (effective_verify E self)
                           (cert self, key self, passphrase self))))
               (set_verify (effective_verify E self) self)
  /\ first_missing ["host"; "appid"; "cert"] self = None
  /\ os_path_exists E (cert self) = Return true
  /\ (is_str (effective_verify E self) || is_bool (effective_verify E self)) = true
  /\ (is_str (effective_verify E self) = true ->
      os_path_exists E (effective_verify E self) = Return true).
Proof.
  intros Hs H.
  destruct (validate_and_setup_aim_ssl_result _ _ _ _ _ Hs H)
    as [-> [(_ & Hrest)|(Hno & _)]].
  - split; [reflexivity|exact Hrest].
  - now destruct (Hno tt).
Qed.

(** X7.  When the TLS setup does not return normally, no request parameters
    are stored and the world is untouched: the object is as before, except
    that a [verify] of [False] may already have been replaced by the default
    of [EPV]. *)
Theorem validate_and_setup_aim_ssl_fails_clean
    (self : EPV_AIM) (w : World) r self1 w1 :
  (forall u, r <> Return u) ->
  validate_and_setup_aim_ssl E self w = (r, self1, w1) ->
  w1 = w
  /\ request_params self1 = request_params self
  /\ (self1 = self
      \/ (verify self = PBool false
          /\ self1 = set_verify (CYBERARK_DEFAULT_VERIFY E) self)).
Proof.
  intros Hr H.
  destruct (session self) as [c|] eqn:Hs.
  - rewrite (validate_and_setup_aim_ssl_noop E self w c Hs) in H.
    injection H as <- _ _; now destruct (Hr tt).
  - destruct (validate_and_setup_aim_ssl_result _ _ _ _ _ Hs H)
      as [-> [(-> & _) | (_ & [ -> | -> ])]].
    + now destruct (Hr tt).
    + auto.
    + unfold effective_verify.
      destruct (is_False (verify self)) eqn:HF.
      * repeat split; right; split; [|reflexivity].
        destruct (verify self) as [|[|]|n|p|l|d]; try discriminate; reflexivity.
      * repeat split; left; now destruct self.
Qed.

End SetupMore.

Lemma validate_and_setup_aim_ssl_builds_witness :
  let rp := mk_request_params (PInt 30)
              (mk_ssl_context DefaultTrustStore false
                 (Some (PStr "client.pem", PNone, PNone))) in
  session sample_client = None
  /\ validate_and_setup_aim_ssl offline_env sample_client empty_world
     = (Return tt, set_request_params (Some rp) sample_client, empty_world)
  /\ set_request_params (Some rp) sample_client
     = set_request_params
         (Some (mk_request_params (timeout sample_client)
                  (context_for offline_env (effective_verify offline_env sample_client)
                     (cert sample_client, key sample_client, passphrase sample_client))))
         (set_verify (effective_verify offline_env sample_client) sample_client).
Proof.
  cbv zeta.
  assert (H : validate_and_setup_aim_ssl offline_env sample_client empty_world
              = (Return tt,
                 set_request_params
                   (Some (mk_request_params (PInt 30)
                            (mk_ssl_context DefaultTrustStore false
                               (Some (PStr "client.pem", PNone, PNone)))))
                   sample_client,
                 empty_world)) by reflexivity.
  split; [reflexivity|]; split; [exact H|].
  exact (proj1 (proj2 (validate_and_setup_aim_ssl_builds offline_env sample_client
                         empty_world _ _ eq_refl H))).
Defined.

Lemma validate_and_setup_aim_ssl_fails_clean_witness :
  let self := set_cert (PStr "missing.pem") sample_client in
  let e := AiobastionException
             ("Parameter 'cert' in AIM: Public certificate file not found: "
              ++ "'missing.pem'") in
  (forall u : unit, @Raise unit e <> Return u)
  /\ validate_and_setup_aim_ssl offline_env self empty_world
     = (Raise e, self, empty_world)
  /\ request_params self = request_params self.
Proof.
  cbv zeta.
  assert (Hr : forall u : unit,
             @Raise unit (AiobastionException
               ("Parameter 'cert' in AIM: Public certificate file not found: "
                ++ "'missing.pem'")) <> Return u) by discriminate.
  assert (H : validate_and_setup_aim_ssl offline_env
                (set_cert (PStr "missing.pem") sample_client) empty_world
              = (Raise (AiobastionException
                          ("Parameter 'cert' in AIM: Public certificate file not found: "
                           ++ "'missing.pem'")),
                 set_cert (PStr "missing.pem") sample_client, empty_world))
    by reflexivity.
  split; [exact Hr|]; split; [exact H|].
  exact (proj1 (proj2 (validate_and_setup_aim_ssl_fails_clean offline_env _ _ _ _ _
                         Hr H))).
Defined.

(* ================================================================== *)
(** ** Closing, reopening and sharing the session *)

Section SessionsMore.

Variable E : Env.

Lemma new_Semaphore_value (value : pyval) o w :
  new_Semaphore value o w
  = match semaphore_value value with
    | Some n =>
        (Return (mk_Semaphore (semaphores_created w) n), o,
         mk_World (sessions_created w) (S (semaphores_created w))
           (sessions_closed w) (stdout w))
    | None => (fst (fst (new_Semaphore value o w)), o, w)
    end.
Proof.
  unfold new_Semaphore, semaphore_value, alloc_Semaphore, raise.
  destruct value as [|b|n|s|l|d]; try reflexivity.
  destruct (n <? 0); reflexivity.
Qed.

Lemma new_Semaphore_returns_value (value : pyval) o w g o1 w1 :
  new_Semaphore value o w = (Return g, o1, w1) ->
  exists n, semaphore_value value = Some n.
Proof.
  unfold new_Semaphore, semaphore_value, raise.
  destruct value as [|b|n|s|l|d]; try discriminate; eauto.
  destruct (n <? 0); [discriminate|eauto].
Qed.

(** Opening a client that holds TLS parameters but neither session nor
    semaphore: nothing is consulted but the semaphore size. *)
Lemma get_aim_session_reopen (self : EPV_AIM) (w : World) rp n :
  session self = None -> sema self = None ->
  request_params self = Some rp ->
  semaphore_value (max_concurrent_tasks self) = Some n ->
  get_aim_session E self w
  = (Return (Some (mk_ClientSession (sessions_created w))),
     set_sema (Some (mk_Semaphore (semaphores_created w) n))
       (set_session (Some (mk_ClientSession (sessions_created w))) self),
     mk_World (S (sessions_created w)) (S (semaphores_created w))
       (sessions_closed w) (stdout w)).
Proof.
  intros Hs Hg Hrp Hn.
  unfold get_aim_session, bind, get_self, ret, modify_self, new_ClientSession.
  cbv beta; rewrite Hs, Hrp; cbn.
  rewrite Hg, new_Semaphore_value; cbn; rewrite Hn; reflexivity.
Qed.

(** The first opening of a client without session and semaphore. *)
Lemma get_aim_session_first (self : EPV_AIM) (w : World) s self1 w1 :
  session self = None -> sema self = None ->
  get_aim_session E self w = (Return s, self1, w1) ->
  exists rp n,
    s = Some (mk_ClientSession (sessions_created w))
    /\ session self1 = s
    /\ sema self1 = Some (mk_Semaphore (semaphores_created w) n)
    /\ semaphore_value (max_concurrent_tasks self1) = Some n
    /\ request_params self1 = Some rp
    /\ w1 = mk_World (S (sessions_created w)) (S (semaphores_created w))
              (sessions_closed w) (stdout w).
Proof.
  intros Hs Hg H.
  unfold get_aim_session in H.
  apply bind_inv in H as [(self0 & o0 & w0 & Hget & H)|(Hr & _)];
    [injection Hget as <- <- <-|now destruct (Hr s)].
  apply bind_inv in H as [(u & o2 & w2 & Hopen & H)|(Hr & _)];
    [|now destruct (Hr s)].
  rewrite Hs in Hopen.
  apply bind_inv in Hopen as [(u1 & o1 & w1' & Hval & Hopen)|(Hr & _)];
    [|now destruct (Hr u)].
  assert (Hv : w1' = w /\ session o1 = None /\ sema o1 = None
               /\ max_concurrent_tasks o1 = max_concurrent_tasks self
               /\ exists rp, request_params o1 = Some rp).
  { destruct (request_params self) as [rp|] eqn:Hrp.
    - injection Hval as _ <- <-; repeat split; eauto.
    - assert (Hval' : validate_and_setup_aim_ssl E self w = (Return tt, o1, w1'))
        by now destruct u1.
      destruct (validate_and_setup_aim_ssl_result E _ _ _ _ _ Hs Hval')
        as [-> [(_ & -> & _)|(Hno & _)]]; [|now destruct (Hno tt)].
      repeat split; simpl; eauto. }
  destruct Hv as (-> & Hs1 & Hg1 & Hm1 & rp & Hrp1).
  unfold bind, new_ClientSession, modify_self in Hopen.
  injection Hopen as _ <- <-.
  apply bind_inv in H as [(self2 & o2' & w2' & Hget & H)|(Hr & _)];
    [injection Hget as <- <- <-|now destruct (Hr s)].
  apply bind_inv in H as [(u' & o3 & w3 & Hgate & H)|(Hr & _)];
    [|now destruct (Hr s)].
  cbn [sema set_session] in Hgate; rewrite Hg1 in Hgate.
  apply bind_inv in Hgate as [(g & o' & w' & Hnew & Hgate)|(Hr & _)];
    [|now destruct (Hr u')].
  pose proof (new_Semaphore_returns_value _ _ _ _ _ _ Hnew) as [n Hn].
  rewrite new_Semaphore_value, Hn in Hnew.
  injection Hnew as <- <- <-.
  injection Hgate as _ <- <-.
  apply bind_inv in H as [(self3 & o3' & w3' & Hget & H)|(Hr & _)];
    [injection Hget as <- <- <-|now destruct (Hr s)].
  injection H as <- <- <-.
  exists rp, n; cbn in *; repeat split; auto.
Qed.


(** X9.  After an explicit close the next [get_aim_session] opens a session
    of its own: on a client that was opened from scratch, closing and
    opening again returns a session different from the first, creates one
    more session and one more semaphore, and reuses the TLS parameters of
    the first opening without running the setup again. *)
Theorem get_aim_session_reopens_after_close (self : EPV_AIM) (w : World) s self1 w1 :
  session self = None -> sema self = None ->
  get_aim_session E self w = (Return s, self1, w1) ->
  exists self2 w2 s' self3 w3,
    close_aim_session self1 w1 = (Return tt, self2, w2)
    /\ get_aim_session E self2 w2 = (Return (Some s'), self3, w3)
    /\ s <> Some s'
    /\ request_params self3 = request_params self1
    /\ sessions_created w3 = S (sessions_created w1)
    /\ semaphores_created w3 = S (semaphores_created w1)
    /\ sessions_closed w3 = sessions_created w :: sessions_closed w.
Proof.
  intros Hs Hg H.
  destruct (get_aim_session_first _ _ _ _ _ Hs Hg H)
    as (rp & n & -> & Hs1 & Hg1 & Hn & Hrp & ->).
  destruct (close_aim_session_resets self1
              (mk_World (S (sessions_created w)) (S (semaphores_created w))
                 (sessions_closed w) (stdout w))) as (w2 & Hclose & Hc1 & Hc2).
  pose proof Hclose as Hclose'.
  unfold close_aim_session, bind, get_self, modify_self, close_session, ret in Hclose'.
  cbv beta in Hclose'; rewrite Hs1 in Hclose'; cbn in Hclose'.
  injection Hclose' as <-.
  eexists; eexists; eexists; eexists; eexists.
  split; [exact Hclose|].
  split.
  - apply get_aim_session_reopen with (rp := rp) (n := n);
      [reflexivity|reflexivity|exact Hrp|exact Hn].
  - cbn; repeat split; auto.
    intros Heq; injection Heq as Heq; lia.
Qed.

(** X10.  [set_semaphore] creates nothing and never replaces a semaphore or
    a session the client already holds.  When it returns on a client that
    held neither, the client holds the semaphore and the session it was
    given, and [get_aim_session] then hands out that session without
    opening another. *)
Theorem set_semaphore_shares
    (self : EPV_AIM) (w : World) (g : Semaphore) (c : ClientSession) r self1 w1 :
  set_semaphore E (Some g) (Some c) self w = (r, self1, w1) ->
  w1 = w
  /\ (forall g0, sema self = Some g0 -> sema self1 = Some g0)
  /\ (forall c0, session self = Some c0 -> session self1 = Some c0)
  /\ (r = Return tt -> session self = None -> sema self = None ->
      session self1 = Some c /\ sema self1 = Some g
      /\ get_aim_session E self1 w1 = (Return (Some c), self1, w1)).
Proof.
  unfold set_semaphore; intros H.
  apply bind_inv in H as [(self0 & o0 & w0 & Hget & H)|(_ & x & Hget & Hx)];
    [injection Hget as <- <- <-|injection Hget as <- _ _; now destruct (Hx self)].
  assert (Hfirst : exists o1,
             (match sema self with
              | None => modify_self (set_sema (Some g))
              | Some _ => ret tt
              end) self w = (Return tt, o1, w)
             /\ session o1 = session self
             /\ request_params o1 = request_params self
             /\ sema o1 = match sema self with Some g0 => Some g0 | None => Some g end).
  { unfold modify_self, ret; destruct (sema self) eqn:Hg0; eexists;
      (split; [reflexivity|]); repeat split; assumption. }
  destruct Hfirst as (o1 & Hf & Hfs & Hfr & Hfg).
  rewrite (bind_outcome_return _ _ _ _ _ _ _ Hf) in H.
  destruct (session self) as [c0|] eqn:Hs.
  - injection H as <- <- <-.
    split; [reflexivity|]; split; [|split].
    + intros g0 Hg0; now rewrite Hfg, Hg0.
    + intros c1 Hc1; congruence.
    + intros _ Hn; discriminate.
  - apply bind_inv in H as [(u & o2 & w2 & Hval & H)|(Hr & x & Hval & Hx)].
    + assert (Hp : frame o1 o2 /\ w2 = w).
      { destruct (request_params self);
          [injection Hval as _ <- <-; split; [apply frame_refl|reflexivity]|].
        eapply validate_and_setup_aim_ssl_preserves; eauto. }
      destruct Hp as [(Hp1 & Hp2 & Hp3) ->].
      injection H as <- <- <-.
      split; [reflexivity|]; split; [|split].
      * intros g0 Hg0; cbn; now rewrite Hp2, Hfg, Hg0.
      * intros c1 Hc1; discriminate.
      * intros _ _ Hg0.
        assert (Hg1 : sema o2 = Some g) by now rewrite Hp2, Hfg, Hg0.
        split; [reflexivity|]; split; [exact Hg1|].
        apply get_aim_session_open with (g := g); [reflexivity|exact Hg1].
    + assert (Hp : frame o1 self1 /\ w1 = w).
      { destruct (request_params self);
          [injection Hval as _ <- <-; split; [apply frame_refl|reflexivity]|].
        eapply validate_and_setup_aim_ssl_preserves; eauto. }
      destruct Hp as [(Hp1 & Hp2 & Hp3) ->].
      split; [reflexivity|]; split; [|split].
      * intros g0 Hg0; now rewrite Hp2, Hfg, Hg0.
      * intros c1 Hc1; discriminate.
      * intros ->; now destruct (Hr tt).
Qed.




End SessionsMore.

Lemma get_aim_session_reopens_after_close_witness :
  exists s self1 w1 self2 w2 s' self3 w3,
    get_aim_session offline_env sample_client empty_world = (Return s, self1, w1)
    /\ close_aim_session self1 w1 = (Return tt, self2, w2)
    /\ get_aim_session offline_env self2 w2 = (Return (Some s'), self3, w3)
    /\ s <> Some s'
    /\ sessions_created w3 = 2%nat
    /\ sessions_closed w3 = [0%nat].
Proof.
  destruct (get_aim_session offline_env sample_client empty_world)
    as [[r self1] w1] eqn:H.
  assert (Hs : r = Return (Some (mk_ClientSession 0)))
    by (injection H as <- _ _; reflexivity).
  assert (Hw : sessions_created w1 = 1%nat) by (injection H as _ _ <-; reflexivity).
  subst r.
  destruct (get_aim_session_reopens_after_close offline_env sample_client empty_world
              _ _ _ eq_refl eq_refl H)
    as (self2 & w2 & s' & self3 & w3 & H1 & H2 & H3 & _ & H5 & _ & H7).
  exists (Some (mk_ClientSession 0)), self1, w1, self2, w2, s', self3, w3.
  repeat split; auto.
  now rewrite H5, Hw.
Defined.

Lemma set_semaphore_shares_witness :
  let g := mk_Semaphore 7 5 in
  let c := mk_ClientSession 3 in
  exists self1,
    set_semaphore offline_env (Some g) (Some c) sample_client empty_world
    = (Return tt, self1, empty_world)
    /\ session self1 = Some c /\ sema self1 = Some g
    /\ get_aim_session offline_env self1 empty_world
       = (Return (Some c), self1, empty_world).
Proof.
  cbv zeta.
  destruct (set_semaphore offline_env (Some (mk_Semaphore 7 5))
              (Some (mk_ClientSession 3)) sample_client empty_world)
    as [[r self1] w1] eqn:H.
  assert (Hr : r = Return tt) by (injection H as <- _ _; reflexivity).
  destruct (set_semaphore_shares offline_env _ _ _ _ _ _ _ H) as (-> & _ & _ & Hrest).
  destruct (Hrest Hr eq_refl eq_refl) as (H1 & H2 & H3).
  subst r; exists self1; repeat split; auto.
Defined.


(* ================================================================== *)
(** ** Serialization and the constructor *)

Lemma first_key_failing (p : string -> bool) (d : dict) :
  (exists k, In k (keys d) /\ p k = false) ->
  exists pre k v post,
    d = (pre ++ (k, v) :: post)%list
    /\ forallb p (keys pre) = true /\ p k = false.
Proof.
  induction d as [|[k0 v0] d IH]; intros [k [Hin Hk]]; [contradiction|].
  destruct (p k0) eqn:Hk0.
  - destruct IH as (pre & k' & v' & post & -> & Hpre & Hk').
    { exists k; split; [|exact Hk].
      destruct Hin as [Hin|Hin]; [simpl in Hin; congruence|exact Hin]. }
    exists ((k0, v0) :: pre), k', v', post; repeat split; auto.
    simpl; now rewrite Hk0.
  - exists [], k0, v0, d; repeat split; auto.
Qed.

Section Serialization.

Variable E : Env.

(** Reading back what [to_json] wrote sets the eight serialized attributes
    and nothing else. *)
Lemma init_serialized_to_json (self self0 : EPV_AIM) :
  init_serialized E (to_json self) self0
  = Return (mk_EPV_AIM (host self) (appid self) (cert self) (key self)
              (passphrase self0) (verify self) (timeout self)
              (max_concurrent_tasks self) (keep_cookies self)
              (sema self0) (session self0) (request_params self0)).
Proof. destruct self, self0; vm_compute; reflexivity. Qed.

(** X12.  [to_json] leaves the passphrase out, and a client built from the
    dictionary it returns has the configuration of the original: the eight
    serialized attributes win over the arguments of the constructor, the
    passphrase is the constructor's, a missing timeout or concurrency
    becomes the default of [EPV], and no session is open.  The verify policy
    must be one the constructor accepts. *)
Theorem init_of_to_json
    (self : EPV_AIM)
    (a_host a_appid a_cert a_key a_passphrase a_verify a_timeout
     a_max_concurrent_tasks a_keep_cookies : pyval) :
  verify self = PBool false \/ is_str (verify self) = true ->
  dict_get "passphrase" (to_json self) = None
  /\ __init__ E a_host a_appid a_cert a_key a_passphrase a_verify a_timeout
       a_max_concurrent_tasks a_keep_cookies (PDict (to_json self))
     = Return (mk_EPV_AIM (host self) (appid self) (cert self) (key self)
                 a_passphrase (verify self)
                 (if is_None (timeout self)
                  then CYBERARK_DEFAULT_TIMEOUT E else timeout self)
                 (if is_None (max_concurrent_tasks self)
                  then CYBERARK_DEFAULT_MAX_CONCURRENT_TASKS E
                  else max_concurrent_tasks self)
                 (keep_cookies self) None None None).
Proof.
  intros Hv; split; [reflexivity|].
  unfold __init__.
  change (truthy (PDict (to_json self))) with true; cbv iota.
  rewrite init_serialized_to_json; cbn.
  destruct (is_None (timeout self)); cbn;
    destruct (is_None (max_concurrent_tasks self)); cbn;
    destruct Hv as [Hv|Hv];
    try (rewrite Hv; reflexivity);
    destruct (verify self); try discriminate; reflexivity.
Qed.

Lemma init_serialized_unknown (pre : dict) k v post (self : EPV_AIM) :
  forallb (fun k => mem_str (lower k) _SERIALIZED_FIELDS_IN) (keys pre) = true ->
  mem_str (lower k) _SERIALIZED_FIELDS_IN = false ->
  init_serialized E (pre ++ (k, v) :: post)%list self
  = Raise (AiobastionException
             ("Unknown serialized AIM field: " ++ k ++ " = " ++ py_repr E v)).
Proof.
  revert self; induction pre as [|[k0 v0] pre IH]; intros self Hpre Hk.
  - change (init_serialized E ([] ++ (k, v) :: post)%list self)
      with (if mem_str (lower k) _SERIALIZED_FIELDS_IN
            then init_serialized E post (setattr self (lower k) v)
            else Raise (AiobastionException
                          ("Unknown serialized AIM field: " ++ k ++ " = "
                           ++ py_repr E v))).
    now rewrite Hk.
  - change (keys ((k0, v0) :: pre)) with (k0 :: keys pre) in Hpre.
    cbn [forallb] in Hpre; apply andb_true_iff in Hpre as [Hk0 Hpre].
    change (init_serialized E (((k0, v0) :: pre) ++ (k, v) :: post)%list self)
      with (if mem_str (lower k0) _SERIALIZED_FIELDS_IN
            then init_serialized E (pre ++ (k, v) :: post)%list
                   (setattr self (lower k0) v0)
            else Raise (AiobastionException
                          ("Unknown serialized AIM field: " ++ k0 ++ " = "
                           ++ py_repr E v0))).
    rewrite Hk0; now apply IH.
Qed.

(** X13.  A serialized dictionary with a key that is not, up to case, one of
    the nine serialized fields builds no client: [__init__] raises
    [AiobastionException] naming the first such key and its value. *)
Theorem init_unknown_serialized_field
    (d : dict)
    (a_host a_appid a_cert a_key a_passphrase a_verify a_timeout
     a_max_concurrent_tasks a_keep_cookies : pyval) :
  (exists k, In k (keys d) /\ mem_str (lower k) _SERIALIZED_FIELDS_IN = false) ->
  exists pre k v post,
    d = (pre ++ (k, v) :: post)%list
    /\ forallb (fun k => mem_str (lower k) _SERIALIZED_FIELDS_IN) (keys pre) = true
    /\ mem_str (lower k) _SERIALIZED_FIELDS_IN = false
    /\ __init__ E a_host a_appid a_cert a_key a_passphrase a_verify a_timeout
         a_max_concurrent_tasks a_keep_cookies (PDict d)
       = Raise (AiobastionException
                  ("Unknown serialized AIM field: " ++ k ++ " = " ++ py_repr E v)).
Proof.
  intros Hex.
  destruct (first_key_failing _ d Hex) as (pre & k & v & post & -> & Hpre & Hk).
  exists pre, k, v, post; repeat split; auto.
  unfold __init__.
  assert (Ht : truthy (PDict (pre ++ (k, v) :: post)%list) = true)
    by (destruct pre; reflexivity).
  rewrite Ht, init_serialized_unknown; auto.
Qed.

End Serialization.

Lemma init_of_to_json_witness :
  (verify sample_client = PBool false \/ is_str (verify sample_client) = true)
  /\ dict_get "passphrase" (to_json sample_client) = None
  /\ __init__ offline_env PNone PNone PNone PNone (PStr "secret") (PStr "ca.pem")
       PNone PNone PNone (PDict (to_json sample_client))
     = Return (mk_EPV_AIM (PStr "vault.example.com") (PStr "MyApp") (PStr "client.pem")
                 PNone (PStr "secret") (PBool false) (PInt 30) (PInt 10) (PBool false)
                 None None None).
Proof.
  assert (Hv : verify sample_client = PBool false \/ is_str (verify sample_client) = true)
    by (left; reflexivity).
  split; [exact Hv|].
  exact (init_of_to_json offline_env sample_client PNone PNone PNone PNone
           (PStr "secret") (PStr "ca.pem") PNone PNone PNone Hv).
Defined.

Lemma init_unknown_serialized_field_witness :
  let d := [("Host", PStr "vault.example.com"); ("port", PInt 443); ("colour", PNone)] in
  (exists k, In k (keys d) /\ mem_str (lower k) _SERIALIZED_FIELDS_IN = false)
  /\ exists pre k v post,
       d = (pre ++ (k, v) :: post)%list
       /\ forallb (fun k => mem_str (lower k) _SERIALIZED_FIELDS_IN) (keys pre) = true
       /\ mem_str (lower k) _SERIALIZED_FIELDS_IN = false
       /\ __init__ offline_env PNone PNone PNone PNone PNone (PBool false) PNone PNone
            PNone (PDict d)
          = Raise (AiobastionException
                     ("Unknown serialized AIM field: " ++ k ++ " = "
                      ++ py_repr offline_env v)).
Proof.
  cbv zeta.
  assert (Hex : exists k,
             In k (keys [("Host", PStr "vault.example.com"); ("port", PInt 443);
                         ("colour", PNone)])
             /\ mem_str (lower k) _SERIALIZED_FIELDS_IN = false)
    by (exists "colour"; split; [simpl; auto|reflexivity]).
  split; [exact Hex|].
  exact (init_unknown_serialized_field offline_env _ PNone PNone PNone PNone PNone
           (PBool false) PNone PNone PNone Hex).
Defined.

(* ================================================================== *)
(** ** Validation of the serialized configuration, on every input *)

Lemma count_keys_cons (names : list string) (k : string) (v : pyval) (d : dict) :
  count_keys names ((k, v) :: d)
  = ((if mem_str (lower k) names then 1 else 0) + count_keys names d)%nat.
Proof.
  unfold count_keys; cbn [filter fst].
  now destruct (mem_str (lower k) names).
Qed.

Lemma dict_contains_setitem_other (k k' : string) (v : pyval) (d : dict) :
  dict_contains k' d = true -> dict_contains k' (dict_setitem k v d) = true.
Proof.
  unfold dict_contains; intros H.
  destruct (String.eqb_spec k' k) as [->|Hne].
  - now rewrite dict_get_setitem_eq.
  - now rewrite dict_get_setitem_ne.
Qed.

Lemma dict_contains_In (k : string) (d : dict) :
  dict_contains k d = true <-> In k (keys d).
Proof.
  unfold dict_contains; split.
  - destruct (dict_get k d) eqn:H; [intros _|discriminate].
    eapply dict_get_some_in; eauto.
  - intros H; destruct (dict_get_in _ _ H) as [v ->]; reflexivity.
Qed.

Section ValidationMore.

Variable E : Env.

Lemma validate_class_attributes_loop_cons
    (k : string) (v : pyval) (rest : dict) (section : string) (configfile : pyval)
    (serialized_aim : dict) (sv sm : nat) :
  validate_class_attributes_loop E ((k, v) :: rest) section configfile
    serialized_aim sv sm
  = (if mem_str (lower k) ["appid"; "cert"; "host"; "key"; "passphrase"] then
       validate_class_attributes_loop E rest section configfile
         (dict_setitem (lower k) v serialized_aim) sv sm
     else if substringb (lower k) "timeout" then
       n <~ _to_integer E v (lower k) section configfile ;;
       validate_class_attributes_loop E rest section configfile
         (dict_setitem (lower k) (PInt n) serialized_aim) sv sm
     else if String.eqb (lower k) "keep_cookies" then
       if is_bool v then
         validate_class_attributes_loop E rest section configfile
           (dict_setitem (lower k) v serialized_aim) sv sm
       else
         Raise (AiobastionConfigurationException
                  (if truthy configfile
                   then "Invalid boolean defintion '" ++ lower k
                        ++ "'  within section '" ++ section ++ "' in "
                        ++ py_str E configfile ++ ": " ++ py_repr E v
                   else "Invalid boolean defintion '" ++ lower k
                        ++ "'  within section '" ++ section ++ "': "
                        ++ py_repr E v))
     else if mem_str (lower k) ["maxtasks"; "max_concurrent_tasks"] then
       n <~ _to_integer E v (lower k) section configfile ;;
       validate_class_attributes_loop E rest section configfile
         (dict_setitem "max_concurrent_tasks" (PInt n) serialized_aim) sv (S sm)
     else if mem_str (lower k) ["ca"; "verify"] then
       validate_class_attributes_loop E rest section configfile
         (dict_setitem "verify" v serialized_aim) (S sv) sm
     else
       Raise (AiobastionConfigurationException
                ("Unknown attribute '" ++ k ++ "' within section 'AIM' in "
                 ++ py_str E configfile))).
Proof. reflexivity. Qed.

(** The two pairs of synonyms are reached by no earlier branch. *)
Lemma synonym_verify_branch (kn : string) :
  mem_str kn ["ca"; "verify"] = true ->
  mem_str kn ["appid"; "cert"; "host"; "key"; "passphrase"] = false
  /\ substringb kn "timeout" = false
  /\ String.eqb kn "keep_cookies" = false
  /\ mem_str kn ["maxtasks"; "max_concurrent_tasks"] = false.
Proof.
  intros H; apply mem_str_In in H; simpl in H.
  destruct H as [<-|[<-|[]]]; repeat split; reflexivity.
Qed.

Lemma synonym_max_concurrent_tasks_branch (kn : string) :
  mem_str kn ["maxtasks"; "max_concurrent_tasks"] = true ->
  mem_str kn ["appid"; "cert"; "host"; "key"; "passphrase"] = false
  /\ substringb kn "timeout" = false
  /\ String.eqb kn "keep_cookies" = false
  /\ mem_str kn ["ca"; "verify"] = false.
Proof.
  intros H; apply mem_str_In in H; simpl in H.
  destruct H as [<-|[<-|[]]]; repeat split; reflexivity.
Qed.

(** One turn of the loop that does not raise: the key is an accepted one,
    one entry of [serialized_aim] is assigned, and each counter grows by the
    number of its synonyms the key spells. *)
Lemma validate_class_attributes_loop_step
    (k : string) (v : pyval) (rest : dict) (section : string) (configfile : pyval)
    (aim : dict) (sv sm : nat) (r : dict * nat * nat) :
  validate_class_attributes_loop E ((k, v) :: rest) section configfile aim sv sm
  = Return r ->
  accepted_attribute k = true
  /\ exists key val,
       validate_class_attributes_loop E rest section configfile
         (dict_setitem key val aim)
         (sv + count_keys ["ca"; "verify"] [(k, v)])
         (sm + count_keys ["maxtasks"; "max_concurrent_tasks"] [(k, v)])
       = Return r
       /\ (In key AIM_attributes
           \/ (substringb key "timeout" = true /\ key = lower k))
       /\ (key = "timeout" \/ key = "max_concurrent_tasks" -> exists n, val = PInt n)
       /\ (key = "keep_cookies" -> is_bool val = true).
Proof.
  rewrite validate_class_attributes_loop_cons, !count_keys_cons.
  unfold count_keys; cbn [filter length]; rewrite !Nat.add_0_r.
  unfold accepted_attribute.
  destruct (mem_str (lower k) ["ca"; "verify"]) eqn:Hv.
  { destruct (synonym_verify_branch _ Hv) as (-> & -> & -> & ->).
    intros H; split.
    { apply mem_str_In in Hv; apply orb_true_iff; left; apply mem_str_In.
      simpl in Hv |- *; intuition. }
    exists "verify", v; rewrite !Nat.add_1_r, Nat.add_0_r; split; [exact H|].
    split; [left; simpl; tauto|].
    split; [intros [?|?]; discriminate|discriminate]. }
  destruct (mem_str (lower k) ["maxtasks"; "max_concurrent_tasks"]) eqn:Hm.
  { destruct (synonym_max_concurrent_tasks_branch _ Hm) as (-> & -> & -> & _).
    destruct (_to_integer E v (lower k) section configfile) as [n| |] eqn:Hn;
      cbn [obind]; try discriminate.
    intros H; split.
    { apply mem_str_In in Hm; apply orb_true_iff; left; apply mem_str_In.
      simpl in Hm |- *; intuition. }
    exists "max_concurrent_tasks", (PInt n); rewrite !Nat.add_1_r, Nat.add_0_r.
    split; [exact H|].
    split; [left; simpl; tauto|].
    split; [eauto|discriminate]. }
  rewrite !Nat.add_0_r.
  destruct (mem_str (lower k) ["appid"; "cert"; "host"; "key"; "passphrase"]) eqn:H1.
  { intros H; apply mem_str_In in H1; split.
    { apply orb_true_iff; left; apply mem_str_In; simpl in H1 |- *; intuition. }
    exists (lower k), v; split; [exact H|].
    split; [left; simpl in H1 |- *; intuition|].
    simpl in H1; split.
    - intros [Hk|Hk]; rewrite Hk in H1; intuition discriminate.
    - intros Hk; rewrite Hk in H1; intuition discriminate. }
  destruct (substringb (lower k) "timeout") eqn:H2.
  { destruct (_to_integer E v (lower k) section configfile) as [n| |] eqn:Hn;
      cbn [obind]; try discriminate.
    intros H; split; [apply orb_true_r|].
    exists (lower k), (PInt n); split; [exact H|].
    split; [right; auto|].
    split; [eauto|].
    intros Hk; rewrite Hk in H2; discriminate. }
  destruct (String.eqb_spec (lower k) "keep_cookies") as [Hk|Hk].
  { destruct (is_bool v) eqn:Hb; [|discriminate].
    intros H; split.
    { apply orb_true_iff; left; apply mem_str_In; rewrite Hk; simpl; tauto. }
    exists (lower k), v; split; [exact H|].
    split; [left; rewrite Hk; simpl; tauto|].
    split; [intros [?|?]; congruence|auto]. }
  discriminate.
Qed.


(** What the loop keeps true, from any dictionary that has the nine
    attributes. *)
Lemma validate_class_attributes_loop_spec
    (section : string) (configfile : pyval) (items : dict) :
  forall (aim : dict) (sv sm : nat) (aim' : dict) (sv' sm' : nat),
  (forall k, In k AIM_attributes -> In k (keys aim)) ->
  validate_class_attributes_loop E items section configfile aim sv sm
  = Return (aim', sv', sm') ->
  sv' = (sv + count_keys ["ca"; "verify"] items)%nat
  /\ sm' = (sm + count_keys ["maxtasks"; "max_concurrent_tasks"] items)%nat
  /\ forallb accepted_attribute (keys items) = true
  /\ (exists extra,
        keys aim' = (keys aim ++ extra)%list
        /\ forall k, In k extra ->
             substringb k "timeout" = true
             /\ exists k0, In k0 (keys items) /\ k = lower k0)
  /\ (forall k v, dict_get k aim' = Some v ->
        dict_get k aim = Some v
        \/ ((k = "timeout" \/ k = "max_concurrent_tasks" -> exists n, v = PInt n)
            /\ (k = "keep_cookies" -> is_bool v = true))).
Proof.
  induction items as [|[k v] rest IH]; intros aim sv sm aim' sv' sm' Hkeys Hrun.
  - injection Hrun as <- <- <-.
    unfold count_keys; simpl; rewrite !Nat.add_0_r.
    repeat split; auto.
    exists []; rewrite app_nil_r; split; [reflexivity|intros k []].
  - apply validate_class_attributes_loop_step in Hrun
      as (Hacc & key & val & Hrest & Hkey & Hint & Hbool).
    assert (Hkeys1 : forall k0, In k0 AIM_attributes ->
                                In k0 (keys (dict_setitem key val aim)))
      by (intros k0 Hk0; apply keys_dict_setitem; right; auto).
    destruct (IH _ _ _ _ _ _ Hkeys1 Hrest)
      as (-> & -> & Hall & (extra & Hextra & Hsub) & Hty).
    rewrite !(count_keys_cons _ k v rest), !(count_keys_cons _ k v []).
    change (count_keys ["ca"; "verify"] []) with 0%nat.
    change (count_keys ["maxtasks"; "max_concurrent_tasks"] []) with 0%nat.
    split; [destruct (mem_str (lower k) ["ca"; "verify"]); simpl; lia|].
    split; [destruct (mem_str (lower k) ["maxtasks"; "max_concurrent_tasks"]);
            simpl; lia|].
    split; [change (keys ((k, v) :: rest)) with (k :: keys rest);
            cbn [forallb]; now rewrite Hacc, Hall|].
    split.
    + rewrite keys_dict_setitem_list in Hextra.
      destruct (dict_contains key aim) eqn:Hc.
      * exists extra; split; [exact Hextra|].
        intros k0 Hk0; destruct (Hsub k0 Hk0) as (H1 & k1 & Hk1 & ->).
        split; [exact H1|exists k1; split; [now right|reflexivity]].
      * destruct Hkey as [Hkey|[Hkey ->]].
        { apply Hkeys, dict_contains_In in Hkey; congruence. }
        exists (lower k :: extra); split; [now rewrite Hextra, <- app_assoc|].
        intros k0 [<-|Hk0].
        { split; [exact Hkey|exists k; split; [now left|reflexivity]]. }
        destruct (Hsub k0 Hk0) as (H1 & k1 & Hk1 & ->).
        split; [exact H1|exists k1; split; [now right|reflexivity]].
    + intros k0 v0 Hget; destruct (Hty k0 v0 Hget) as [H0|H0]; [|now right].
      destruct (String.eqb_spec k0 key) as [->|Hne].
      * rewrite dict_get_setitem_eq in H0; injection H0 as <-.
        right; split; auto.
      * rewrite dict_get_setitem_ne in H0 by exact Hne; now left.
Qed.

(** The dictionary the validation starts from has the nine attributes. *)
Lemma init_validate_class_attributes_inv
    (serialized : dict) (section : string) (configfile : pyval) (d : dict) :
  _init_validate_class_attributes E serialized section configfile = Return d ->
  exists sv sm,
    validate_class_attributes_loop E serialized section configfile
      [("appid", PNone); ("cert", PNone); ("host", PNone);
       ("keep_cookies", CYBERARK_DEFAULT_KEEP_COOKIES E); ("key", PNone);
       ("max_concurrent_tasks", PNone); ("passphrase", PNone);
       ("timeout", PNone); ("verify", PNone)] 0%nat 0%nat
    = Return (d, sv, sm)
    /\ (sv <= 1)%nat /\ (sm <= 1)%nat.
Proof.
  unfold _init_validate_class_attributes.
  destruct (validate_class_attributes_loop _ _ _ _ _ _ _) as [[[d' sv] sm]| |];
    cbn [obind]; try discriminate.
  destruct (Nat.ltb_spec 1 sv); [discriminate|].
  destruct (Nat.ltb_spec 1 sm); [discriminate|].
  intros Hd; injection Hd as <-; exists sv, sm; repeat split; auto; lia.
Qed.

(** X14.  When [_init_validate_class_attributes] returns, every key of the
    mapping it was given is, up to case, one of the nine attributes, one of
    the synonyms [maxtasks] and [ca], or a substring of [timeout]; and at
    most one key spells [ca] or [verify], at most one [maxtasks] or
    [max_concurrent_tasks], two spellings that differ by case counting as
    two. *)
Theorem init_validate_class_attributes_accepts
    (serialized : dict) (section : string) (configfile : pyval) (d : dict) :
  _init_validate_class_attributes E serialized section configfile = Return d ->
  forallb accepted_attribute (keys serialized) = true
  /\ (count_keys ["ca"; "verify"] serialized <= 1)%nat
  /\ (count_keys ["maxtasks"; "max_concurrent_tasks"] serialized <= 1)%nat.
Proof.
  intros H; apply init_validate_class_attributes_inv in H
    as (sv & sm & Hloop & Hsv & Hsm).
  apply validate_class_attributes_loop_spec in Hloop
    as (-> & -> & Hall & _); [|intros k Hk; exact Hk].
  repeat split; [exact Hall|lia|lia].
Qed.

(** X15.  The dictionary [_init_validate_class_attributes] returns starts
    with the nine attributes in the order of the source; any further key is
    the lowercase form of a key it was given and a substring of [timeout];
    [timeout] and [max_concurrent_tasks] hold [None] or an integer, and
    [keep_cookies] the default of [EPV] or a boolean. *)
Theorem init_validate_class_attributes_shape
    (serialized : dict) (section : string) (configfile : pyval) (d : dict) :
  _init_validate_class_attributes E serialized section configfile = Return d ->
  (exists extra,
     keys d = (AIM_attributes ++ extra)%list
     /\ forall k, In k extra ->
          substringb k "timeout" = true
          /\ exists k0, In k0 (keys serialized) /\ k = lower k0)
  /\ (forall k v, k = "timeout" \/ k = "max_concurrent_tasks" ->
        dict_get k d = Some v -> v = PNone \/ exists n, v = PInt n)
  /\ (forall v, dict_get "keep_cookies" d = Some v ->
        v = CYBERARK_DEFAULT_KEEP_COOKIES E \/ is_bool v = true).
Proof.
  intros H; apply init_validate_class_attributes_inv in H
    as (sv & sm & Hloop & _ & _).
  apply validate_class_attributes_loop_spec in Hloop
    as (_ & _ & _ & Hkeys & Hty); [|intros k Hk; exact Hk].
  split; [exact Hkeys|].
  split.
  - intros k v Hk Hget; destruct (Hty k v Hget) as [H0|[H0 _]]; [|right; auto].
    left; destruct Hk as [-> | ->]; simpl in H0; congruence.
  - intros v Hget; destruct (Hty _ v Hget) as [H0|[_ H0]]; [|right; auto].
    left; simpl in H0; congruence.
Qed.

End ValidationMore.

Lemma init_validate_class_attributes_accepts_witness :
  let serialized := [("Host", PStr "aim.example.com"); ("CA", PBool false);
                     ("MaxTasks", PStr "5"); ("time", PInt 3)] in
  _init_validate_class_attributes offline_env serialized "AIM" (PStr "aim.yml")
  = Return [("appid", PNone); ("cert", PNone); ("host", PStr "aim.example.com");
            ("keep_cookies", PBool false); ("key", PNone);
            ("max_concurrent_tasks", PInt 5); ("passphrase", PNone);
            ("timeout", PNone); ("verify", PBool false); ("time", PInt 3)]
  /\ forallb accepted_attribute (keys serialized) = true
  /\ (count_keys ["ca"; "verify"] serialized <= 1)%nat
  /\ (count_keys ["maxtasks"; "max_concurrent_tasks"] serialized <= 1)%nat.
Proof.
  cbv zeta.
  assert (Hrun : _init_validate_class_attributes offline_env
                   [("Host", PStr "aim.example.com"); ("CA", PBool false);
                    ("MaxTasks", PStr "5"); ("time", PInt 3)] "AIM" (PStr "aim.yml")
                 = Return [("appid", PNone); ("cert", PNone);
                           ("host", PStr "aim.example.com");
                           ("keep_cookies", PBool false); ("key", PNone);
                           ("max_concurrent_tasks", PInt 5); ("passphrase", PNone);
                           ("timeout", PNone); ("verify", PBool false);
                           ("time", PInt 3)])
    by reflexivity.
  split; [exact Hrun|].
  exact (init_validate_class_attributes_accepts offline_env _ _ _ _ Hrun).
Defined.

Lemma init_validate_class_attributes_shape_witness :
  let serialized := [("Timeout", PStr "45"); ("keep_cookies", PBool true);
                     ("me", PInt 1)] in
  let d := [("appid", PNone); ("cert", PNone); ("host", PNone);
            ("keep_cookies", PBool true); ("key", PNone);
            ("max_concurrent_tasks", PNone); ("passphrase", PNone);
            ("timeout", PInt 45); ("verify", PNone); ("me", PInt 1)] in
  _init_validate_class_attributes offline_env serialized "AIM" PNone = Return d
  /\ (exists extra,
        keys d = (AIM_attributes ++ extra)%list
        /\ forall k, In k extra ->
             substringb k "timeout" = true
             /\ exists k0, In k0 (keys serialized) /\ k = lower k0)
  /\ (forall k v, k = "timeout" \/ k = "max_concurrent_tasks" ->
        dict_get k d = Some v -> v = PNone \/ exists n, v = PInt n)
  /\ (forall v, dict_get "keep_cookies" d = Some v ->
        v = CYBERARK_DEFAULT_KEEP_COOKIES offline_env \/ is_bool v = true).
Proof.
  cbv zeta.
  assert (Hrun : _init_validate_class_attributes offline_env
                   [("Timeout", PStr "45"); ("keep_cookies", PBool true);
                    ("me", PInt 1)] "AIM" PNone
                 = Return [("appid", PNone); ("cert", PNone); ("host", PNone);
                           ("keep_cookies", PBool true); ("key", PNone);
                           ("max_concurrent_tasks", PNone); ("passphrase", PNone);
                           ("timeout", PInt 45); ("verify", PNone); ("me", PInt 1)])
    by reflexivity.
  split; [exact Hrun|].
  exact (init_validate_class_attributes_shape offline_env _ _ _ _ Hrun).
Defined.

(* ================================================================== *)
(** ** Completion from the PVWA section *)

Lemma keys_dict_setitem_present (k : string) (v : pyval) (d : dict) :
  In k (keys d) -> keys (dict_setitem k v d) = keys d.
Proof.
  intros H; rewrite keys_dict_setitem_list.
  destruct (dict_get_in _ _ H) as [a Ha]; unfold dict_contains; now rewrite Ha.
Qed.

Section CompletionMore.

Variable E : Env.

Lemma complete_from_present (pvwa : dict) (k : string) (d : dict) (a p : pyval) :
  dict_get k d = Some a -> dict_get k pvwa = Some p ->
  complete_from pvwa k d = Return (if is_None a then dict_setitem k p d else d).
Proof.
  intros Ha Hp; unfold complete_from; cbn [py_getitem obind].
  rewrite Ha; cbn [obind]; destruct (is_None a); [|reflexivity].
  now rewrite Hp.
Qed.

(** The dictionary [_init_complete_with_pvwa] leaves, key by key. *)
Lemma init_complete_with_pvwa_pointwise
    (serialized_aim pvwa : dict) (section : string) (configfile : pyval)
    (a1 a2 a3 a4 a5 p1 p2 p3 p4 p5 : pyval) :
  dict_get "appid" serialized_aim = Some a1 ->
  dict_get "host" serialized_aim = Some a2 ->
  dict_get "timeout" serialized_aim = Some a3 ->
  dict_get "max_concurrent_tasks" serialized_aim = Some a4 ->
  dict_get "verify" serialized_aim = Some a5 ->
  dict_get "appid" pvwa = Some p1 ->
  dict_get "host" pvwa = Some p2 ->
  dict_get "timeout" pvwa = Some p3 ->
  dict_get "max_concurrent_tasks" pvwa = Some p4 ->
  dict_get "verify" pvwa = Some p5 ->
  exists d',
    _init_complete_with_pvwa E serialized_aim pvwa section configfile
    = (Return d', d')
    /\ keys d' = keys serialized_aim
    /\ forall k,
         dict_get k d'
         = if String.eqb k "verify" then
             Some (if is_None a5
                   then (if is_None p5 then CYBERARK_DEFAULT_VERIFY E else p5)
                   else a5)
           else if String.eqb k "max_concurrent_tasks" then
             Some (if is_None a4 then p4 else a4)
           else if String.eqb k "timeout" then
             Some (if is_None a3 then p3 else a3)
           else if String.eqb k "host" then
             Some (if is_None a2 then p2 else a2)
           else if String.eqb k "appid" then
             Some (if is_None a1 && truthy p1 then p1 else a1)
           else dict_get k serialized_aim.
Proof.
  intros Ha1 Ha2 Ha3 Ha4 Ha5 Hp1 Hp2 Hp3 Hp4 Hp5.
  set (d1 := if is_None a1 && truthy p1
             then dict_setitem "appid" p1 serialized_aim else serialized_aim).
  set (d2 := if is_None a2 then dict_setitem "host" p2 d1 else d1).
  set (d3 := if is_None a3 then dict_setitem "timeout" p3 d2 else d2).
  set (d4 := if is_None a4 then dict_setitem "max_concurrent_tasks" p4 d3 else d3).
  set (d5 := if is_None a5
             then dict_setitem "verify"
                    (if is_None p5 then CYBERARK_DEFAULT_VERIFY E else p5) d4
             else d4).
  (* what each step leaves of the other keys *)
  assert (G1 : forall k, k <> "appid" -> dict_get k d1 = dict_get k serialized_aim).
  { intros k Hk; unfold d1; destruct (is_None a1 && truthy p1); [|reflexivity].
    now rewrite dict_get_setitem_ne. }
  assert (G2 : forall k, k <> "host" -> dict_get k d2 = dict_get k d1).
  { intros k Hk; unfold d2; destruct (is_None a2); [|reflexivity].
    now rewrite dict_get_setitem_ne. }
  assert (G3 : forall k, k <> "timeout" -> dict_get k d3 = dict_get k d2).
  { intros k Hk; unfold d3; destruct (is_None a3); [|reflexivity].
    now rewrite dict_get_setitem_ne. }
  assert (G4 : forall k, k <> "max_concurrent_tasks" -> dict_get k d4 = dict_get k d3).
  { intros k Hk; unfold d4; destruct (is_None a4); [|reflexivity].
    now rewrite dict_get_setitem_ne. }
  assert (G5 : forall k, k <> "verify" -> dict_get k d5 = dict_get k d4).
  { intros k Hk; unfold d5; destruct (is_None a5); [|reflexivity].
    now rewrite dict_get_setitem_ne. }
  (* the value each step leaves at its own key *)
  assert (V1 : dict_get "appid" d1
               = Some (if is_None a1 && truthy p1 then p1 else a1)).
  { unfold d1; destruct (is_None a1 && truthy p1); [|exact Ha1].
    apply dict_get_setitem_eq. }
  assert (V2 : dict_get "host" d2 = Some (if is_None a2 then p2 else a2)).
  { unfold d2; destruct (is_None a2); [apply dict_get_setitem_eq|].
    rewrite G1 by discriminate; exact Ha2. }
  assert (V3 : dict_get "timeout" d3 = Some (if is_None a3 then p3 else a3)).
  { unfold d3; destruct (is_None a3); [apply dict_get_setitem_eq|].
    rewrite G2, G1 by discriminate; exact Ha3. }
  assert (V4 : dict_get "max_concurrent_tasks" d4
               = Some (if is_None a4 then p4 else a4)).
  { unfold d4; destruct (is_None a4); [apply dict_get_setitem_eq|].
    rewrite G3, G2, G1 by discriminate; exact Ha4. }
  assert (V5 : dict_get "verify" d5
               = Some (if is_None a5
                       then (if is_None p5 then CYBERARK_DEFAULT_VERIFY E else p5)
                       else a5)).
  { unfold d5; destruct (is_None a5); [apply dict_get_setitem_eq|].
    rewrite G4, G3, G2, G1 by discriminate; exact Ha5. }
  (* the keys *)
  assert (K1 : keys d1 = keys serialized_aim).
  { unfold d1; destruct (is_None a1 && truthy p1); [|reflexivity].
    apply keys_dict_setitem_present; eapply dict_get_some_in; eauto. }
  assert (K2 : keys d2 = keys serialized_aim).
  { unfold d2; destruct (is_None a2); [|exact K1].
    rewrite keys_dict_setitem_present; [exact K1|].
    rewrite K1; eapply dict_get_some_in; eauto. }
  assert (K3 : keys d3 = keys serialized_aim).
  { unfold d3; destruct (is_None a3); [|exact K2].
    rewrite keys_dict_setitem_present; [exact K2|].
    rewrite K2; eapply dict_get_some_in; eauto. }
  assert (K4 : keys d4 = keys serialized_aim).
  { unfold d4; destruct (is_None a4); [|exact K3].
    rewrite keys_dict_setitem_present; [exact K3|].
    rewrite K3; eapply dict_get_some_in; eauto. }
  assert (K5 : keys d5 = keys serialized_aim).
  { unfold d5; destruct (is_None a5); [|exact K4].
    rewrite keys_dict_setitem_present; [exact K4|].
    rewrite K4; eapply dict_get_some_in; eauto. }
  assert (Hall : forall k,
            dict_get k d5
            = if String.eqb k "verify" then
                Some (if is_None a5
                      then (if is_None p5 then CYBERARK_DEFAULT_VERIFY E else p5)
                      else a5)
              else if String.eqb k "max_concurrent_tasks" then
                Some (if is_None a4 then p4 else a4)
              else if String.eqb k "timeout" then
                Some (if is_None a3 then p3 else a3)
              else if String.eqb k "host" then
                Some (if is_None a2 then p2 else a2)
              else if String.eqb k "appid" then
                Some (if is_None a1 && truthy p1 then p1 else a1)
              else dict_get k serialized_aim).
  { intros k.
    destruct (String.eqb_spec k "verify") as [->|N5]; [exact V5|].
    rewrite G5 by exact N5.
    destruct (String.eqb_spec k "max_concurrent_tasks") as [->|N4]; [exact V4|].
    rewrite G4 by exact N4.
    destruct (String.eqb_spec k "timeout") as [->|N3]; [exact V3|].
    rewrite G3 by exact N3.
    destruct (String.eqb_spec k "host") as [->|N2]; [exact V2|].
    rewrite G2 by exact N2.
    destruct (String.eqb_spec k "appid") as [->|N1]; [exact V1|].
    now rewrite G1. }
  exists d5; split.
  { unfold _init_complete_with_pvwa, statement at 1; cbn [py_getitem obind].
    rewrite Ha1; cbn [obind].
    assert (S1 : (if is_None a1
                  then v <~ match dict_get "appid" pvwa with
                            | Some v => Return v
                            | None => Raise (KeyError "appid")
                            end ;;
                       (if truthy v
                        then v' <~ match dict_get "appid" pvwa with
                                   | Some v0 => Return v0
                                   | None => Raise (KeyError "appid")
                                   end ;;
                             Return (dict_setitem "appid" v' serialized_aim)
                        else Return serialized_aim)
                  else Return serialized_aim) = Return d1).
    { rewrite Hp1; cbn [obind]; unfold d1.
      destruct (is_None a1); [|reflexivity].
      destruct (truthy p1); reflexivity. }
    rewrite S1.
    unfold statement at 1.
    rewrite (complete_from_present pvwa "host" d1 a2 p2)
      by (rewrite ?G1 by discriminate; assumption).
    fold d2; unfold statement at 1.
    rewrite (complete_from_present pvwa "timeout" d2 a3 p3)
      by (rewrite ?G2, ?G1 by discriminate; assumption).
    fold d3; unfold statement at 1.
    rewrite (complete_from_present pvwa "max_concurrent_tasks" d3 a4 p4)
      by (rewrite ?G3, ?G2, ?G1 by discriminate; assumption).
    fold d4; unfold statement; cbn [py_getitem obind].
    rewrite G4, G3, G2, G1, Ha5, Hp5 by discriminate; cbn [obind].
    unfold d5; destruct (is_None a5); [|reflexivity].
    destruct (is_None p5); reflexivity. }
  split; [exact K5|exact Hall].
Qed.

(** X16.  On a dictionary that has the five attributes it reads, and with a
    PVWA section that has them too, [_init_complete_with_pvwa] returns the
    dictionary it was given, updated in place: no key is added or moved, a
    value that is not [None] is kept, and so is every attribute other than
    the five; a [None] host, timeout or concurrency becomes the PVWA's, a
    [None] verify the PVWA's or, if that is [None], the default of [EPV],
    and a [None] appid the PVWA's only if that is truthy. *)
Theorem init_complete_with_pvwa_fills
    (serialized_aim pvwa : dict) (section : string) (configfile : pyval) :
  (forall k, In k PVWA_defaults -> In k (keys serialized_aim)) ->
  (forall k, In k PVWA_defaults -> In k (keys pvwa)) ->
  exists d',
    _init_complete_with_pvwa E serialized_aim pvwa section configfile
    = (Return d', d')
    /\ keys d' = keys serialized_aim
    /\ (forall k v, dict_get k serialized_aim = Some v -> is_None v = false ->
          dict_get k d' = Some v)
    /\ (forall k, ~ In k PVWA_defaults -> dict_get k d' = dict_get k serialized_aim)
    /\ (forall k, In k ["host"; "timeout"; "max_concurrent_tasks"] ->
          dict_get k serialized_aim = Some PNone ->
          dict_get k d' = dict_get k pvwa)
    /\ (forall p, dict_get "verify" serialized_aim = Some PNone ->
          dict_get "verify" pvwa = Some p ->
          dict_get "verify" d'
          = Some (if is_None p then CYBERARK_DEFAULT_VERIFY E else p))
    /\ (forall p, dict_get "appid" serialized_aim = Some PNone ->
          dict_get "appid" pvwa = Some p ->
          dict_get "appid" d' = Some (if truthy p then p else PNone)).
Proof.
  intros Haim Hpvwa.
  destruct (dict_get_in _ _ (Haim "appid" ltac:(simpl; tauto))) as [a1 Ha1].
  destruct (dict_get_in _ _ (Haim "host" ltac:(simpl; tauto))) as [a2 Ha2].
  destruct (dict_get_in _ _ (Haim "timeout" ltac:(simpl; tauto))) as [a3 Ha3].
  destruct (dict_get_in _ _ (Haim "max_concurrent_tasks" ltac:(simpl; tauto)))
    as [a4 Ha4].
  destruct (dict_get_in _ _ (Haim "verify" ltac:(simpl; tauto))) as [a5 Ha5].
  destruct (dict_get_in _ _ (Hpvwa "appid" ltac:(simpl; tauto))) as [p1 Hp1].
  destruct (dict_get_in _ _ (Hpvwa "host" ltac:(simpl; tauto))) as [p2 Hp2].
  destruct (dict_get_in _ _ (Hpvwa "timeout" ltac:(simpl; tauto))) as [p3 Hp3].
  destruct (dict_get_in _ _ (Hpvwa "max_concurrent_tasks" ltac:(simpl; tauto)))
    as [p4 Hp4].
  destruct (dict_get_in _ _ (Hpvwa "verify" ltac:(simpl; tauto))) as [p5 Hp5].
  destruct (init_complete_with_pvwa_pointwise serialized_aim pvwa section configfile
              _ _ _ _ _ _ _ _ _ _ Ha1 Ha2 Ha3 Ha4 Ha5 Hp1 Hp2 Hp3 Hp4 Hp5)
    as (d' & Hrun & Hkeys & Hall).
  exists d'; split; [exact Hrun|].
  split; [exact Hkeys|].
  split.
  { intros k v Hk Hv; rewrite Hall.
    repeat match goal with
           | |- context [String.eqb k ?s] =>
               destruct (String.eqb_spec k s) as [->|?]
           end;
      try exact Hk;
      match goal with
      | H : dict_get ?s serialized_aim = Some ?a |- _ =>
          rewrite H in Hk; injection Hk as ->; rewrite Hv; reflexivity
      end. }
  split.
  { intros k Hk; rewrite Hall; unfold PVWA_defaults in Hk; simpl in Hk.
    repeat match goal with
           | |- context [String.eqb k ?s] =>
               destruct (String.eqb_spec k s) as [->|?]
           end; try reflexivity; exfalso; apply Hk; tauto. }
  split.
  { intros k Hk Hnone; rewrite Hall; simpl in Hk.
    destruct Hk as [<-|[<-|[<-|[]]]]; cbn [String.eqb Ascii.eqb Bool.eqb];
      match goal with
      | H : dict_get ?s serialized_aim = Some ?a |- _ =>
          rewrite H in Hnone; injection Hnone as ->
      end; cbn [is_None]; congruence. }
  split.
  { intros p Hnone Hp; rewrite Hall; cbn [String.eqb Ascii.eqb Bool.eqb].
    rewrite Ha5 in Hnone; injection Hnone as ->.
    rewrite Hp5 in Hp; injection Hp as ->; reflexivity. }
  intros p Hnone Hp; rewrite Hall; cbn [String.eqb Ascii.eqb Bool.eqb].
  rewrite Ha1 in Hnone; injection Hnone as ->.
  rewrite Hp1 in Hp; injection Hp as ->; cbn [is_None andb].
  destruct (truthy p); reflexivity.
Qed.

Lemma is_None_false (v : pyval) : is_None v = false -> v <> PNone.
Proof. intros H ->; discriminate. Qed.

(** X17.  Validation followed by completion: on a dictionary
    [_init_validate_class_attributes] returned, and with a PVWA section that
    has the five attributes, [_init_complete_with_pvwa] raises no
    [KeyError]; it adds no key; the verify policy it leaves is not [None]
    unless the default of [EPV] is; and host, timeout and concurrency are
    not [None] where the PVWA's are not. *)
Theorem init_validate_then_complete
    (serialized pvwa : dict) (section : string) (configfile : pyval) (d : dict) :
  _init_validate_class_attributes E serialized section configfile = Return d ->
  (forall k, In k PVWA_defaults -> In k (keys pvwa)) ->
  exists d',
    _init_complete_with_pvwa E d pvwa section configfile = (Return d', d')
    /\ keys d' = keys d
    /\ (CYBERARK_DEFAULT_VERIFY E <> PNone -> dict_get "verify" d' <> Some PNone)
    /\ (forall k, In k ["host"; "timeout"; "max_concurrent_tasks"] ->
          dict_get k pvwa <> Some PNone -> dict_get k d' <> Some PNone).
Proof.
  intros Hval Hpvwa.
  apply init_validate_class_attributes_inv in Hval as (sv & sm & Hloop & _ & _).
  apply validate_class_attributes_loop_spec in Hloop
    as (_ & _ & _ & (extra & Hkeys & _) & _); [|intros k Hk; exact Hk].
  assert (Haim : forall k, In k AIM_attributes -> In k (keys d)).
  { intros k Hk; cbn [keys map fst] in Hkeys; rewrite Hkeys.
    apply in_or_app; left; exact Hk. }
  destruct (dict_get_in _ _ (Haim "appid" ltac:(simpl; tauto))) as [a1 Ha1].
  destruct (dict_get_in _ _ (Haim "host" ltac:(simpl; tauto))) as [a2 Ha2].
  destruct (dict_get_in _ _ (Haim "timeout" ltac:(simpl; tauto))) as [a3 Ha3].
  destruct (dict_get_in _ _ (Haim "max_concurrent_tasks" ltac:(simpl; tauto)))
    as [a4 Ha4].
  destruct (dict_get_in _ _ (Haim "verify" ltac:(simpl; tauto))) as [a5 Ha5].
  destruct (dict_get_in _ _ (Hpvwa "appid" ltac:(simpl; tauto))) as [p1 Hp1].
  destruct (dict_get_in _ _ (Hpvwa "host" ltac:(simpl; tauto))) as [p2 Hp2].
  destruct (dict_get_in _ _ (Hpvwa "timeout" ltac:(simpl; tauto))) as [p3 Hp3].
  destruct (dict_get_in _ _ (Hpvwa "max_concurrent_tasks" ltac:(simpl; tauto)))
    as [p4 Hp4].
  destruct (dict_get_in _ _ (Hpvwa "verify" ltac:(simpl; tauto))) as [p5 Hp5].
  destruct (init_complete_with_pvwa_pointwise d pvwa section configfile
              _ _ _ _ _ _ _ _ _ _ Ha1 Ha2 Ha3 Ha4 Ha5 Hp1 Hp2 Hp3 Hp4 Hp5)
    as (d' & Hrun & Hk' & Hall).
  exists d'; split; [exact Hrun|].
  split; [exact Hk'|].
  split.
  - intros Hdef; rewrite Hall; cbn [String.eqb Ascii.eqb Bool.eqb].
    destruct (is_None a5) eqn:H5.
    + destruct (is_None p5) eqn:H6; [congruence|].
      apply is_None_false in H6; congruence.
    + apply is_None_false in H5; congruence.
  - intros k Hk Hp; rewrite Hall; simpl in Hk.
    destruct Hk as [<-|[<-|[<-|[]]]]; cbn [String.eqb Ascii.eqb Bool.eqb];
      match goal with
      | |- Some (if is_None ?a then _ else _) <> _ =>
          destruct (is_None a) eqn:Hn;
          [congruence|apply is_None_false in Hn; congruence]
      end.
Qed.

End CompletionMore.

Lemma init_complete_with_pvwa_fills_witness :
  let aim := [("appid", PNone); ("cert", PStr "client.pem"); ("host", PNone);
              ("keep_cookies", PBool false); ("key", PNone);
              ("max_concurrent_tasks", PInt 5); ("passphrase", PNone);
              ("timeout", PNone); ("verify", PNone)] in
  let pvwa := [("appid", PStr "App"); ("host", PStr "pvwa.example.com");
               ("timeout", PInt 30); ("max_concurrent_tasks", PInt 10);
               ("verify", PNone)] in
  let d' := [("appid", PStr "App"); ("cert", PStr "client.pem");
             ("host", PStr "pvwa.example.com");
             ("keep_cookies", PBool false); ("key", PNone);
             ("max_concurrent_tasks", PInt 5); ("passphrase", PNone);
             ("timeout", PInt 30); ("verify", PBool false)] in
  (forall k, In k PVWA_defaults -> In k (keys aim))
  /\ (forall k, In k PVWA_defaults -> In k (keys pvwa))
  /\ _init_complete_with_pvwa offline_env aim pvwa "AIM" PNone = (Return d', d')
  /\ exists d'',
       _init_complete_with_pvwa offline_env aim pvwa "AIM" PNone = (Return d'', d'')
       /\ keys d'' = keys aim.
Proof.
  cbv zeta.
  match goal with
  | |- ?A /\ ?B /\ _ =>
      assert (Ha : A) by (intros k Hk; simpl in Hk |- *; intuition);
      assert (Hb : B) by (intros k Hk; simpl in Hk |- *; intuition)
  end.
  split; [exact Ha|]. split; [exact Hb|]. split; [reflexivity|].
  destruct (init_complete_with_pvwa_fills offline_env _ _ "AIM" PNone Ha Hb)
    as (d'' & Hrun & Hkeys & _).
  exists d''; split; [exact Hrun|exact Hkeys].
Defined.

Lemma init_validate_then_complete_witness :
  let serialized := [("Cert", PStr "client.pem"); ("maxtasks", PStr "5")] in
  let pvwa := [("appid", PStr "App"); ("host", PStr "pvwa.example.com");
               ("timeout", PInt 30); ("max_concurrent_tasks", PInt 10);
               ("verify", PNone)] in
  let d := [("appid", PNone); ("cert", PStr "client.pem"); ("host", PNone);
            ("keep_cookies", PBool false); ("key", PNone);
            ("max_concurrent_tasks", PInt 5); ("passphrase", PNone);
            ("timeout", PNone); ("verify", PNone)] in
  _init_validate_class_attributes offline_env serialized "AIM" PNone = Return d
  /\ (forall k, In k PVWA_defaults -> In k (keys pvwa))
  /\ exists d',
       _init_complete_with_pvwa offline_env d pvwa "AIM" PNone = (Return d', d')
       /\ keys d' = keys d
       /\ dict_get "verify" d' <> Some PNone.
Proof.
  cbv zeta.
  match goal with
  | |- ?A /\ ?B /\ _ =>
      assert (Ha : A) by reflexivity;
      assert (Hb : B) by (intros k Hk; simpl in Hk |- *; intuition)
  end.
  split; [exact Ha|]. split; [exact Hb|].
  destruct (init_validate_then_complete offline_env _ _ "AIM" PNone _ Ha Hb)
    as (d' & Hrun & Hkeys & Hv & _).
  exists d'; split; [exact Hrun|]. split; [exact Hkeys|].
  apply Hv; discriminate.
Defined.

(* ================================================================== *)
(** * Properties of [config.py] *)

(** ** Permission profiles *)

(** The tables [permissions] can return. *)
Lemma permissions_cases (profile : string) :
  In (Config.permissions profile)
    [Config.ADMIN_PERMISSIONS; Config.USE_PERMISSIONS; Config.SHOW_PERMISSIONS;
     Config.PROV_PERMISSIONS; Config.POWER_PERMISSIONS; Config.CPM_PERMISSIONS;
     Config.MANAGER_PERMISSIONS; Config.DEFAULT_PERMISSIONS].
Proof.
  unfold Config.permissions.
  repeat match goal with
         | |- context [if ?b then _ else _] => destruct b
         end; simpl; tauto.
Qed.

(** X18.  Whatever the profile name, [permissions] decides each of the
    twenty rights of [DEFAULT_PERMISSIONS] by a boolean, and grants nothing
    that [ADMIN_PERMISSIONS] does not grant; a name that contains [admin] in
    any case gets every right, whatever else it contains. *)
Theorem permissions_rights (profile : string) :
  (forall k, In k (keys Config.DEFAULT_PERMISSIONS) ->
     exists b, dict_get k (Config.permissions profile) = Some (PBool b))
  /\ (forall k, dict_get k (Config.permissions profile) = Some (PBool true) ->
        dict_get k Config.ADMIN_PERMISSIONS = Some (PBool true))
  /\ (substringb "admin" (lower profile) = true ->
      forall k v, In (k, v) (Config.permissions profile) -> v = PBool true).
Proof.
  split; [|split].
  - intros k Hk.
    pose proof (permissions_cases profile) as Hc.
    generalize dependent (Config.permissions profile); intros d Hc.
    cbv [In] in Hc.
    repeat (destruct Hc as [<-|Hc]; [|]); try contradiction;
      (vm_compute in Hk;
       repeat (destruct Hk as [<-|Hk]; [eexists; vm_compute; reflexivity|]);
       contradiction).
  - intros k.
    pose proof (permissions_cases profile) as Hc.
    generalize dependent (Config.permissions profile); intros d Hc Hk.
    assert (Hin : In k (keys d)) by (eapply dict_get_some_in; eauto).
    cbv [In] in Hc.
    repeat (destruct Hc as [<-|Hc]; [|]); try contradiction;
      (vm_compute in Hin;
       repeat (destruct Hin as [<-|Hin];
               [first [reflexivity | vm_compute in Hk; discriminate]|]);
       contradiction).
  - intros Hadmin k v Hin; unfold Config.permissions in Hin; rewrite Hadmin in Hin.
    vm_compute in Hin.
    repeat (destruct Hin as [Hin|Hin]; [injection Hin as _ <-; reflexivity|]).
    contradiction.
Qed.

(** X19.  [permissions] never returns [AUDIT_PERMISSIONS].  A name that
    contains [audit] and not [admin] gets the table of [use] or of [show]:
    it may list and use accounts, and the right to view the audit log is not
    granted. *)
Theorem permissions_audit (profile : string) :
  Config.permissions profile <> Config.AUDIT_PERMISSIONS
  /\ (substringb "audit" (lower profile) = true ->
      substringb "admin" (lower profile) = false ->
      (Config.permissions profile = Config.USE_PERMISSIONS
       \/ Config.permissions profile = Config.SHOW_PERMISSIONS)
      /\ dict_get "UseAccounts" (Config.permissions profile) = Some (PBool true)
      /\ dict_get "ViewAuditLog" (Config.permissions profile) = Some (PBool false)).
Proof.
  split.
  - pose proof (permissions_cases profile) as Hc.
    generalize dependent (Config.permissions profile); intros d Hc.
    cbv [In] in Hc.
    repeat (destruct Hc as [<-|Hc]; [vm_compute; discriminate|]).
    contradiction.
  - intros Haudit Hadmin; unfold Config.permissions; rewrite Hadmin, Haudit.
    destruct (substringb "use" (lower profile));
      [|destruct (substringb "show" (lower profile))];
      (split; [tauto|split; reflexivity]).
Qed.

Lemma permissions_audit_witness :
  substringb "audit" (lower "Auditor") = true
  /\ substringb "admin" (lower "Auditor") = false
  /\ Config.permissions "Auditor" = Config.SHOW_PERMISSIONS
  /\ dict_get "ViewAuditLog" (Config.permissions "Auditor") = Some (PBool false).
Proof.
  split; [reflexivity|]. split; [reflexivity|]. split; [reflexivity|].
  exact (proj2 (proj2 (proj2 (permissions_audit "Auditor") eq_refl eq_refl))).
Defined.

Lemma permissions_rights_witness :
  substringb "admin" (lower "SafeAdmin-user") = true
  /\ forall k v, In (k, v) (Config.permissions "SafeAdmin-user") -> v = PBool true.
Proof.
  split; [reflexivity|].
  exact (proj2 (proj2 (permissions_rights "SafeAdmin-user")) eq_refl).
Defined.

(* ------------------------------------------------------------------ *)
(** ** Version 2 profiles *)

(** X20.  The name [get_v2_profile] gives depends on six entries of the
    mapping only: two mappings that agree on [manageSafeMembers],
    [viewAuditLog], [retrieveAccounts], [updateAccountContent],
    [useAccounts] and [listAccounts], present or absent, get the same
    answer, be it a name or the [KeyError]. *)
Theorem get_v2_profile_six_entries (d1 d2 : dict) :
  (forall k, In k ["manageSafeMembers"; "viewAuditLog"; "retrieveAccounts";
                   "updateAccountContent"; "useAccounts"; "listAccounts"] ->
     dict_get k d1 = dict_get k d2) ->
  Config.get_v2_profile (PDict d1) = Config.get_v2_profile (PDict d2).
Proof.
  intros H.
  unfold Config.get_v2_profile, Config.append_if_all, Config.V2_ADMIN,
    Config.V2_AUDIT, Config.V2_SHOW, Config.V2_CHANGE, Config.V2_USE.
  cbn [Config.table_tests py_getitem].
  rewrite (H "manageSafeMembers"), (H "viewAuditLog"), (H "retrieveAccounts"),
    (H "updateAccountContent"), (H "useAccounts"), (H "listAccounts")
    by (simpl; tauto).
  reflexivity.
Qed.

Lemma get_v2_profile_six_entries_witness :
  Config.get_v2_profile (PDict Config.V2_BASE) = Return "Use"
  /\ Config.get_v2_profile
       (PDict [("backupSafe", PBool true); ("listAccounts", PBool true);
               ("useAccounts", PBool true); ("viewAuditLog", PBool false);
               ("manageSafeMembers", PBool false);
               ("updateAccountContent", PBool false);
               ("retrieveAccounts", PBool false)])
     = Config.get_v2_profile (PDict Config.V2_BASE)
  /\ Config.get_v2_profile (PDict [("useAccounts", PBool false)])
     = Raise (KeyError "manageSafeMembers").
Proof.
  split; [reflexivity|]. split; [|reflexivity].
  apply get_v2_profile_six_entries.
  intros k Hk; simpl in Hk.
  repeat (destruct Hk as [<-|Hk]; [reflexivity|]); contradiction.
Defined.

(** What one [if all(...)] statement does on a mapping that has the keys of
    the table. *)
Lemma append_if_all_one (d : dict) (k name : string) (a : pyval)
    (perms : list string) :
  dict_get k d = Some a ->
  Config.append_if_all (PDict d) [(k, PBool true)] name perms
  = Return (if Config.eq_table_value a (PBool true)
            then (perms ++ [name])%list else perms).
Proof.
  intros H; unfold Config.append_if_all; cbn [Config.table_tests py_getitem].
  rewrite H; cbn [obind forallb].
  now destruct (Config.eq_table_value a (PBool true)).
Qed.

(** X21.  On a mapping that has the six entries [get_v2_profile] returns a
    name and never the empty string: the names of the profiles whose entries
    all equal [True], in the order Admin, Audit, Show, Change, Use, joined
    by [ + ]; it answers [Profil Inconnu] exactly when no profile matches.
    [Use] asks for both [useAccounts] and [listAccounts]. *)
Theorem get_v2_profile_names (d : dict) (a1 a2 a3 a4 a5 a6 : pyval) :
  dict_get "manageSafeMembers" d = Some a1 ->
  dict_get "viewAuditLog" d = Some a2 ->
  dict_get "retrieveAccounts" d = Some a3 ->
  dict_get "updateAccountContent" d = Some a4 ->
  dict_get "useAccounts" d = Some a5 ->
  dict_get "listAccounts" d = Some a6 ->
  let yes a := Config.eq_table_value a (PBool true) in
  let perms :=
    filter (fun p => snd p)
      [("Admin", yes a1); ("Audit", yes a2); ("Show", yes a3);
       ("Change", yes a4); ("Use", yes a5 && yes a6)] in
  exists s,
    Config.get_v2_profile (PDict d) = Return s
    /\ s <> EmptyString
    /\ s = (if Nat.eqb (length perms) 0 then "Profil Inconnu"
            else String.concat " + " (map fst perms))
    /\ (s = "Profil Inconnu" <-> perms = []).
Proof.
  intros H1 H2 H3 H4 H5 H6 yes perms; subst perms yes.
  unfold Config.get_v2_profile, Config.V2_ADMIN, Config.V2_AUDIT, Config.V2_SHOW,
    Config.V2_CHANGE.
  rewrite (append_if_all_one d _ _ a1) by exact H1; cbn [obind].
  rewrite (append_if_all_one d _ _ a2) by exact H2; cbn [obind].
  rewrite (append_if_all_one d _ _ a3) by exact H3; cbn [obind].
  rewrite (append_if_all_one d _ _ a4) by exact H4; cbn [obind].
  unfold Config.append_if_all, Config.V2_USE; cbn [Config.table_tests py_getitem].
  rewrite H5, H6; cbn [obind forallb].
  destruct (Config.eq_table_value a1 (PBool true)),
           (Config.eq_table_value a2 (PBool true)),
           (Config.eq_table_value a3 (PBool true)),
           (Config.eq_table_value a4 (PBool true)),
           (Config.eq_table_value a5 (PBool true)),
           (Config.eq_table_value a6 (PBool true));
    eexists; (split; [reflexivity|]);
    (split; [vm_compute; discriminate|]);
    (split; [reflexivity|]);
    vm_compute; split; intros H; first [reflexivity | discriminate].
Qed.

Lemma get_v2_profile_names_witness :
  let d := [("useAccounts", PBool true); ("retrieveAccounts", PBool true);
            ("listAccounts", PBool true); ("updateAccountContent", PBool false);
            ("manageSafeMembers", PBool false); ("viewAuditLog", PInt 1)] in
  Config.get_v2_profile (PDict d) = Return "Audit + Show + Use"
  /\ exists s, Config.get_v2_profile (PDict d) = Return s /\ s <> EmptyString.
Proof.
  cbv zeta; split; [reflexivity|].
  destruct (get_v2_profile_names
              [("useAccounts", PBool true); ("retrieveAccounts", PBool true);
               ("listAccounts", PBool true); ("updateAccountContent", PBool false);
               ("manageSafeMembers", PBool false); ("viewAuditLog", PInt 1)]
              _ _ _ _ _ _ eq_refl eq_refl eq_refl eq_refl eq_refl eq_refl)
    as (s & Hs & Hne & _).
  exists s; split; [exact Hs|exact Hne].
Defined.

(** X22.  The tables of [permissions] cannot be read back by
    [get_v2_profile]: their keys are capitalised, those it looks up are
    not, and for every profile name the call raises [KeyError] on
    [manageSafeMembers]. *)
Theorem get_v2_profile_of_permissions (profile : string) :
  Config.get_v2_profile (PDict (Config.permissions profile))
  = Raise (KeyError "manageSafeMembers").
Proof.
  pose proof (permissions_cases profile) as Hc.
  generalize dependent (Config.permissions profile); intros d Hc.
  cbv [In] in Hc.
  repeat (destruct Hc as [<-|Hc]; [reflexivity|]).
  contradiction.
Qed.

(* ------------------------------------------------------------------ *)
(** ** Flattening *)

Lemma flatten_loop_cons_list (rec : list pyval -> outcome (list pyval))
    (l rest rt : list pyval) :
  Config.flatten_loop rec (PList l :: rest) rt
  = (r <~ rec l ;; Config.flatten_loop rec rest (rt ++ r)).
Proof. reflexivity. Qed.

Lemma flatten_loop_cons_other (rec : list pyval -> outcome (list pyval))
    (i : pyval) (rest rt : list pyval) :
  is_list i = false ->
  Config.flatten_loop rec (i :: rest) rt = Config.flatten_loop rec rest (rt ++ [i]).
Proof. destruct i; intros H; try discriminate; reflexivity. Qed.

(** The loop adds to [rt] and, given a recursive call that returns no list,
    adds no list. *)
Lemma flatten_loop_no_list (rec : list pyval -> outcome (list pyval)) :
  (forall l r, rec l = Return r -> forall x, In x r -> is_list x = false) ->
  forall A rt r,
    Config.flatten_loop rec A rt = Return r ->
    (forall x, In x rt -> is_list x = false) ->
    forall x, In x r -> is_list x = false.
Proof.
  intros Hrec; induction A as [|i rest IH]; intros rt r Hrun Hrt.
  - injection Hrun as <-; exact Hrt.
  - destruct (is_list i) eqn:Hi.
    + destruct i; try discriminate.
      rewrite flatten_loop_cons_list in Hrun.
      destruct (rec l) as [r1| |] eqn:Hl; cbn [obind] in Hrun; try discriminate.
      apply (IH _ _ Hrun).
      intros x Hx; apply in_app_or in Hx as [Hx|Hx]; [auto|eapply Hrec; eauto].
    + rewrite flatten_loop_cons_other in Hrun by exact Hi.
      apply (IH _ _ Hrun).
      intros x Hx; apply in_app_or in Hx as [Hx|[<-|[]]]; auto.
Qed.

Lemma flatten_no_list (depth : nat) :
  forall A r, Config.flatten depth A = Return r ->
  forall x, In x r -> is_list x = false.
Proof.
  induction depth as [|n IH]; intros A r Hrun; [discriminate|].
  cbn [Config.flatten] in Hrun.
  intros x Hx.
  eapply (flatten_loop_no_list (Config.flatten n));
    [exact IH|exact Hrun|intros y []|exact Hx].
Qed.

(** On elements that are no lists the loop appends them in order, whatever
    the recursive call would do. *)
Lemma flatten_loop_flat (rec : list pyval -> outcome (list pyval)) :
  forall A rt,
    (forall x, In x A -> is_list x = false) ->
    Config.flatten_loop rec A rt = Return (rt ++ A)%list.
Proof.
  induction A as [|i rest IH]; intros rt HA.
  - now rewrite app_nil_r.
  - rewrite flatten_loop_cons_other by (apply HA; now left).
    rewrite IH by (intros x Hx; apply HA; now right).
    now rewrite <- app_assoc.
Qed.

(** X23.  What [flatten] returns holds no list, and [flatten] leaves a list
    that holds no list as it is; so flattening twice is flattening once,
    whatever the depth the second call is allowed. *)
Theorem flatten_idempotent (depth depth' : nat) (A r : list pyval) :
  Config.flatten depth A = Return r ->
  (forall x, In x r -> is_list x = false)
  /\ Config.flatten (S depth') r = Return r
  /\ (forall B, (forall x, In x B -> is_list x = false) ->
        Config.flatten (S depth') B = Return B).
Proof.
  intros Hrun.
  assert (Hflat : forall B, (forall x, In x B -> is_list x = false) ->
                            Config.flatten (S depth') B = Return B).
  { intros B HB; cbn [Config.flatten].
    now rewrite flatten_loop_flat. }
  pose proof (flatten_no_list _ _ _ Hrun) as Hno.
  split; [exact Hno|]. split; [apply Hflat; exact Hno|exact Hflat].
Qed.

(** The loop distributes over the elements: the result is [rt] followed by
    what each element contributes. *)
Lemma flatten_loop_app (rec : list pyval -> outcome (list pyval)) :
  forall A B rt r1,
    Config.flatten_loop rec A rt = Return r1 ->
    Config.flatten_loop rec (A ++ B) rt = Config.flatten_loop rec B r1.
Proof.
  induction A as [|i rest IH]; intros B rt r1 Hrun.
  - injection Hrun as <-; reflexivity.
  - destruct (is_list i) eqn:Hi.
    + destruct i; try discriminate.
      cbn [app]; rewrite flatten_loop_cons_list in Hrun |- *.
      destruct (rec l) as [r0| |]; cbn [obind] in *; try discriminate.
      now apply IH.
    + cbn [app]; rewrite flatten_loop_cons_other in Hrun |- * by exact Hi.
      now apply IH.
Qed.

Lemma flatten_loop_shift (rec : list pyval -> outcome (list pyval)) :
  forall A rt r,
    Config.flatten_loop rec A [] = Return r ->
    Config.flatten_loop rec A rt = Return (rt ++ r)%list.
Proof.
  intros A; assert (H : forall rt0 rt r,
             Config.flatten_loop rec A rt0 = Return r ->
             Config.flatten_loop rec A (rt ++ rt0) = Return (rt ++ r)%list).
  { induction A as [|i rest IH]; intros rt0 rt r Hrun.
    - injection Hrun as <-; reflexivity.
    - destruct (is_list i) eqn:Hi.
      + destruct i; try discriminate.
        rewrite flatten_loop_cons_list in Hrun |- *.
        destruct (rec l) as [r0| |]; cbn [obind] in *; try discriminate.
        rewrite <- app_assoc; now apply IH.
      + rewrite flatten_loop_cons_other in Hrun |- * by exact Hi.
        rewrite <- app_assoc; now apply IH. }
  intros rt r Hrun; specialize (H [] rt r Hrun); now rewrite app_nil_r in H.
Qed.

(** One more level of depth changes no result. *)
Lemma flatten_loop_mono (rec1 rec2 : list pyval -> outcome (list pyval)) :
  (forall l r, rec1 l = Return r -> rec2 l = Return r) ->
  forall A rt r,
    Config.flatten_loop rec1 A rt = Return r ->
    Config.flatten_loop rec2 A rt = Return r.
Proof.
  intros Hrec; induction A as [|i rest IH]; intros rt r Hrun; [exact Hrun|].
  destruct (is_list i) eqn:Hi.
  - destruct i; try discriminate.
    rewrite flatten_loop_cons_list in Hrun |- *.
    destruct (rec1 l) as [r0| |] eqn:Hl; cbn [obind] in Hrun; try discriminate.
    rewrite (Hrec _ _ Hl); cbn [obind]; now apply IH.
  - rewrite flatten_loop_cons_other in Hrun |- * by exact Hi; now apply IH.
Qed.

Lemma flatten_mono (depth : nat) :
  forall A r, Config.flatten depth A = Return r ->
  forall depth', (depth <= depth')%nat -> Config.flatten depth' A = Return r.
Proof.
  induction depth as [|n IH]; intros A r Hrun depth' Hle; [discriminate|].
  destruct depth' as [|m]; [lia|].
  cbn [Config.flatten] in *.
  eapply flatten_loop_mono; [|exact Hrun].
  intros l r0 Hl; apply (IH _ _ Hl); lia.
Qed.

Lemma flatten_terminates_bounded (n : nat) :
  forall A, (list_sum (map size A) < n)%nat ->
  exists depth r, Config.flatten depth A = Return r.
Proof.
  induction n as [|n IHn]; intros A Hn; [lia|].
  induction A as [|i rest IHA].
  - exists 1%nat, []; reflexivity.
  - change (list_sum (map size (i :: rest)))
      with (size i + list_sum (map size rest))%nat in Hn.
    destruct IHA as (d2 & r2 & H2); [lia|].
    destruct (is_list i) eqn:Hi.
    + destruct i; try discriminate.
      change (size (PList l)) with (S (list_sum (map size l))) in Hn.
      destruct (IHn l) as (d1 & r1 & H1); [lia|].
      exists (S (Nat.max d1 d2)), (r1 ++ r2)%list.
      cbn [Config.flatten]; rewrite flatten_loop_cons_list.
      rewrite (flatten_mono _ _ _ H1) by lia; cbn [obind].
      apply flatten_loop_shift.
      apply (flatten_mono _ _ _ H2 (S (Nat.max d1 d2))); lia.
    + exists (S d2), (i :: r2).
      cbn [Config.flatten]; rewrite flatten_loop_cons_other by exact Hi.
      apply (flatten_loop_shift _ rest [i]).
      apply (flatten_mono _ _ _ H2 (S d2)); lia.
Qed.

(** X24.  [flatten] terminates: for every list there is a depth of the call
    stack from which on it returns, and always the same list. *)
Theorem flatten_terminates (A : list pyval) :
  exists depth r,
    forall depth', (depth <= depth')%nat -> Config.flatten depth' A = Return r.
Proof.
  destruct (flatten_terminates_bounded (S (list_sum (map size A))) A)
    as (d & r & H); [lia|].
  exists d, r; intros d' Hle; eapply flatten_mono; eauto.
Qed.

(** [flatten] goes through its argument from left to right: the result for
    two lists put end to end is the two results put end to end. *)
Lemma flatten_app (depth : nat) (A B rA rB : list pyval) :
  Config.flatten depth A = Return rA ->
  Config.flatten depth B = Return rB ->
  Config.flatten depth (A ++ B) = Return (rA ++ rB)%list.
Proof.
  destruct depth as [|n]; [discriminate|]; cbn [Config.flatten].
  intros HA HB.
  rewrite (flatten_loop_app _ _ _ _ _ HA).
  now apply flatten_loop_shift.
Qed.

Lemma flatten_idempotent_witness :
  let A := [PInt 1; PList [PInt 2; PList [PInt 3; PList []]]; PStr "a"] in
  let r := [PInt 1; PInt 2; PInt 3; PStr "a"] in
  Config.flatten 4 A = Return r
  /\ (forall x, In x r -> is_list x = false)
  /\ Config.flatten 1 r = Return r.
Proof.
  cbv zeta.
  assert (Hrun : Config.flatten 4
                   [PInt 1; PList [PInt 2; PList [PInt 3; PList []]]; PStr "a"]
                 = Return [PInt 1; PInt 2; PInt 3; PStr "a"]) by reflexivity.
  split; [exact Hrun|].
  destruct (flatten_idempotent 4 0 _ _ Hrun) as (H1 & H2 & _).
  split; [exact H1|exact H2].
Defined.

(* ------------------------------------------------------------------ *)
(** ** Dotted quads *)

Lemma split_dot_not_nil (s : string) : Config.split_dot s <> [].
Proof.
  destruct s as [|c s]; simpl; [discriminate|].
  destruct (Ascii.eqb c "."); [discriminate|].
  destruct (Config.split_dot s); discriminate.
Qed.

(** Joining the pieces with dots gives the string back. *)
Lemma concat_split_dot (s : string) : String.concat "." (Config.split_dot s) = s.
Proof.
  induction s as [|c s IH]; [reflexivity|].
  cbn [Config.split_dot].
  destruct (Ascii.eqb_spec c ".") as [->|Hc].
  - pose proof (split_dot_not_nil s) as Hne.
    destruct (Config.split_dot s) as [|x r] eqn:Hs; [congruence|].
    change (String.concat "." (EmptyString :: x :: r))
      with (String "." (String.concat "." (x :: r))).
    now rewrite IH.
  - pose proof (split_dot_not_nil s) as Hne.
    destruct (Config.split_dot s) as [|x r] eqn:Hs; [congruence|].
    destruct r as [|y r]; simpl in IH |- *; now rewrite IH.
Qed.

Lemma split_dot_no_dot (s : string) :
  no_dot s = true -> Config.split_dot s = [s].
Proof.
  unfold no_dot; induction s as [|c s IH]; [reflexivity|].
  cbn [list_ascii_of_string forallb Config.split_dot].
  intros H; apply andb_true_iff in H as [Hc Hs].
  apply negb_true_iff in Hc; rewrite Hc, (IH Hs); reflexivity.
Qed.

Lemma split_dot_app (a b : string) :
  no_dot a = true ->
  Config.split_dot (a ++ "." ++ b) = a :: Config.split_dot b.
Proof.
  unfold no_dot; induction a as [|c a IH]; [reflexivity|].
  cbn [list_ascii_of_string forallb].
  intros H; apply andb_true_iff in H as [Hc Ha].
  apply negb_true_iff in Hc.
  change ((String c a ++ "." ++ b)%string) with (String c (a ++ "." ++ b)).
  cbn [Config.split_dot]; rewrite Hc, (IH Ha); reflexivity.
Qed.

Lemma isdigit_no_dot (x : string) : Config.isdigit x = true -> no_dot x = true.
Proof.
  unfold Config.isdigit, no_dot; intros H; apply andb_true_iff in H as [_ H].
  induction (list_ascii_of_string x) as [|c l IH]; [reflexivity|].
  cbn [forallb] in *; apply andb_true_iff in H as [Hc Hl].
  rewrite (IH Hl), andb_true_r.
  destruct (Ascii.eqb_spec c ".") as [->|]; [discriminate|reflexivity].
Qed.

(** The loop accepts exactly the lists of octets. *)
Lemma validate_ip_loop_true (E : Env) (a : list string) :
  Config.validate_ip_loop E a = Return true <-> Forall (octet E) a.
Proof.
  induction a as [|x rest IH]; [split; [constructor|reflexivity]|].
  cbn [Config.validate_ip_loop]; unfold octet at 1.
  destruct (Config.isdigit x) eqn:Hd; cbn [negb].
  - destruct (py_int E (PStr x)) as [i| |] eqn:Hi; cbn [obind].
    + destruct (Z.ltb_spec i 0) as [Hlo|Hlo]; cbn [orb].
      * split; [discriminate|].
        intros H'; inversion H' as [|? ? (_ & n & Hn & Hr) _]; subst.
        rewrite Hi in Hn; injection Hn as <-; lia.
      * destruct (Z.ltb_spec 255 i) as [Hhi|Hhi].
        { split; [discriminate|].
          intros H'; inversion H' as [|? ? (_ & n & Hn & Hr) _]; subst.
          rewrite Hi in Hn; injection Hn as <-; lia. }
        rewrite IH; split.
        { intros Hr; constructor; [|exact Hr].
          split; [exact Hd|exists i; split; [exact Hi|lia]]. }
        intros H'; now inversion H'.
    + split; [discriminate|].
      intros H; inversion H as [|? ? (_ & n & Hn & _) _]; subst.
      rewrite Hi in Hn; discriminate.
    + split; [discriminate|].
      intros H; inversion H as [|? ? (_ & n & Hn & _) _]; subst.
      rewrite Hi in Hn; discriminate.
  - split; [discriminate|].
    intros H; inversion H as [|? ? (Hx & _) _]; subst; congruence.
Qed.

(** X25.  [validate_ip] returns [True] exactly on four octets joined by
    three dots: each field is a non-empty string of decimal digits that
    [int] reads as a number from 0 to 255, leading zeros allowed; no sign,
    space or empty field passes. *)
Theorem validate_ip_true_iff (E : Env) (s : string) :
  Config.validate_ip E s = Return true
  <-> exists a b c d,
        s = a ++ "." ++ b ++ "." ++ c ++ "." ++ d
        /\ octet E a /\ octet E b /\ octet E c /\ octet E d.
Proof.
  unfold Config.validate_ip; split.
  - intros H.
    pose proof (concat_split_dot s) as Hs.
    destruct (Config.split_dot s) as [|a [|b [|c [|d [|e r]]]]];
      cbn [length Nat.eqb negb] in H; try discriminate.
    apply validate_ip_loop_true in H.
    rewrite <- Hs; clear Hs.
    inversion H as [|? ? Ha H1]; subst.
    inversion H1 as [|? ? Hb H2]; subst.
    inversion H2 as [|? ? Hc H3]; subst.
    inversion H3 as [|? ? Hd _]; subst.
    exists a, b, c, d; split; [reflexivity|tauto].
  - intros (a & b & c & d & -> & Ha & Hb & Hc & Hd).
    rewrite !split_dot_app, (split_dot_no_dot d)
      by (apply isdigit_no_dot; first [apply Ha | apply Hb | apply Hc | apply Hd]).
    cbn [length Nat.eqb negb].
    apply validate_ip_loop_true.
    constructor; [exact Ha|]. constructor; [exact Hb|].
    constructor; [exact Hc|]. constructor; [exact Hd|constructor].
Qed.

Lemma validate_ip_true_iff_witness :
  Config.validate_ip offline_env "192.168.000.1" = Return true
  /\ Config.validate_ip offline_env "192.168.0.256" = Return false
  /\ Config.validate_ip offline_env "192.168..1" = Return false
  /\ exists a b c d,
       "192.168.000.1" = a ++ "." ++ b ++ "." ++ c ++ "." ++ d
       /\ octet offline_env a /\ octet offline_env b
       /\ octet offline_env c /\ octet offline_env d.
Proof.
  split; [reflexivity|]. split; [reflexivity|]. split; [reflexivity|].
  exact (proj1 (validate_ip_true_iff offline_env "192.168.000.1") eq_refl).
Defined.

(* ------------------------------------------------------------------ *)
(** ** The methods of [Config] *)

Lemma cfg_bind_return {A B} (m : Config.M A) (k : A -> Config.M B)
    (self self' : Config.t) (b : B) :
  Config.bind m k self = (Return b, self') ->
  exists a self1, m self = (Return a, self1) /\ k a self1 = (Return b, self').
Proof.
  unfold Config.bind; destruct (m self) as [[a| |] self1]; try discriminate.
  intros H; exists a, self1; auto.
Qed.

Lemma cfg_lift_return {A} (r : outcome A) (self self' : Config.t) (a : A) :
  Config.lift r self = (Return a, self') -> r = Return a /\ self' = self.
Proof. unfold Config.lift; intros H; injection H as -> ->; auto. Qed.

Section ConfigMethods.

Variable E : Env.

(** X26.  [_to_bool] never changes the object and returns a boolean in two
    cases only: the value is that boolean, or it is a string that reads, in
    any case, [y], [yes], [true], [on] for [True] and [n], [no], [false],
    [off] for [False].  Anything else, the integers 0 and 1 included, raises
    [AiobastionConfigurationException]. *)
Theorem to_bool_returns (section_key : string) (val : pyval) (self : Config.t) :
  snd (Config._to_bool E section_key val self) = self
  /\ (forall b,
        fst (Config._to_bool E section_key val self) = Return b
        <-> val = PBool b
            \/ exists s, val = PStr s
                 /\ mem_str (lower s)
                      (if b then ["y"; "yes"; "true"; "on"]
                       else ["n"; "no"; "false"; "off"]) = true)
  /\ ((forall b, fst (Config._to_bool E section_key val self) <> Return b) ->
      exists msg, fst (Config._to_bool E section_key val self)
                  = Raise (AiobastionConfigurationException msg)).
Proof.
  assert (Hdisj : forall x, mem_str x ["y"; "yes"; "true"; "on"] = true ->
                            mem_str x ["n"; "no"; "false"; "off"] = false).
  { intros x Hx; apply mem_str_In in Hx; simpl in Hx.
    destruct Hx as [<-|[<-|[<-|[<-|[]]]]]; reflexivity. }
  unfold Config._to_bool.
  destruct val as [|b0|n|s|l|d]; cbn [fst snd];
    try (split; [reflexivity|split;
           [intros b; split; [discriminate|
              intros [H|(s0 & H & _)]; discriminate]
           |intros _; eexists; reflexivity]]).
  - split; [reflexivity|]. split.
    + intros b; split.
      * intros H; injection H as ->; now left.
      * intros [H|(s0 & H & _)]; [injection H as ->; reflexivity|discriminate].
    + intros H; exfalso; apply (H b0); reflexivity.
  - destruct (mem_str (lower s) ["y"; "yes"; "true"; "on"]) eqn:Hy;
      [|destruct (mem_str (lower s) ["n"; "no"; "false"; "off"]) eqn:Hn];
      cbn [fst snd]; (split; [reflexivity|]); split.
    + intros b; split.
      * intros H; injection H as <-; right; exists s; auto.
      * intros [H|(s0 & H & Hm)]; [discriminate|].
        injection H as <-; destruct b; [reflexivity|].
        rewrite (Hdisj _ Hy) in Hm; discriminate.
    + intros H; exfalso; apply (H true); reflexivity.
    + intros b; split.
      * intros H; injection H as <-; right; exists s; auto.
      * intros [H|(s0 & H & Hm)]; [discriminate|].
        injection H as <-; destruct b; [congruence|reflexivity].
    + intros H; exfalso; apply (H false); reflexivity.
    + intros b; split; [discriminate|].
      intros [H|(s0 & H & Hm)]; [discriminate|].
      injection H as <-; destruct b; congruence.
    + intros _; eexists; reflexivity.
Qed.


Lemma to_integer_state (section_key : string) (val : pyval) (self self' : Config.t)
    (r : outcome Z) :
  Config._to_integer E section_key val self = (r, self') -> self' = self.
Proof.
  unfold Config._to_integer.
  destruct (py_int E val) as [v|e|]; [| destruct (is_ValueError e) |];
    intros H; now injection H as _ <-.
Qed.

Lemma to_bool_state (section_key : string) (val : pyval) (self self' : Config.t)
    (r : outcome bool) :
  Config._to_bool E section_key val self = (r, self') -> self' = self.
Proof.
  unfold Config._to_bool.
  destruct val as [|b|n|s|l|d]; try (intros H; now injection H as _ <-).
  destruct (mem_str (lower s) ["y"; "yes"; "true"; "on"]);
    [|destruct (mem_str (lower s) ["n"; "no"; "false"; "off"])];
    intros H; now injection H as _ <-.
Qed.

(** [self.attr = configuration[k]], then the rest. *)
Lemma assign_step {B} (r : outcome pyval) (f : pyval -> Config.t -> Config.t)
    (K : Config.M B) (self self' : Config.t) (x : B) :
  Config.bind (Config.lift r)
    (fun v => Config.bind (Config.modify_self (f v)) (fun _ => K)) self
  = (Return x, self') ->
  exists v, r = Return v /\ K (f v self) = (Return x, self').
Proof.
  intros H; apply cfg_bind_return in H as (v & self1 & H1 & H).
  apply cfg_lift_return in H1 as [-> ->].
  apply cfg_bind_return in H as (u & self2 & H2 & H).
  unfold Config.modify_self in H2; injection H2 as _ <-.
  exists v; auto.
Qed.

(** [self.attr = self._to_integer(key, configuration[k])], then the rest. *)
Lemma assign_integer_step {B} (r : outcome pyval) (key : string)
    (f : pyval -> Config.t -> Config.t)
    (K : Config.M B) (self self' : Config.t) (x : B) :
  Config.bind (Config.lift r)
    (fun v => Config.bind (Config._to_integer E key v)
       (fun n => Config.bind (Config.modify_self (f (PInt n))) (fun _ => K))) self
  = (Return x, self') ->
  exists n, K (f (PInt n) self) = (Return x, self').
Proof.
  intros H; apply cfg_bind_return in H as (v & self1 & H1 & H).
  apply cfg_lift_return in H1 as [-> ->].
  apply cfg_bind_return in H as (n & self2 & H2 & H).
  apply to_integer_state in H2 as ->.
  apply cfg_bind_return in H as (u & self3 & H3 & H).
  unfold Config.modify_self in H3; injection H3 as _ <-.
  exists n; auto.
Qed.

(** [self.attr = self._to_bool(key, configuration[k])], then the rest. *)
Lemma assign_bool_step {B} (r : outcome pyval) (key : string)
    (f : pyval -> Config.t -> Config.t)
    (K : Config.M B) (self self' : Config.t) (x : B) :
  Config.bind (Config.lift r)
    (fun v => Config.bind (Config._to_bool E key v)
       (fun b => Config.bind (Config.modify_self (f (PBool b))) (fun _ => K))) self
  = (Return x, self') ->
  exists b, K (f (PBool b) self) = (Return x, self').
Proof.
  intros H; apply cfg_bind_return in H as (v & self1 & H1 & H).
  apply cfg_lift_return in H1 as [-> ->].
  apply cfg_bind_return in H as (n & self2 & H2 & H).
  apply to_bool_state in H2 as ->.
  apply cfg_bind_return in H as (u & self3 & H3 & H).
  unfold Config.modify_self in H3; injection H3 as _ <-.
  exists n; auto.
Qed.

Lemma raise_not_return {A B} (m : Config.M A) (e : A -> exn)
    (self self' : Config.t) (x : B) :
  Config.bind m (fun a => Config.raise (e a)) self <> (Return x, self').
Proof.
  unfold Config.bind, Config.raise; destruct (m self) as [[a| |] self1]; discriminate.
Qed.

Lemma pvwa_update_refl (o : Config.t) : pvwa_update o o.
Proof. unfold pvwa_update; repeat split; auto. Qed.

Lemma pvwa_update_trans (o1 o2 o3 : Config.t) :
  pvwa_update o1 o2 -> pvwa_update o2 o3 -> pvwa_update o1 o3.
Proof.
  unfold pvwa_update.
  intros (a1 & a2 & a3 & a4 & a5 & a6 & a7 & a8 & a9 & a10 & a11 & a12 & a13
          & a14 & a15 & a16 & a17 & a18)
         (b1 & b2 & b3 & b4 & b5 & b6 & b7 & b8 & b9 & b10 & b11 & b12 & b13
          & b14 & b15 & b16 & b17 & b18).
  repeat match goal with |- _ /\ _ => split end; try congruence.
  - destruct b16 as [b16|b16]; [rewrite b16; exact a16|now right].
  - destruct b17 as [b17|b17]; [rewrite b17; exact a17|now right].
  - destruct b18 as [b18|b18]; [rewrite b18; exact a18|now right].
Qed.

(** One turn of the loop of [_read_section_pvwa] that does not raise. *)
Lemma read_section_pvwa_loop_step (k : string) (rest : list string)
    (configuration : pyval) (sv sm : nat) (self self' : Config.t) (r : nat * nat) :
  Config.read_section_pvwa_loop E (k :: rest) configuration sv sm self
  = (Return r, self') ->
  pvwa_attribute k = true
  /\ exists self1,
       Config.read_section_pvwa_loop E rest configuration
         (sv + (if mem_str (lower k) ["verify"; "ca"] then 1 else 0))
         (sm + (if mem_str (lower k) ["maxtasks"; "max_concurrent_tasks"]
                then 1 else 0)) self1
       = (Return r, self')
       /\ pvwa_update self self1.
Proof.
  cbn [Config.read_section_pvwa_loop]; unfold pvwa_attribute.
  destruct (String.eqb_spec (lower k) "host") as [Hk|N1].
  { rewrite Hk; intros H; apply assign_step in H as (v & _ & H).
    split; [reflexivity|]; exists (Config.set_PVWA v self).
    cbn [mem_str existsb String.eqb Ascii.eqb Bool.eqb orb]; rewrite !Nat.add_0_r.
    split; [exact H|unfold pvwa_update; cbn; repeat split; auto]. }
  destruct (String.eqb_spec (lower k) "timeout") as [Hk|N2].
  { rewrite Hk; intros H; apply assign_integer_step in H as (n & H).
    split; [reflexivity|]; exists (Config.set_timeout (PInt n) self).
    cbn [mem_str existsb String.eqb Ascii.eqb Bool.eqb orb]; rewrite !Nat.add_0_r.
    split; [exact H|unfold pvwa_update; cbn; repeat split; eauto]. }
  destruct (String.eqb_spec (lower k) "maxtasks") as [Hk|N3].
  { rewrite Hk; cbn [orb]; intros H; apply assign_integer_step in H as (n & H).
    split; [reflexivity|]; exists (Config.set_max_concurrent_tasks (PInt n) self).
    cbn [mem_str existsb String.eqb Ascii.eqb Bool.eqb orb].
    rewrite Nat.add_0_r, Nat.add_1_r.
    split; [exact H|unfold pvwa_update; cbn; repeat split; eauto]. }
  destruct (String.eqb_spec (lower k) "max_concurrent_tasks") as [Hk|N4].
  { rewrite Hk; cbn [orb]; intros H; apply assign_integer_step in H as (n & H).
    split; [reflexivity|]; exists (Config.set_max_concurrent_tasks (PInt n) self).
    cbn [mem_str existsb String.eqb Ascii.eqb Bool.eqb orb].
    rewrite Nat.add_0_r, Nat.add_1_r.
    split; [exact H|unfold pvwa_update; cbn; repeat split; eauto]. }
  cbn [orb].
  destruct (String.eqb_spec (lower k) "keep_cookies") as [Hk|N5].
  { rewrite Hk; intros H; apply assign_bool_step in H as (b & H).
    split; [reflexivity|]; exists (Config.set_keep_cookies (PBool b) self).
    cbn [mem_str existsb String.eqb Ascii.eqb Bool.eqb orb]; rewrite !Nat.add_0_r.
    split; [exact H|unfold pvwa_update; cbn; repeat split; eauto]. }
  destruct (String.eqb_spec (lower k) "verify") as [Hk|N6].
  { rewrite Hk; cbn [orb]; intros H; apply assign_step in H as (v & _ & H).
    split; [reflexivity|]; exists (Config.set_PVWA_CA v self).
    cbn [mem_str existsb String.eqb Ascii.eqb Bool.eqb orb].
    rewrite Nat.add_0_r, Nat.add_1_r.
    split; [exact H|unfold pvwa_update; cbn; repeat split; auto]. }
  destruct (String.eqb_spec (lower k) "ca") as [Hk|N7].
  { rewrite Hk; cbn [orb]; intros H; apply assign_step in H as (v & _ & H).
    split; [reflexivity|]; exists (Config.set_PVWA_CA v self).
    cbn [mem_str existsb String.eqb Ascii.eqb Bool.eqb orb].
    rewrite Nat.add_0_r, Nat.add_1_r.
    split; [exact H|unfold pvwa_update; cbn; repeat split; auto]. }
  cbn [orb]; intros H; exfalso; revert H; apply raise_not_return.
Qed.

Lemma read_section_pvwa_loop_spec (configuration : pyval) (ks : list string) :
  forall (sv sm : nat) (self self' : Config.t) (sv' sm' : nat),
  Config.read_section_pvwa_loop E ks configuration sv sm self
  = (Return (sv', sm'), self') ->
  forallb pvwa_attribute ks = true
  /\ sv' = (sv + length (filter (fun k => mem_str (lower k) ["verify"; "ca"]) ks))%nat
  /\ sm' = (sm + length (filter (fun k => mem_str (lower k)
                                            ["maxtasks"; "max_concurrent_tasks"]) ks))%nat
  /\ pvwa_update self self'.
Proof.
  induction ks as [|k rest IH]; intros sv sm self self' sv' sm' Hrun.
  - cbn in Hrun; injection Hrun as <- <- <-.
    cbn; rewrite !Nat.add_0_r; repeat split; auto; apply pvwa_update_refl.
  - apply read_section_pvwa_loop_step in Hrun as (Hk & self1 & Hrest & Hup).
    apply IH in Hrest as (Hall & -> & -> & Hup').
    cbn [forallb filter]; rewrite Hk, Hall.
    split; [reflexivity|].
    split; [destruct (mem_str (lower k) ["verify"; "ca"]); cbn [length]; lia|].
    split; [destruct (mem_str (lower k) ["maxtasks"; "max_concurrent_tasks"]);
            cbn [length]; lia|].
    eapply pvwa_update_trans; eauto.
Qed.

Lemma count_keys_keys (names : list string) (d : dict) :
  count_keys names d
  = length (filter (fun k => mem_str (lower k) names) (keys d)).
Proof.
  unfold count_keys, keys; induction d as [|[k v] d IH]; [reflexivity|].
  cbn [filter map fst]; destruct (mem_str (lower k) names); cbn [length]; now rewrite IH.
Qed.

(** A call of [_read_section_pvwa] that returns: the loop returned, with
    both counters at most one. *)
Lemma read_section_pvwa_inv
    (configuration : pyval) (self self' : Config.t) (u : unit) :
  Config._read_section_pvwa E configuration self = (Return u, self') ->
  exists d sv sm,
    configuration = PDict d
    /\ Config.read_section_pvwa_loop E (keys d) configuration 0 0 self
       = (Return (sv, sm), self')
    /\ (sv <= 1)%nat /\ (sm <= 1)%nat.
Proof.
  unfold Config._read_section_pvwa; intros H.
  apply cfg_bind_return in H as (ks & self1 & H1 & H).
  apply cfg_lift_return in H1 as [Hks ->].
  destruct configuration as [| | | | |d]; try discriminate.
  injection Hks as <-.
  apply cfg_bind_return in H as ([sv sm] & self2 & Hloop & H).
  apply cfg_bind_return in H as (o & self3 & Hget & H).
  unfold Config.get_self in Hget; injection Hget as <- <-.
  destruct (Nat.ltb_spec 1 sv) as [|Hv]; [discriminate|].
  destruct (Nat.ltb_spec 1 sm) as [|Hm]; [discriminate|].
  unfold Config.ret in H; injection H as _ <-.
  exists d, sv, sm; auto.
Qed.

(** X27.  When [_read_section_pvwa] returns, the section was a mapping whose
    keys are all, up to case, among [host], [timeout], [maxtasks],
    [max_concurrent_tasks], [keep_cookies], [verify] and [ca], with at most
    one key for the verify policy and at most one for the concurrency; and
    the object differs from the one before in the five PVWA attributes only,
    the timeout and the concurrency changed to an integer if at all, the
    cookie flag to a boolean. *)
Theorem read_section_pvwa_returns
    (configuration : pyval) (self self' : Config.t) (u : unit) :
  Config._read_section_pvwa E configuration self = (Return u, self') ->
  exists d,
    configuration = PDict d
    /\ forallb pvwa_attribute (keys d) = true
    /\ (count_keys ["verify"; "ca"] d <= 1)%nat
    /\ (count_keys ["maxtasks"; "max_concurrent_tasks"] d <= 1)%nat
    /\ pvwa_update self self'.
Proof.
  intros H.
  apply read_section_pvwa_inv in H as (d & sv & sm & -> & Hloop & Hv & Hm).
  apply read_section_pvwa_loop_spec in Hloop as (Hall & -> & -> & Hup).
  exists d; rewrite !count_keys_keys.
  split; [reflexivity|]. split; [exact Hall|].
  split; [exact Hv|]. split; [exact Hm|exact Hup].
Qed.


Lemma connection_update_refl (o : Config.t) : connection_update o o.
Proof. unfold connection_update; repeat split; auto. Qed.

Lemma connection_update_trans (o1 o2 o3 : Config.t) :
  connection_update o1 o2 -> connection_update o2 o3 -> connection_update o1 o3.
Proof.
  unfold connection_update.
  intros (a1 & a2 & a3 & a4 & a5 & a6 & a7 & a8 & a9 & a10 & a11 & a12 & a13
          & a14 & a15)
         (b1 & b2 & b3 & b4 & b5 & b6 & b7 & b8 & b9 & b10 & b11 & b12 & b13
          & b14 & b15).
  repeat match goal with |- _ /\ _ => split end; congruence.
Qed.

(** One turn of the first loop of [_read_section_connection] that does not
    raise. *)
Lemma read_section_connection_loop_step (k : string) (rest : list string)
    (configuration : pyval) (self self' : Config.t) (u : unit) :
  Config.read_section_connection_loop E (k :: rest) configuration self
  = (Return u, self') ->
  connection_attribute k = true
  /\ exists self1,
       Config.read_section_connection_loop E rest configuration self1
       = (Return u, self')
       /\ connection_update self self1.
Proof.
  cbn [Config.read_section_connection_loop]; unfold connection_attribute.
  destruct (String.eqb_spec (lower k) "appid") as [Hk|N1].
  { rewrite Hk; intros H; apply assign_step in H as (v & _ & H).
    split; [reflexivity|]; exists (Config.set_appid v self).
    split; [exact H|unfold connection_update; cbn; repeat split; auto]. }
  destruct (String.eqb_spec (lower k) "authtype") as [Hk|N2].
  { rewrite Hk; intros H; apply assign_step in H as (v & _ & H).
    split; [reflexivity|]; exists (Config.set_authtype v self).
    split; [exact H|unfold connection_update; cbn; repeat split; auto]. }
  destruct (String.eqb_spec (lower k) "password") as [Hk|N3].
  { rewrite Hk; intros H; apply assign_step in H as (v & _ & H).
    split; [reflexivity|]; exists (Config.set_password v self).
    split; [exact H|unfold connection_update; cbn; repeat split; auto]. }
  destruct (String.eqb_spec (lower k) "user_search") as [Hk|N4].
  { rewrite Hk; intros H; apply assign_step in H as (v & _ & H).
    split; [reflexivity|]; exists (Config.set_user_search v self).
    split; [exact H|unfold connection_update; cbn; repeat split; auto]. }
  destruct (String.eqb_spec (lower k) "username") as [Hk|N5].
  { rewrite Hk; intros H; apply assign_step in H as (v & _ & H).
    split; [reflexivity|]; exists (Config.set_username v self).
    split; [exact H|unfold connection_update; cbn; repeat split; auto]. }
  intros H; exfalso; revert H; apply raise_not_return.
Qed.

Lemma read_section_connection_loop_spec (configuration : pyval) (ks : list string) :
  forall (self self' : Config.t) (u : unit),
  Config.read_section_connection_loop E ks configuration self = (Return u, self') ->
  forallb connection_attribute ks = true /\ connection_update self self'.
Proof.
  induction ks as [|k rest IH]; intros self self' u Hrun.
  - cbn in Hrun; injection Hrun as _ <-.
    split; [reflexivity|apply connection_update_refl].
  - apply read_section_connection_loop_step in Hrun as (Hk & self1 & Hrest & Hup).
    apply IH in Hrest as (Hall & Hup').
    cbn [forallb]; rewrite Hk, Hall; split; [reflexivity|].
    eapply connection_update_trans; eauto.
Qed.

(** What the loop over [user_search] keeps true: a key still in the
    dictionary is one still to visit or a member of the allow-list. *)
Lemma user_search_loop_spec (configfile : pyval) (ks : list string) :
  forall (d d' : dict) (u : unit),
  Config.user_search_loop E ks d configfile = (Return u, d') ->
  (forall k, In k (keys d) -> In k ks \/ In k _GETPASSWORD_REQUEST_PARM) ->
  forall k, In k (keys d') -> In k _GETPASSWORD_REQUEST_PARM.
Proof.
  induction ks as [|k0 rest IH]; intros d d' u Hrun Hinv.
  - cbn in Hrun; injection Hrun as _ <-.
    intros k Hk; destruct (Hinv k Hk) as [[]|H]; exact H.
  - cbn [Config.user_search_loop] in Hrun.
    destruct (mem_str (lower k0) _GETPASSWORD_REQUEST_PARM) eqn:Hallow;
      cbn [negb] in Hrun; [|discriminate].
    apply mem_str_In in Hallow.
    destruct (String.eqb_spec k0 (lower k0)) as [Heq|Hne]; cbn [negb] in Hrun.
    + apply (IH _ _ _ Hrun).
      intros k Hk; destruct (Hinv k Hk) as [[<-|Hin]|Hin]; auto.
      right; rewrite Heq; exact Hallow.
    + destruct (dict_get k0 d) as [v|] eqn:Hget; [|discriminate].
      apply (IH _ _ _ Hrun).
      intros k Hk; apply keys_dict_setitem in Hk as [->|Hk]; [now right|].
      apply keys_dict_remove in Hk as [Hk Hkne].
      destruct (Hinv k Hk) as [[<-|Hin]|Hin]; [congruence|now left|now right].
Qed.

(** A call of [_read_section_connection] that returns: the first loop
    returned on [self1], and either [user_search] is empty there or it is a
    dictionary on which the second loop returned. *)
Lemma read_section_connection_inv
    (configuration : pyval) (self self' : Config.t) (u : unit) :
  Config._read_section_connection E configuration self = (Return u, self') ->
  exists d self1,
    configuration = PDict d
    /\ Config.read_section_connection_loop E (keys d) configuration self
       = (Return tt, self1)
    /\ ((truthy (Config.user_search self1) = false /\ self' = self1)
        \/ exists us us',
             Config.user_search self1 = PDict us
             /\ Config.user_search_loop E (keys us) us (Config.configfile self1)
                = (Return u, us')
             /\ self' = Config.set_user_search (PDict us') self1).
Proof.
  unfold Config._read_section_connection; intros H.
  apply cfg_bind_return in H as (ks & self1 & H1 & H).
  apply cfg_lift_return in H1 as [Hks ->].
  destruct configuration as [| | | | |d]; try discriminate.
  injection Hks as <-.
  apply cfg_bind_return in H as ([] & self2 & Hloop & H).
  apply cfg_bind_return in H as (o & self3 & Hget & H).
  unfold Config.get_self in Hget; injection Hget as <- <-.
  exists d, self2; split; [reflexivity|]. split; [exact Hloop|].
  destruct (truthy (Config.user_search self2)) eqn:Ht.
  - right.
    destruct (Config.user_search self2) as [| | | | |us] eqn:Hus;
      try (exfalso; revert H; unfold Config.raise; discriminate).
    destruct (Config.user_search_loop E (keys us) us (Config.configfile self2))
      as [r us'] eqn:Hl.
    injection H as -> <-.
    exists us, us'; auto.
  - left; unfold Config.ret in H; injection H as _ <-; auto.
Qed.

Lemma read_section_connection_update
    (configuration : pyval) (self self' : Config.t) (u : unit) :
  Config._read_section_connection E configuration self = (Return u, self') ->
  connection_update self self'.
Proof.
  intros H.
  apply read_section_connection_inv in H as (d & self1 & -> & Hloop & Hus).
  apply read_section_connection_loop_spec in Hloop as (_ & Hup).
  destruct Hus as [[_ ->]|(us & us' & _ & _ & ->)]; [exact Hup|].
  eapply connection_update_trans; [exact Hup|].
  unfold connection_update; cbn; repeat split; auto.
Qed.

(** X28.  When [_read_section_connection] returns, the section was a mapping
    whose keys are all, up to case, among [appid], [authtype], [password],
    [user_search] and [username]; the object differs from the one before in
    these five attributes only; and [user_search] is empty or a dictionary
    whose keys all belong to the allow-list of the AIM request parameters,
    whether the section set it or not. *)
Theorem read_section_connection_returns
    (configuration : pyval) (self self' : Config.t) (u : unit) :
  Config._read_section_connection E configuration self = (Return u, self') ->
  exists d,
    configuration = PDict d
    /\ forallb connection_attribute (keys d) = true
    /\ connection_update self self'
    /\ (truthy (Config.user_search self') = true ->
        exists us, Config.user_search self' = PDict us)
    /\ (forall us, Config.user_search self' = PDict us ->
        forall k, In k (keys us) -> In k _GETPASSWORD_REQUEST_PARM).
Proof.
  intros H.
  pose proof (read_section_connection_update _ _ _ _ H) as Hup.
  apply read_section_connection_inv in H as (d & self1 & -> & Hloop & Hus).
  apply read_section_connection_loop_spec in Hloop as (Hall & _).
  exists d; split; [reflexivity|]. split; [exact Hall|]. split; [exact Hup|].
  destruct Hus as [[Ht ->]|(us & us' & Hus & Hl & ->)].
  - split; [congruence|].
    intros us Hus; rewrite Hus in Ht; destruct us; [intros k []|discriminate].
  - cbn [Config.user_search Config.set_user_search].
    split; [intros _; eexists; reflexivity|].
    intros us0 Hus0; injection Hus0 as <-.
    eapply user_search_loop_spec; [exact Hl|].
    intros k Hk; now left.
Qed.

(* ------------------------------------------------------------------ *)
(** ** The attribute [options_modules] *)

Lemma get_options_modules_none (self : Config.t) :
  Config.options_modules self = None ->
  Config.get_options_modules self
  = (Raise (AttributeError "'Config' object has no attribute 'options_modules'"),
     self).
Proof. unfold Config.get_options_modules; now intros ->. Qed.

Lemma store_module_none (module : string) (v : pyval) (self : Config.t) :
  Config.options_modules self = None ->
  Config.store_module module v self
  = (Raise (AttributeError "'Config' object has no attribute 'options_modules'"),
     self).
Proof.
  intros H; unfold Config.store_module, Config.bind.
  now rewrite get_options_modules_none.
Qed.

Lemma store_option_none (module k : string) (v : pyval) (self : Config.t) :
  Config.options_modules self = None ->
  Config.store_option module k v self
  = (Raise (AttributeError "'Config' object has no attribute 'options_modules'"),
     self).
Proof.
  intros H; unfold Config.store_option, Config.bind.
  now rewrite get_options_modules_none.
Qed.

(** A validated AIM section has an [appid] entry. *)
Lemma init_validate_class_attributes_appid
    (d : dict) (section : string) (configfile : pyval) (aim : dict) :
  _init_validate_class_attributes E d section configfile = Return aim ->
  exists a, dict_get "appid" aim = Some a.
Proof.
  intros Hval.
  apply init_validate_class_attributes_inv in Hval as (sv & sm & Hloop & _ & _).
  apply validate_class_attributes_loop_spec in Hloop
    as (_ & _ & _ & (extra & Hkeys & _) & _); [|intros k Hk; exact Hk].
  apply dict_get_in; cbn [keys map fst] in Hkeys; rewrite Hkeys.
  apply in_or_app; left; simpl; tauto.
Qed.

Lemma read_section_aim_none (configuration : pyval) (self : Config.t) :
  Config.options_modules self = None ->
  (forall v self', Config._read_section_aim E configuration self <> (Return v, self'))
  /\ (forall d aim,
        configuration = PDict d ->
        _init_validate_class_attributes E d "AIM" (Config.configfile self)
        = Return aim ->
        Config._read_section_aim E configuration self
        = (Raise (AttributeError
                    "'Config' object has no attribute 'options_modules'"),
           Config.set_AIM (PDict aim) self)).
Proof.
  intros Hnone.
  assert (Hrun : forall d aim,
             configuration = PDict d ->
             _init_validate_class_attributes E d "AIM" (Config.configfile self)
             = Return aim ->
             Config._read_section_aim E configuration self
             = (Raise (AttributeError
                         "'Config' object has no attribute 'options_modules'"),
                Config.set_AIM (PDict aim) self)).
  { intros d aim -> Hval.
    destruct (init_validate_class_attributes_appid _ _ _ _ Hval) as [a Ha].
    unfold Config._read_section_aim, Config.bind, Config.get_self, Config.lift,
      Config.modify_self.
    rewrite Hval; cbn [Config.AIM Config.set_AIM py_getitem].
    rewrite Ha.
    rewrite get_options_modules_none by exact Hnone.
    reflexivity. }
  split; [|exact Hrun].
  intros v self' H.
  destruct configuration as [| | | | |d];
    try (unfold Config._read_section_aim, Config.bind, Config.get_self,
           Config.lift in H; discriminate).
  destruct (_init_validate_class_attributes E d "AIM" (Config.configfile self))
    as [aim|e|] eqn:Hval.
  - rewrite (Hrun d aim eq_refl Hval) in H; discriminate.
  - unfold Config._read_section_aim, Config.bind, Config.get_self,
      Config.lift in H; rewrite Hval in H; discriminate.
  - unfold Config._read_section_aim, Config.bind, Config.get_self,
      Config.lift in H; rewrite Hval in H; discriminate.
Qed.

(** X29.  The section readers that store into [self.options_modules], on an
    object that has no such attribute, as every object under construction:
    [_read_section_aim] never returns, and when the section is valid it
    raises [AttributeError] after it has stored the validated section in
    [self.AIM]; [_read_section_account] and [_read_section_safe] return on
    an empty section only, and then change nothing. *)
Theorem section_readers_need_options_modules
    (module : string) (configuration : pyval) (self : Config.t) :
  Config.options_modules self = None ->
  (forall v self', Config._read_section_aim E configuration self <> (Return v, self'))
  /\ (forall d aim,
        configuration = PDict d ->
        _init_validate_class_attributes E d "AIM" (Config.configfile self)
        = Return aim ->
        Config._read_section_aim E configuration self
        = (Raise (AttributeError
                    "'Config' object has no attribute 'options_modules'"),
           Config.set_AIM (PDict aim) self))
  /\ (forall u self',
        Config._read_section_account E module configuration self = (Return u, self') ->
        configuration = PDict [] /\ self' = self)
  /\ (forall u self',
        Config._read_section_safe E module configuration self = (Return u, self') ->
        configuration = PDict [] /\ self' = self).
Proof.
  intros Hnone.
  destruct (read_section_aim_none configuration self Hnone) as [Ha Hb].
  split; [exact Ha|]. split; [exact Hb|]. split.
  - intros u self' H; unfold Config._read_section_account in H.
    apply cfg_bind_return in H as (ks & self1 & H1 & H).
    apply cfg_lift_return in H1 as [Hks ->].
    destruct configuration as [| | | | |d]; try discriminate.
    injection Hks as <-.
    destruct d as [|[k v] d].
    { cbn in H; injection H as _ <-; auto. }
    exfalso; revert H.
    change (keys ((k, v) :: d)) with (k :: keys d).
    cbn [Config.read_section_account_loop].
    destruct (String.eqb (lower k) "logon_account_index");
      [|destruct (String.eqb (lower k) "reconcile_account_index")].
    + unfold Config.bind at 1, Config.lift.
      destruct (py_getitem (PDict ((k, v) :: d)) k) as [v0| |]; try discriminate.
      unfold Config.bind at 1.
      destruct (Config._to_integer E (module ++ "/" ++ k) v0 self)
        as [[n| |] self1] eqn:Hn; try discriminate.
      apply to_integer_state in Hn as ->.
      unfold Config.bind; now rewrite store_option_none.
    + unfold Config.bind at 1, Config.lift.
      destruct (py_getitem (PDict ((k, v) :: d)) k) as [v0| |]; try discriminate.
      unfold Config.bind at 1.
      destruct (Config._to_integer E (module ++ "/" ++ k) v0 self)
        as [[n| |] self1] eqn:Hn; try discriminate.
      apply to_integer_state in Hn as ->.
      unfold Config.bind; now rewrite store_option_none.
    + apply raise_not_return.
  - intros u self' H; unfold Config._read_section_safe in H.
    apply cfg_bind_return in H as (ks & self1 & H1 & H).
    apply cfg_lift_return in H1 as [Hks ->].
    destruct configuration as [| | | | |d]; try discriminate.
    injection Hks as <-.
    destruct d as [|[k v] d].
    { cbn in H; injection H as _ <-; auto. }
    exfalso; revert H.
    change (keys ((k, v) :: d)) with (k :: keys d).
    cbn [Config.read_section_safe_loop].
    destruct (String.eqb (lower k) "cpm");
      [|destruct (String.eqb (lower k) "retention")].
    + unfold Config.bind at 1, Config.lift.
      destruct (py_getitem (PDict ((k, v) :: d)) k) as [v0| |]; try discriminate.
      unfold Config.bind; now rewrite store_option_none.
    + unfold Config.bind at 1, Config.lift.
      destruct (py_getitem (PDict ((k, v) :: d)) k) as [v0| |]; try discriminate.
      unfold Config.bind at 1.
      destruct (Config._to_integer E (module ++ "/" ++ k) v0 self)
        as [[n| |] self1] eqn:Hn; try discriminate.
      apply to_integer_state in Hn as ->.
      unfold Config.bind; now rewrite store_option_none.
    + apply raise_not_return.
Qed.


(* ------------------------------------------------------------------ *)
(** ** The constructor *)

Lemma keeps_none_ret {A} (a : A) : keeps_none (Config.ret a).
Proof. intros self a0 self' H; unfold Config.ret in H; now injection H as _ <-. Qed.

Lemma keeps_none_lift {A} (r : outcome A) : keeps_none (Config.lift r).
Proof. intros self a0 self' H; unfold Config.lift in H; now injection H as _ <-. Qed.

Lemma keeps_none_raise {A} (e : exn) : keeps_none (@Config.raise A e).
Proof. intros self a0 self' H; discriminate. Qed.

Lemma keeps_none_get_self : keeps_none Config.get_self.
Proof.
  intros self a0 self' H; unfold Config.get_self in H; now injection H as _ <-.
Qed.

Lemma keeps_none_modify_self (f : Config.t -> Config.t) :
  (forall o, Config.options_modules (f o) = Config.options_modules o) ->
  keeps_none (Config.modify_self f).
Proof.
  intros Hf self a0 self' H Hnone; unfold Config.modify_self in H.
  injection H as _ <-; now rewrite Hf.
Qed.

Lemma keeps_none_bind {A B} (m : Config.M A) (k : A -> Config.M B) :
  keeps_none m -> (forall a, keeps_none (k a)) -> keeps_none (Config.bind m k).
Proof.
  intros Hm Hk self b self' H Hnone.
  apply cfg_bind_return in H as (a & self1 & H1 & H2).
  eapply Hk; [exact H2|]. eapply Hm; eauto.
Qed.

Lemma keeps_none_needs {A} (m : Config.M A) :
  needs_options_modules m -> keeps_none m.
Proof. intros Hm self a self' H Hnone; exfalso; eapply Hm; eauto. Qed.

Lemma needs_bind_left {A B} (m : Config.M A) (k : A -> Config.M B) :
  needs_options_modules m -> needs_options_modules (Config.bind m k).
Proof.
  intros Hm self b self' Hnone H.
  apply cfg_bind_return in H as (a & self1 & H1 & _).
  eapply Hm; eauto.
Qed.

Lemma needs_bind_right {A B} (m : Config.M A) (k : A -> Config.M B) :
  keeps_none m -> (forall a, needs_options_modules (k a)) ->
  needs_options_modules (Config.bind m k).
Proof.
  intros Hm Hk self b self' Hnone H.
  apply cfg_bind_return in H as (a & self1 & H1 & H2).
  eapply Hk; [|exact H2]. eapply Hm; eauto.
Qed.

Lemma needs_store_module (module : string) (v : pyval) :
  needs_options_modules (Config.store_module module v).
Proof.
  intros self a self' Hnone; now rewrite store_module_none.
Qed.

Lemma keeps_none_read_section_connection (configuration : pyval) :
  keeps_none (Config._read_section_connection E configuration).
Proof.
  intros self u self' H Hnone.
  apply read_section_connection_update in H.
  unfold connection_update in H.
  destruct H as (_ & _ & _ & _ & _ & _ & _ & _ & _ & _ & _ & _ & _ & _ & H).
  congruence.
Qed.

Lemma keeps_none_read_section_pvwa (configuration : pyval) :
  keeps_none (Config._read_section_pvwa E configuration).
Proof.
  intros self u self' H Hnone.
  apply read_section_pvwa_inv in H as (d & sv & sm & -> & Hloop & _ & _).
  apply read_section_pvwa_loop_spec in Hloop as (_ & _ & _ & Hup).
  unfold pvwa_update in Hup.
  destruct Hup as (_ & _ & _ & _ & _ & _ & _ & _ & _ & _ & _ & _ & _ & _ & H & _).
  congruence.
Qed.

Lemma needs_read_section_aim (configuration : pyval) :
  needs_options_modules (Config._read_section_aim E configuration).
Proof.
  intros self v self' Hnone.
  apply (proj1 (read_section_aim_none configuration self Hnone)).
Qed.

Lemma keeps_none_init_options_modules (modules : list string) :
  keeps_none (Config.init_options_modules modules).
Proof.
  destruct modules as [|module rest]; [apply keeps_none_ret|].
  apply keeps_none_needs; cbn [Config.init_options_modules].
  apply needs_bind_left, needs_store_module.
Qed.

Section Constructor.

Variable D : Config.Deps.

(** X30.  [Config.__init__] never returns: whatever the file holds, every
    path ends in an exception, that of a section reader or of the YAML
    loader, or the [AttributeError] of a store into [self.options_modules],
    an attribute no statement creates.  When the list of option modules is
    not empty this happens at line 46, before the file is opened. *)
Theorem init_never_returns (configfile : pyval) :
  (forall u self', Config.__init__ E D configfile <> (Return u, self'))
  /\ (Config.CYBERARK_OPTIONS_MODULES_LIST D <> [] ->
      fst (Config.__init__ E D configfile)
      = Raise (AttributeError "'Config' object has no attribute 'options_modules'")).
Proof.
  split.
  - intros u self'; unfold Config.__init__.
    match goal with
    | |- ?m ?self0 <> _ =>
        assert (Hneeds : needs_options_modules m); [|apply Hneeds; reflexivity]
    end.
    apply needs_bind_right; [apply keeps_none_init_options_modules|intros _].
    apply needs_bind_right; [apply keeps_none_lift|intros loaded].
    apply needs_bind_right; [apply keeps_none_lift|intros ks].
    apply needs_bind_right; [apply keeps_none_lift|intros configuration].
    apply needs_bind_right; [|intros _].
    { destruct (Config.section_given "connection" configuration);
        [|apply keeps_none_ret].
      apply keeps_none_bind; [apply keeps_none_lift|intros v].
      apply keeps_none_read_section_connection. }
    apply needs_bind_right; [|intros _].
    { destruct (Config.section_given "pvwa" configuration);
        [|apply keeps_none_ret].
      apply keeps_none_bind; [apply keeps_none_lift|intros v].
      apply keeps_none_read_section_pvwa. }
    apply needs_bind_right; [|intros _].
    { destruct (dict_contains "label" configuration); [|apply keeps_none_ret].
      apply keeps_none_bind; [apply keeps_none_lift|intros v].
      apply keeps_none_modify_self; reflexivity. }
    apply needs_bind_right; [|intros _].
    { destruct (dict_contains "custom" configuration); [|apply keeps_none_ret].
      apply keeps_none_bind; [apply keeps_none_lift|intros v].
      apply keeps_none_modify_self; reflexivity. }
    apply needs_bind_right; [|intros _].
    { destruct (dict_contains "customipfield" configuration);
        [|apply keeps_none_ret].
      apply keeps_none_bind; [apply keeps_none_lift|intros v].
      apply keeps_none_modify_self; reflexivity. }
    apply needs_bind_right; [|intros _].
    { destruct (Config.section_given "aim" configuration); [|apply keeps_none_ret].
      apply keeps_none_needs.
      apply needs_bind_right; [apply keeps_none_lift|intros v].
      apply needs_bind_left, needs_read_section_aim. }
    apply needs_bind_right; [apply keeps_none_get_self|intros self].
    apply needs_bind_right; [apply keeps_none_lift|intros moved].
    apply needs_bind_right; [|intros _].
    { destruct moved; [apply keeps_none_raise|apply keeps_none_ret]. }
    apply needs_bind_left.
    destruct (Config.section_given "account" configuration).
    + apply needs_bind_right; [apply keeps_none_lift|intros v].
      apply needs_bind_right; [apply keeps_none_lift|intros r].
      apply needs_store_module.
    + apply needs_bind_right; [apply keeps_none_lift|intros r].
      apply needs_store_module.
  - intros Hne; unfold Config.__init__.
    destruct (Config.CYBERARK_OPTIONS_MODULES_LIST D) as [|module rest];
      [congruence|].
    reflexivity.
Qed.

End Constructor.

End ConfigMethods.

Lemma read_section_pvwa_returns_witness :
  let configuration :=
    PDict [("Host", PStr "pvwa.example.com"); ("MaxTasks", PStr "5");
           ("CA", PBool false); ("Keep_Cookies", PStr "Yes")] in
  let self' :=
    Config.set_keep_cookies (PBool true)
      (Config.set_PVWA_CA (PBool false)
         (Config.set_max_concurrent_tasks (PInt 5)
            (Config.set_PVWA (PStr "pvwa.example.com") sample_config))) in
  Config._read_section_pvwa offline_env configuration sample_config
  = (Return tt, self')
  /\ exists d,
       configuration = PDict d
       /\ forallb pvwa_attribute (keys d) = true
       /\ (count_keys ["verify"; "ca"] d <= 1)%nat
       /\ (count_keys ["maxtasks"; "max_concurrent_tasks"] d <= 1)%nat
       /\ pvwa_update sample_config self'.
Proof.
  cbv zeta.
  match goal with |- ?R /\ _ => assert (Hrun : R) by reflexivity end.
  split; [exact Hrun|].
  exact (read_section_pvwa_returns offline_env _ _ _ _ Hrun).
Defined.

Lemma read_section_connection_returns_witness :
  let configuration :=
    PDict [("Username", PStr "admin");
           ("User_Search", PDict [("Safe", PStr "Prod"); ("object", PStr "root")])] in
  let self' :=
    Config.set_user_search (PDict [("object", PStr "root"); ("safe", PStr "Prod")])
      (Config.set_user_search
         (PDict [("Safe", PStr "Prod"); ("object", PStr "root")])
         (Config.set_username (PStr "admin") sample_config)) in
  Config._read_section_connection offline_env configuration sample_config
  = (Return tt, self')
  /\ forall us, Config.user_search self' = PDict us ->
       forall k, In k (keys us) -> In k _GETPASSWORD_REQUEST_PARM.
Proof.
  cbv zeta.
  match goal with |- ?R /\ _ => assert (Hrun : R) by reflexivity end.
  split; [exact Hrun|].
  destruct (read_section_connection_returns offline_env _ _ _ _ Hrun)
    as (d & _ & _ & _ & _ & Hus).
  exact Hus.
Defined.

Lemma section_readers_need_options_modules_witness :
  Config.options_modules sample_config = None
  /\ Config._read_section_aim offline_env (PDict [("Cert", PStr "client.pem")])
       sample_config
     = (Raise (AttributeError "'Config' object has no attribute 'options_modules'"),
        Config.set_AIM
          (PDict [("appid", PNone); ("cert", PStr "client.pem"); ("host", PNone);
                  ("keep_cookies", PBool false); ("key", PNone);
                  ("max_concurrent_tasks", PNone); ("passphrase", PNone);
                  ("timeout", PNone); ("verify", PNone)])
          sample_config).
Proof.
  split; [reflexivity|].
  exact (proj1 (proj2 (section_readers_need_options_modules offline_env "account"
                         (PDict [("Cert", PStr "client.pem")]) sample_config
                         eq_refl))
           _ _ eq_refl eq_refl).
Defined.

Lemma init_never_returns_witness :
  Config.CYBERARK_OPTIONS_MODULES_LIST sample_deps <> []
  /\ fst (Config.__init__ offline_env sample_deps (PStr "config.yml"))
     = Raise (AttributeError "'Config' object has no attribute 'options_modules'").
Proof.
  assert (Hne : Config.CYBERARK_OPTIONS_MODULES_LIST sample_deps <> [])
    by discriminate.
  split; [exact Hne|].
  exact (proj2 (init_never_returns offline_env sample_deps (PStr "config.yml")) Hne).
Defined.
